(** * retainit: a shallow embedding of the caching execution engine

    The development follows the Python sources
    - [src/retainit/backends/memory.py]  (class [MemoryCache]),
    - [src/retainit/backends/disk.py]    (class [DiskCache]),
    - [src/retainit/core.py]             ([CacheManager], [build_cache_key],
                                          [_get_cached_value], [retain]),
    - [src/retainit/events.py]           (class [EventEmitter]),
    - [src/retainit/registry.py]         (class [BackendRegistry]).

    Coroutines are embedded as state-passing programs over the object they
    act on and a [World] holding everything that is global in the Python
    process: the wall clock, the file system, the calls made to the event
    bus, the error log.  A program ends in one of three ways: it returns,
    it raises, or it is suspended for ever on an [asyncio.Lock] that
    nobody is left to release.

    Times are integers: the readings of [time.time()] and the time to
    live of an entry are counted in the same unit. *)

From Stdlib Require Import ZArith String Ascii List Bool Lia.
From stdpp Require Import base gmap strings pretty sorting.

Import ListNotations.
Set Warnings "-register-all".
Local Open Scope string_scope.
Local Open Scope Z_scope.

(** ** Python values *)

(** The payloads a cached function may return.  [PyFunction] stands for
    function objects such as lambdas, which [pickle] refuses. *)
Inductive pyval : Type :=
| PyNone
| PyBool (b : bool)
| PyInt (z : Z)
| PyStr (s : string)
| PyBytes (b : list Byte.byte)
| PyList (l : list pyval)
| PyDict (d : list (pyval * pyval))
| PyFunction (qualname : string).

(** [value is None] *)
Definition is_None (v : pyval) : bool :=
  match v with PyNone => true | _ => false end.

(** [type(v).__name__] *)
Definition type_name (v : pyval) : string :=
  match v with
  | PyNone => "NoneType"
  | PyBool _ => "bool"
  | PyInt _ => "int"
  | PyStr _ => "str"
  | PyBytes _ => "bytes"
  | PyList _ => "list"
  | PyDict _ => "dict"
  | PyFunction _ => "function"
  end.

(** Truth value of an [Optional] number, as tested by [if ttl], [if expiry]
    and [self.max_size and ...]: [None] and zero are false. *)
Definition truthy (o : option Z) : bool :=
  match o with
  | Some z => negb (z =? 0)
  | None => false
  end.

(** [a or b] on optional numbers. *)
Definition py_or (a b : option Z) : option Z :=
  if truthy a then a else b.

(** An optional number as a Python value (for event payloads). *)
Definition of_optional (o : option Z) : pyval :=
  match o with Some z => PyInt z | None => PyNone end.

(** ** Exceptions *)

Inductive exn_class : Type :=
| OSError
| FileNotFoundError
| PickleError
| EOFError
| ZlibError
| RuntimeError
| UnboundLocalError
| AttributeError
| TypeError
| ValueError
| UserError (name : string)
| KeyboardInterrupt
| SystemExit
| CancelledError.

Record exn : Type := { exn_type : exn_class; exn_str : string }.

(** [type(e).__name__] *)
Definition class_name (c : exn_class) : string :=
  match c with
  | OSError => "OSError"
  | FileNotFoundError => "FileNotFoundError"
  | PickleError => "PickleError"
  | EOFError => "EOFError"
  | ZlibError => "error"
  | RuntimeError => "RuntimeError"
  | UnboundLocalError => "UnboundLocalError"
  | AttributeError => "AttributeError"
  | TypeError => "TypeError"
  | ValueError => "ValueError"
  | UserError name => name
  | KeyboardInterrupt => "KeyboardInterrupt"
  | SystemExit => "SystemExit"
  | CancelledError => "CancelledError"
  end.

(** [isinstance(e, Exception)]: everything but the three classes that
    derive from [BaseException] directly. *)
Definition is_Exception (e : exn) : bool :=
  match exn_type e with
  | KeyboardInterrupt | SystemExit | CancelledError => false
  | _ => true
  end.

(** [isinstance(e, OSError)] *)
Definition is_OSError (e : exn) : bool :=
  match exn_type e with
  | OSError | FileNotFoundError => true
  | _ => false
  end.

(** [isinstance(e, pickle.PickleError)] *)
Definition is_PickleError (e : exn) : bool :=
  match exn_type e with
  | PickleError => true
  | _ => false
  end.

(** ** Events and the world *)

(** [events.EventType] *)
Inductive EventType : Type :=
| CACHE_HIT | CACHE_MISS | CACHE_SET | CACHE_DELETE | CACHE_CLEAR | CACHE_ERROR
| FUNCTION_CALL_START | FUNCTION_CALL_END | FUNCTION_ERROR
| BACKEND_INIT | BACKEND_CLOSE.

(** One call [events.emit(event_type, data)]: the event type and the dict
    literal passed, in source order. *)
Record Event : Type := { event_type : EventType; event_data : list (string * pyval) }.

(** [data.get(name)] on an event payload. *)
Fixpoint field (name : string) (data : list (string * pyval)) : option pyval :=
  match data with
  | [] => None
  | (k, v) :: rest => if String.eqb name k then Some v else field name rest
  end.

(** Everything global to the process. *)
Record World : Type := {
  clock : nat -> Z;             (* successive readings of time.time() *)
  ticks : nat;                  (* readings consumed so far *)
  files : gmap string (list Byte.byte);  (* regular files, by path *)
  dirs : list string;           (* directories created so far *)
  faults : list bool;           (* fault plan: does the next syscall fail? *)
  emitted : list Event;         (* calls to events.emit, oldest first *)
  scheduled : list Event;       (* emissions handed to asyncio.create_task *)
  logged : list string;         (* logger.error messages, oldest first *)
  calls : nat                   (* executions of wrapped function bodies *)
}.

Definition with_ticks (n : nat) (w : World) : World :=
  {| clock := clock w; ticks := n; files := files w; dirs := dirs w;
     faults := faults w; emitted := emitted w; scheduled := scheduled w;
     logged := logged w; calls := calls w |}.

Definition with_files (f : gmap string (list Byte.byte)) (w : World) : World :=
  {| clock := clock w; ticks := ticks w; files := f; dirs := dirs w;
     faults := faults w; emitted := emitted w; scheduled := scheduled w;
     logged := logged w; calls := calls w |}.

Definition with_dirs (d : list string) (w : World) : World :=
  {| clock := clock w; ticks := ticks w; files := files w; dirs := d;
     faults := faults w; emitted := emitted w; scheduled := scheduled w;
     logged := logged w; calls := calls w |}.

Definition with_faults (f : list bool) (w : World) : World :=
  {| clock := clock w; ticks := ticks w; files := files w; dirs := dirs w;
     faults := f; emitted := emitted w; scheduled := scheduled w;
     logged := logged w; calls := calls w |}.

Definition with_emitted (e : list Event) (w : World) : World :=
  {| clock := clock w; ticks := ticks w; files := files w; dirs := dirs w;
     faults := faults w; emitted := e; scheduled := scheduled w;
     logged := logged w; calls := calls w |}.

Definition with_scheduled (e : list Event) (w : World) : World :=
  {| clock := clock w; ticks := ticks w; files := files w; dirs := dirs w;
     faults := faults w; emitted := emitted w; scheduled := e;
     logged := logged w; calls := calls w |}.

Definition with_logged (l : list string) (w : World) : World :=
  {| clock := clock w; ticks := ticks w; files := files w; dirs := dirs w;
     faults := faults w; emitted := emitted w; scheduled := scheduled w;
     logged := l; calls := calls w |}.

Definition with_calls (n : nat) (w : World) : World :=
  {| clock := clock w; ticks := ticks w; files := files w; dirs := dirs w;
     faults := faults w; emitted := emitted w; scheduled := scheduled w;
     logged := logged w; calls := n |}.

(** ** Programs *)

(** How a coroutine over an object of type [S] ends.  [Blocked] is a
    coroutine awaiting [lock.acquire()] on an [asyncio.Lock] that is held:
    [asyncio.Lock] is not reentrant, the waiter is resumed only by a
    [release()], and in the runs considered here (one task driving the
    cache) the only holder is the waiter itself. *)
Inductive result (S A : Type) : Type :=
| Returned (a : A) (s : S) (w : World)
| Raised (e : exn) (s : S) (w : World)
| Blocked (s : S) (w : World).

Arguments Returned {S A} a s w.
Arguments Raised {S A} e s w.
Arguments Blocked {S A} s w.

Definition prog (S A : Type) : Type := S -> World -> result S A.

Definition ret {S A} (a : A) : prog S A := fun s w => Returned a s w.

Definition raise {S A} (e : exn) : prog S A := fun s w => Raised e s w.

Definition bind {S A B} (m : prog S A) (k : A -> prog S B) : prog S B :=
  fun s w =>
    match m s w with
    | Returned a s' w' => k a s' w'
    | Raised e s' w' => Raised e s' w'
    | Blocked s' w' => Blocked s' w'
    end.

Notation "'let!' x ':=' m 'in' k" := (bind m (fun x => k))
  (at level 10, x name, m at level 100, k at level 200).
Notation "m ';;;' k" := (bind m (fun _ => k))
  (at level 100, k at level 200, right associativity).

(** [try: body except <classes matching handles>: handler] *)
Definition try_except {S A} (body : prog S A) (handles : exn -> bool)
    (handler : exn -> prog S A) : prog S A :=
  fun s w =>
    match body s w with
    | Raised e s' w' => if handles e then handler e s' w' else Raised e s' w'
    | r => r
    end.

Definition get_self {S} : prog S S := fun s w => Returned s s w.
Definition put_self {S} (s : S) : prog S unit := fun _ w => Returned tt s w.
Definition get_world {S} : prog S World := fun s w => Returned w s w.
Definition put_world {S} (w : World) : prog S unit := fun s _ => Returned tt s w.

(** [async with lock: body], for a lock stored in the object: wait for
    the lock, run the body, release on the way out (also when the body
    raises).  A body that never finishes never releases. *)
Definition async_with {S A} (locked : S -> bool) (set_locked : bool -> S -> S)
    (body : prog S A) : prog S A :=
  fun s w =>
    if locked s then Blocked s w
    else
      match body (set_locked true s) w with
      | Returned a s' w' => Returned a (set_locked false s') w'
      | Raised e s' w' => Raised e (set_locked false s') w'
      | Blocked s' w' => Blocked s' w'
      end.

(** [time.time()] *)
Definition time_time {S} : prog S Z :=
  fun s w => Returned (clock w (ticks w)) s (with_ticks (Datatypes.S (ticks w)) w).

(** [await events.emit(event_type, data)].  The event bus is a
    collaborator: what is recorded is the call.  It never raises into
    the caller, [EventEmitter.emit] catches what handlers raise. *)
Definition events_emit {S} (ty : EventType) (data : list (string * pyval)) : prog S unit :=
  fun s w =>
    Returned tt s (with_emitted (emitted w ++ [{| event_type := ty; event_data := data |}]) w).

(** [asyncio.create_task(events.emit(event_type, data))]: the emission is
    queued on the loop, not performed. *)
Definition create_task_emit {S} (ty : EventType) (data : list (string * pyval)) : prog S unit :=
  fun s w =>
    Returned tt s (with_scheduled (scheduled w ++ [{| event_type := ty; event_data := data |}]) w).

(** [logger.error(msg)] *)
Definition logger_error {S} (msg : string) : prog S unit :=
  fun s w => Returned tt s (with_logged (logged w ++ [msg]) w).

(** ** Python dicts

    A [dict] keeps its keys in insertion order and holds each key once:
    an association list, updated in place when the key is there and
    extended at the end when it is not. *)

Section Dict.
Context {V : Type}.

(** [d.get(k)] / [d[k]] *)
Fixpoint dict_get (k : string) (d : list (string * V)) : option V :=
  match d with
  | [] => None
  | (k', v) :: rest => if String.eqb k k' then Some v else dict_get k rest
  end.

(** [k in d] *)
Definition dict_in (k : string) (d : list (string * V)) : bool :=
  match dict_get k d with Some _ => true | None => false end.

(** [d[k] = v] *)
Fixpoint dict_set (k : string) (v : V) (d : list (string * V)) : list (string * V) :=
  match d with
  | [] => [(k, v)]
  | (k', v') :: rest =>
      if String.eqb k k' then (k', v) :: rest else (k', v') :: dict_set k v rest
  end.

(** [del d[k]] *)
Fixpoint dict_del (k : string) (d : list (string * V)) : list (string * V) :=
  match d with
  | [] => []
  | (k', v') :: rest =>
      if String.eqb k k' then rest else (k', v') :: dict_del k rest
  end.

(** Keys are unique. *)
Definition dict_wf (d : list (string * V)) : Prop := NoDup (map fst d).

(** [min(first :: rest, key=f)]: the running best is replaced only by
    a strictly smaller item, so the earliest minimum wins. *)
Fixpoint min_by (f : string * V -> Z) (best : string * V) (rest : list (string * V))
    : string * V :=
  match rest with
  | [] => best
  | x :: rest' => min_by f (if f x <? f best then x else best) rest'
  end.
End Dict.

(** ** The Bounded Memory Store: [backends/memory.py] *)

Module MemoryCache.

(** [key -> (value, expiry, last_access)] *)
Definition entry : Type := pyval * option Z * Z.

Definition last_access (kv : string * entry) : Z := snd (snd kv).

Record t : Type := {
  max_size : option Z;
  cache : list (string * entry);
  lock : bool                   (* is [self.lock] held? *)
}.

Definition __init__ (max_size : option Z) : t :=
  {| max_size := max_size; cache := []; lock := false |}.

Definition with_cache (c : list (string * entry)) (self : t) : t :=
  {| max_size := max_size self; cache := c; lock := lock self |}.

Definition with_lock (b : bool) (self : t) : t :=
  {| max_size := max_size self; cache := cache self; lock := b |}.

Definition len (self : t) : Z := Z.of_nat (length (cache self)).

(** [async def delete(self, key)] *)
Definition delete (key : string) : prog t unit :=
  async_with lock with_lock
    (let! self := get_self in
     if dict_in key (cache self)
     then put_self (with_cache (dict_del key (cache self)) self)
     else ret tt).

(** [async def get(self, key)] *)
Definition get (key : string) : prog t pyval :=
  async_with lock with_lock
    (let! self := get_self in
     match dict_get key (cache self) with
     | None => ret PyNone
     | Some (value, expiry, _) =>
         let! expired :=
           (if truthy expiry
            then let! now := time_time in
                 ret (match expiry with Some e => e <? now | None => false end)
            else ret false) in
         if expired
         then delete key ;;; ret PyNone
         else
           let! now := time_time in
           let! self := get_self in
           put_self (with_cache (dict_set key (value, expiry, now) (cache self)) self) ;;;
           ret value
     end).

(** [def _evict_lru(self)] *)
Definition _evict_lru : prog t unit :=
  let! self := get_self in
  match cache self with
  | [] => ret tt
  | first :: rest =>
      let oldest_key := fst (min_by last_access first rest) in
      if dict_in oldest_key (cache self)
      then put_self (with_cache (dict_del oldest_key (cache self)) self)
      else ret tt
  end.

(** [self.max_size and len(self.cache) >= self.max_size and key not in
    self.cache] *)
Definition at_capacity (self : t) (key : string) : bool :=
  truthy (max_size self)
  && match max_size self with Some n => len self >=? n | None => false end
  && negb (dict_in key (cache self)).

(** [async def set(self, key, value, ttl=None)] *)
Definition set (key : string) (value : pyval) (ttl : option Z) : prog t unit :=
  async_with lock with_lock
    (let! self := get_self in
     (if at_capacity self key then _evict_lru else ret tt) ;;;
     let! expiry :=
       (if truthy ttl
        then let! now := time_time in
             ret (match ttl with Some t => Some (now + t) | None => None end)
        else ret None) in
     let! now := time_time in
     let! self := get_self in
     put_self (with_cache (dict_set key (value, expiry, now) (cache self)) self)).

(** [async def clear(self)] *)
Definition clear : prog t unit :=
  async_with lock with_lock
    (let! self := get_self in put_self (with_cache [] self)).

End MemoryCache.

(** ** The Python runtime

    What the sources import from the standard library and use as black
    boxes. *)

(** The dict [{"value": ..., "expiry": ..., "created": ...}] that
    [DiskCache] stores in a file. *)
Record envelope : Type := {
  env_value : pyval;
  env_expiry : option Z;
  env_created : Z
}.

Class PyRuntime : Type := {
  (** [hashlib.md5(s.encode()).hexdigest()] *)
  md5_hexdigest : string -> string;
  (** [pickle.dumps(data)]; [None] when it raises [pickle.PicklingError] *)
  pickle_dumps : envelope -> option (list Byte.byte);
  (** [pickle.loads(raw)]; [None] when it raises [pickle.PickleError] or
      [EOFError] *)
  pickle_loads : list Byte.byte -> option envelope;
  (** [zlib.compress(raw)] *)
  zlib_compress : list Byte.byte -> list Byte.byte;
  (** [zlib.decompress(raw)]; [None] when it raises [zlib.error] *)
  zlib_decompress : list Byte.byte -> option (list Byte.byte);
  (** [hash(v)]; [None] when it raises [TypeError] (unhashable) *)
  py_hash : pyval -> option Z;
  (** [str(v)] *)
  py_str : pyval -> string;
  (** [traceback.format_exc()] while handling [e] *)
  format_exc : exn -> string
}.

(** ** The file system

    Every system call consults the fault plan of the world: a [true] at
    its head makes the call fail with [OSError] and leaves the files as
    they are. *)

Definition io_error : exn :=
  {| exn_type := OSError; exn_str := "[Errno 5] Input/output error" |}.

Definition no_such_file (path : string) : exn :=
  {| exn_type := FileNotFoundError;
     exn_str := "[Errno 2] No such file or directory: " ++ path |}.

(** Run [ok] unless the plan says that this system call fails. *)
Definition syscall {S A} (ok : prog S A) : prog S A :=
  fun s w =>
    match faults w with
    | [] => ok s w
    | true :: plan => Raised io_error s (with_faults plan w)
    | false :: plan => ok s (with_faults plan w)
    end.

(** [path.mkdir(parents=True, exist_ok=True)] *)
Definition fs_mkdir {S} (path : string) : prog S unit :=
  syscall (fun s w =>
    Returned tt s (with_dirs (if bool_decide (path ∈ dirs w) then dirs w else path :: dirs w) w)).

(** [path.exists()] *)
Definition fs_exists {S} (path : string) : prog S bool :=
  fun s w => Returned (bool_decide (is_Some (files w !! path))) s w.

(** [open(path, "wb")]: creates the file, or truncates it. *)
Definition fs_open_write {S} (path : string) : prog S unit :=
  syscall (fun s w => Returned tt s (with_files (<[path := []]> (files w)) w)).

(** Writing [raw] to the file opened on [path] and closing it. *)
Definition fs_write {S} (path : string) (raw : list Byte.byte) : prog S unit :=
  syscall (fun s w => Returned tt s (with_files (<[path := raw]> (files w)) w)).

(** [open(path, "rb")] *)
Definition fs_open_read {S} (path : string) : prog S unit :=
  syscall (fun s w =>
    match files w !! path with
    | Some _ => Returned tt s w
    | None => Raised (no_such_file path) s w
    end).

(** [f.read()] on the file opened on [path]. *)
Definition fs_read {S} (path : string) : prog S (list Byte.byte) :=
  syscall (fun s w =>
    match files w !! path with
    | Some raw => Returned raw s w
    | None => Raised (no_such_file path) s w
    end).

(** [os.replace(src, dst)] *)
Definition fs_replace {S} (src dst : string) : prog S unit :=
  syscall (fun s w =>
    match files w !! src with
    | Some raw => Returned tt s (with_files (<[dst := raw]> (base.delete src (files w))) w)
    | None => Raised (no_such_file src) s w
    end).

(** [path.unlink()] *)
Definition fs_unlink {S} (path : string) : prog S unit :=
  syscall (fun s w =>
    match files w !! path with
    | Some _ => Returned tt s (with_files (base.delete path (files w)) w)
    | None => Raised (no_such_file path) s w
    end).

(** [shutil.rmtree(root)]: everything below [root] goes. *)
Definition fs_rmtree {S} (root : string) : prog S unit :=
  syscall (fun s w =>
    Returned tt s
      (with_dirs (List.filter (fun d => negb (String.prefix root d)) (dirs w))
         (with_files (filter (fun kv => String.prefix (root ++ "/") (fst kv) = false) (files w)) w))).

(** ** Local variables of a frame

    [DiskCache.set] reads, in its [except] clause, a local variable that
    the [try] block assigns part of the way through.  A frame runs a
    program over the object together with its locals. *)

Definition frame {S L A} (init : L) (body : prog (S * L) A) : prog S A :=
  fun s w =>
    match body (s, init) w with
    | Returned a sl w' => Returned a (fst sl) w'
    | Raised e sl w' => Raised e (fst sl) w'
    | Blocked sl w' => Blocked (fst sl) w'
    end.

(** A program of the object, run inside a frame. *)
Definition on_self {S L A} (m : prog S A) : prog (S * L) A :=
  fun sl w =>
    match m (fst sl) w with
    | Returned a s' w' => Returned a (s', snd sl) w'
    | Raised e s' w' => Raised e (s', snd sl) w'
    | Blocked s' w' => Blocked (s', snd sl) w'
    end.

Definition get_local {S L} : prog (S * L) L := fun sl w => Returned (snd sl) sl w.
Definition set_local {S L} (l : L) : prog (S * L) unit := fun sl w => Returned tt (fst sl, l) w.

(** [try: body finally: cleanup] *)
Definition try_finally {S A} (body : prog S A) (cleanup : prog S unit) : prog S A :=
  fun s w =>
    match body s w with
    | Returned a s' w' => bind cleanup (fun _ => ret a) s' w'
    | Raised e s' w' => bind cleanup (fun _ => raise e) s' w'
    | Blocked s' w' => Blocked s' w'
    end.

(** ** The Durable File Store: [backends/disk.py] *)

(** A [pathlib.Path] to a file: directory, stem and suffix of the name. *)
Record Path : Type := { parent : string; stem : string; suffix : string }.

(** [str(path)] *)
Definition str_path (p : Path) : string := parent p ++ "/" ++ stem p ++ suffix p.

(** [path.with_suffix(suffix)] *)
Definition with_suffix (new_suffix : string) (p : Path) : Path :=
  {| parent := parent p; stem := stem p; suffix := new_suffix |}.

Module DiskCache.
Section WithRuntime.
Context `{PyRuntime}.

Record t : Type := {
  base_directory : string;
  compression : bool;
  file_locks : gmap string bool;   (* [str(path)] to "is that lock held?" *)
  global_lock : bool
}.

Definition with_file_locks (l : gmap string bool) (self : t) : t :=
  {| base_directory := base_directory self; compression := compression self;
     file_locks := l; global_lock := global_lock self |}.

Definition with_global_lock (b : bool) (self : t) : t :=
  {| base_directory := base_directory self; compression := compression self;
     file_locks := file_locks self; global_lock := b |}.

(** The lock that [_get_file_lock] handed out for [handle]. *)
Definition held (handle : string) (self : t) : bool :=
  default false (file_locks self !! handle).

Definition set_held (handle : string) (b : bool) (self : t) : t :=
  with_file_locks (<[handle := b]> (file_locks self)) self.

(** [def __init__(self, base_directory, compression)] *)
Definition __init__ (base_directory : string) (compression : bool) : prog unit t :=
  fs_mkdir base_directory ;;;
  ret {| base_directory := base_directory; compression := compression;
         file_locks := ∅; global_lock := false |}.

(** [def _key_to_path(self, key)].  The name of the file is
    [f"{key_hash}.cache"]; a hex digest has no dot, so its stem is the
    digest. *)
Definition _key_to_path (key : string) : prog t Path :=
  let! self := get_self in
  let key_hash := md5_hexdigest key in
  let subdir := base_directory self ++ "/" ++ substring 0 2 key_hash in
  fs_mkdir subdir ;;;
  ret {| parent := subdir; stem := key_hash; suffix := ".cache" |}.

(** [async def _get_file_lock(self, path)].  The lock object is named
    by its key in [file_locks]. *)
Definition _get_file_lock (path : Path) : prog t string :=
  let str_path := str_path path in
  async_with global_lock with_global_lock
    (let! self := get_self in
     (match file_locks self !! str_path with
      | None => put_self (with_file_locks (<[str_path := false]> (file_locks self)) self)
      | Some _ => ret tt
      end) ;;;
     ret str_path).

(** [async def delete(self, key)] *)
Definition delete (key : string) : prog t unit :=
  let! path := _key_to_path key in
  let! file_lock := _get_file_lock path in
  try_except
    (async_with (held file_lock) (set_held file_lock)
       (let! present := fs_exists (str_path path) in
        if present then fs_unlink (str_path path) else ret tt))
    is_OSError
    (fun e =>
       logger_error ("Error deleting cache file " ++ str_path path ++ ": " ++ exn_str e)).

(** The [pickle.load] of [get], under its own [try]: [None] stands for
    the [return None] of the inner [except] clauses. *)
Definition load (path : Path) : prog t (option envelope) :=
  let! self := get_self in
  let! raw := fs_read (str_path path) in
  if compression self
  then
    match zlib_decompress raw with
    | None =>
        logger_error ("Error decompressing/unpickling cache file " ++ str_path path) ;;;
        ret None
    | Some plain =>
        match pickle_loads plain with
        | None =>
            logger_error ("Error decompressing/unpickling cache file " ++ str_path path) ;;;
            ret None
        | Some data => ret (Some data)
        end
    end
  else
    match pickle_loads raw with
    | None => logger_error ("Error unpickling cache file " ++ str_path path) ;;; ret None
    | Some data => ret (Some data)
    end.

(** [async def get(self, key)] *)
Definition get (key : string) : prog t pyval :=
  let! path := _key_to_path key in
  let! file_lock := _get_file_lock path in
  try_except
    (async_with (held file_lock) (set_held file_lock)
       (let! present := fs_exists (str_path path) in
        if negb present then ret PyNone
        else
          fs_open_read (str_path path) ;;;
          let! loaded := load path in
          match loaded with
          | None => ret PyNone
          | Some data =>
              let expiry := env_expiry data in
              let! expired :=
                (if truthy expiry
                 then let! now := time_time in
                      ret (match expiry with Some e => e <? now | None => false end)
                 else ret false) in
              if expired
              then delete key ;;; ret PyNone
              else ret (env_value data)
          end))
    is_OSError
    (fun e =>
       logger_error ("Error reading cache file " ++ str_path path ++ ": " ++ exn_str e) ;;;
       ret PyNone).

(** The [except (OSError, pickle.PickleError)] clause of [set]. *)
Definition handles_write_error (e : exn) : bool := is_OSError e || is_PickleError e.

Definition unbound_temp_path : exn :=
  {| exn_type := UnboundLocalError;
     exn_str := "cannot access local variable 'temp_path' where it is not associated with a value" |}.

Definition pickling_error : exn :=
  {| exn_type := PickleError; exn_str := "Can't pickle object" |}.

(** [async def set(self, key, value, ttl=None)].  The local
    [temp_path] is assigned inside the [try] block, after the [mkdir],
    and read in the [except] clause. *)
Definition set (key : string) (value : pyval) (ttl : option Z) : prog t unit :=
  let! path := _key_to_path key in
  let! file_lock := _get_file_lock path in
  let! expiry :=
    (if truthy ttl
     then let! now := time_time in
          ret (match ttl with Some t => Some (now + t) | None => None end)
     else ret None) in
  let! created := time_time in
  let data := {| env_value := value; env_expiry := expiry; env_created := created |} in
  frame (None : option Path)
    (try_except
       (async_with (fun sl => held file_lock (fst sl))
                   (fun b sl => (set_held file_lock b (fst sl), snd sl))
          (fs_mkdir (parent path) ;;;
           let temp_path := with_suffix ".tmp" path in
           set_local (Some temp_path) ;;;
           fs_open_write (str_path temp_path) ;;;
           let! self := on_self get_self in
           (match pickle_dumps data with
            | None => raise pickling_error
            | Some raw =>
                fs_write (str_path temp_path)
                  (if compression self then zlib_compress raw else raw)
            end) ;;;
           fs_replace (str_path temp_path) (str_path path)))
       handles_write_error
       (fun e =>
          logger_error ("Error writing cache file " ++ str_path path ++ ": " ++ exn_str e) ;;;
          let! temp_path := get_local in
          match temp_path with
          | None => raise unbound_temp_path
          | Some temp_path =>
              let! present := fs_exists (str_path temp_path) in
              if present
              then try_except (fs_unlink (str_path temp_path)) is_OSError (fun _ => ret tt)
              else ret tt
          end)).

(** [async def clear(self)].  Acquiring the file locks one after the
    other blocks at the first one that is held. *)
Definition clear : prog t unit :=
  try_except
    (async_with global_lock with_global_lock
       (let! self := get_self in
        let all_locks := file_locks self in
        if bool_decide (map_Exists (fun _ b => b = true) all_locks)
        then (fun s w => Blocked s w)
        else
          put_self (with_file_locks ((fun _ => true) <$> all_locks) self) ;;;
          try_finally
            (fs_rmtree (base_directory self) ;;;
             fs_mkdir (base_directory self))
            (let! self := get_self in put_self (with_file_locks ∅ self))))
    is_OSError
    (fun e =>
       let! self := get_self in
       logger_error ("Error clearing disk cache at " ++ base_directory self ++ ": " ++ exn_str e)).
End WithRuntime.
End DiskCache.

(** ** Settings and the backend interface *)

(** [config.CacheBackendType] *)
Inductive CacheBackendType : Type := MEMORY | DISK | REDIS | S3 | DYNAMODB | TIERED.

Module Settings.
(** The fields of [settings.Settings] that the engine reads.  The
    three booleans say whether the settings of a remote backend are
    configured. *)
Record t : Type := {
  backend : CacheBackendType;
  ttl : option Z;
  base_path : string;
  compression : bool;
  key_prefix : string;
  max_size : option Z;
  redis : bool;
  s3 : bool;
  dynamodb : bool
}.

(** [settings.backend.value] *)
Definition backend_value (st : t) : string :=
  match backend st with
  | MEMORY => "memory"
  | DISK => "disk"
  | REDIS => "redis"
  | S3 => "s3"
  | DYNAMODB => "dynamodb"
  | TIERED => "tiered"
  end.
End Settings.

(** [backends/base.py]: the abstract class [CacheBackend], together with
    the construction of the backend from the settings that
    [CacheManager._ensure_initialized] performs for it. *)
Class CacheBackend (B : Type) : Type := {
  construct : Settings.t -> prog unit B;
  backend_get : string -> prog B pyval;
  backend_set : string -> pyval -> option Z -> prog B unit;
  backend_delete : string -> prog B unit;
  backend_clear : prog B unit
}.

#[global] Instance MemoryCache_backend : CacheBackend MemoryCache.t := {
  construct st := ret (MemoryCache.__init__ (Settings.max_size st));
  backend_get := MemoryCache.get;
  backend_set := MemoryCache.set;
  backend_delete := MemoryCache.delete;
  backend_clear := MemoryCache.clear
}.

#[global] Instance DiskCache_backend `{PyRuntime} : CacheBackend DiskCache.t := {
  construct st := DiskCache.__init__ (Settings.base_path st) (Settings.compression st);
  backend_get := DiskCache.get;
  backend_set := DiskCache.set;
  backend_delete := DiskCache.delete;
  backend_clear := DiskCache.clear
}.

(** The backend that [_ensure_initialized] selects by [settings.backend].
    The modules of the remote backends are not part of the sources:
    importing them raises, and the manager turns that into a
    [RuntimeError]. *)
Inductive Backend : Type :=
| OfMemory (m : MemoryCache.t)
| OfDisk (d : DiskCache.t).

Definition runtime_error (msg : string) : exn :=
  {| exn_type := RuntimeError; exn_str := msg |}.

(** A method of one class, run on the selected backend. *)
Definition dispatch {A} (on_memory : prog MemoryCache.t A) (on_disk : prog DiskCache.t A)
    : prog Backend A :=
  fun b w =>
    match b with
    | OfMemory m =>
        match on_memory m w with
        | Returned a m' w' => Returned a (OfMemory m') w'
        | Raised e m' w' => Raised e (OfMemory m') w'
        | Blocked m' w' => Blocked (OfMemory m') w'
        end
    | OfDisk d =>
        match on_disk d w with
        | Returned a d' w' => Returned a (OfDisk d') w'
        | Raised e d' w' => Raised e (OfDisk d') w'
        | Blocked d' w' => Blocked (OfDisk d') w'
        end
    end.

Definition select_backend `{PyRuntime} (st : Settings.t) : prog unit Backend :=
  match Settings.backend st with
  | MEMORY => ret (OfMemory (MemoryCache.__init__ (Settings.max_size st)))
  | DISK =>
      let! d := DiskCache.__init__ (Settings.base_path st) (Settings.compression st) in
      ret (OfDisk d)
  | REDIS =>
      if negb (Settings.redis st) then raise (runtime_error "Redis settings not configured")
      else raise (runtime_error "Redis backend requires 'redis' package. Install with 'pip install retainit[redis]'")
  | S3 =>
      if negb (Settings.s3 st) then raise (runtime_error "S3 settings not configured")
      else raise (runtime_error "S3 backend requires 'aioboto3' package. Install with 'pip install retainit[aws]'")
  | DYNAMODB =>
      if negb (Settings.dynamodb st) then raise (runtime_error "DynamoDB settings not configured")
      else raise (runtime_error "DynamoDB backend requires 'aioboto3' package. Install with 'pip install retainit[aws]'")
  | TIERED => raise (runtime_error "Unsupported backend: CacheBackendType.TIERED")
  end.

#[global] Instance Backend_backend `{PyRuntime} : CacheBackend Backend := {
  construct := select_backend;
  backend_get key := dispatch (MemoryCache.get key) (DiskCache.get key);
  backend_set key value ttl :=
    dispatch (MemoryCache.set key value ttl) (DiskCache.set key value ttl);
  backend_delete key := dispatch (MemoryCache.delete key) (DiskCache.delete key);
  backend_clear := dispatch MemoryCache.clear DiskCache.clear
}.

(** ** The Cache Orchestrator: [core.CacheManager] *)

Module CacheManager.
Section WithBackend.
Context {B : Type} {HB : CacheBackend B}.
Variable settings : Settings.t.

Record t : Type := { _backend : option B; _initialized : bool }.

Definition __init__ : t := {| _backend := None; _initialized := false |}.

Definition none_has_no_attribute (name : string) : exn :=
  {| exn_type := AttributeError;
     exn_str := "'NoneType' object has no attribute '" ++ name ++ "'" |}.

(** [await self._backend.<method>(...)] *)
Definition on_backend {A} (method : string) (m : prog B A) : prog t A :=
  fun self w =>
    match _backend self with
    | None => Raised (none_has_no_attribute method) self w
    | Some b =>
        match m b w with
        | Returned a b' w' =>
            Returned a {| _backend := Some b'; _initialized := _initialized self |} w'
        | Raised e b' w' =>
            Raised e {| _backend := Some b'; _initialized := _initialized self |} w'
        | Blocked b' w' =>
            Blocked {| _backend := Some b'; _initialized := _initialized self |} w'
        end
    end.

(** [def _ensure_initialized(self)].  Loading the configuration is the
    business of the configuration collaborator and leaves no trace
    here. *)
Definition _ensure_initialized : prog t unit :=
  fun self w =>
    if _initialized self then Returned tt self w
    else
      match construct settings tt w with
      | Returned b _ w' =>
          (create_task_emit BACKEND_INIT
             [("backend", PyStr (Settings.backend_value settings));
              ("settings",
               PyDict [(PyStr "ttl", of_optional (Settings.ttl settings));
                       (PyStr "compression", PyBool (Settings.compression settings));
                       (PyStr "max_size", of_optional (Settings.max_size settings))])] ;;;
           put_self {| _backend := Some b; _initialized := true |}) self w'
      | Raised e _ w' => Raised e self w'
      | Blocked _ w' => Blocked self w'
      end.

(** [async def get(self, key, function_name)] *)
Definition get (key function_name : string) : prog t pyval :=
  _ensure_initialized ;;;
  try_except
    (let! value := on_backend "get" (backend_get key) in
     (if negb (is_None value)
      then events_emit CACHE_HIT
             [("key", PyStr key); ("function", PyStr function_name);
              ("backend", PyStr (Settings.backend_value settings))]
      else events_emit CACHE_MISS
             [("key", PyStr key); ("function", PyStr function_name);
              ("backend", PyStr (Settings.backend_value settings))]) ;;;
     ret value)
    is_Exception
    (fun e =>
       let error_type := class_name (exn_type e) in
       events_emit CACHE_ERROR
         [("key", PyStr key); ("function", PyStr function_name);
          ("backend", PyStr (Settings.backend_value settings));
          ("error", PyStr (exn_str e)); ("error_type", PyStr error_type)] ;;;
       logger_error ("Cache get error for " ++ key ++ ": " ++ exn_str e) ;;;
       ret PyNone).

(** [async def set(self, key, value, function_name, ttl=None)] *)
Definition set (key : string) (value : pyval) (function_name : string) (ttl : option Z)
    : prog t unit :=
  _ensure_initialized ;;;
  try_except
    (on_backend "set" (backend_set key value (py_or ttl (Settings.ttl settings))) ;;;
     events_emit CACHE_SET
       [("key", PyStr key); ("function", PyStr function_name);
        ("backend", PyStr (Settings.backend_value settings));
        ("ttl", of_optional (py_or ttl (Settings.ttl settings)))])
    is_Exception
    (fun e =>
       let error_type := class_name (exn_type e) in
       events_emit CACHE_ERROR
         [("key", PyStr key); ("function", PyStr function_name);
          ("backend", PyStr (Settings.backend_value settings));
          ("error", PyStr (exn_str e)); ("error_type", PyStr error_type);
          ("operation", PyStr "set")] ;;;
       logger_error ("Cache set error for " ++ key ++ ": " ++ exn_str e)).

(** [async def delete(self, key)] *)
Definition delete (key : string) : prog t unit :=
  _ensure_initialized ;;;
  try_except
    (on_backend "delete" (backend_delete key) ;;;
     events_emit CACHE_DELETE
       [("key", PyStr key); ("backend", PyStr (Settings.backend_value settings))])
    is_Exception
    (fun e =>
       events_emit CACHE_ERROR
         [("key", PyStr key); ("backend", PyStr (Settings.backend_value settings));
          ("error", PyStr (exn_str e)); ("error_type", PyStr (class_name (exn_type e)));
          ("operation", PyStr "delete")] ;;;
       logger_error ("Cache delete error for " ++ key ++ ": " ++ exn_str e)).

(** [async def clear(self)] *)
Definition clear : prog t unit :=
  _ensure_initialized ;;;
  try_except
    (on_backend "clear" backend_clear ;;;
     events_emit CACHE_CLEAR [("backend", PyStr (Settings.backend_value settings))])
    is_Exception
    (fun e =>
       events_emit CACHE_ERROR
         [("backend", PyStr (Settings.backend_value settings));
          ("error", PyStr (exn_str e)); ("error_type", PyStr (class_name (exn_type e)));
          ("operation", PyStr "clear")] ;;;
       logger_error ("Cache clear error: " ++ exn_str e)).
End WithBackend.
End CacheManager.

(** ** The Key Builder and the Call Bridge: [core.py] *)

(** A wrapped function: what the engine reads of it, and its body as a
    transformer of the caller's own state [U].  A body cannot reach the
    cache or the event bus. *)
Record Func (U : Type) : Type := {
  __module__ : string;
  __qualname__ : string;
  (** [list(inspect.signature(func).parameters.keys())] *)
  parameters : list string;
  (** [asyncio.iscoroutinefunction(func)] *)
  is_coroutine : bool;
  body : list pyval -> list (string * pyval) -> U -> (exn + pyval) * U
}.

Arguments __module__ {U} _.
Arguments __qualname__ {U} _.
Arguments parameters {U} _.
Arguments is_coroutine {U} _.
Arguments body {U} _ _ _ _.

(** [name in exclude_set] *)
Definition mem (name : string) (names : list string) : bool :=
  existsb (String.eqb name) names.

(** [sorted(kwargs.items())]: keys are distinct, so the order of the
    pairs is the order of their keys. *)
Fixpoint insert_item (x : string * pyval) (l : list (string * pyval)) : list (string * pyval) :=
  match l with
  | [] => [x]
  | y :: rest => if String.leb (fst x) (fst y) then x :: l else y :: insert_item x rest
  end.

Definition sorted_items (kwargs : list (string * pyval)) : list (string * pyval) :=
  fold_right insert_item [] kwargs.

(** [':'.join(parts)] *)
Fixpoint join (sep : string) (parts : list string) : string :=
  match parts with
  | [] => ""
  | [x] => x
  | x :: rest => x ++ sep ++ join sep rest
  end.

Section KeyBuilder.
Context `{PyRuntime}.
Variable settings : Settings.t.
Context {U : Type}.

Definition KeyBuilder : Type := Func U -> list pyval -> list (string * pyval) -> string.

(** [str(hash(v))], or [str(v)] when [v] is not hashable. *)
Definition token (v : pyval) : string :=
  match py_hash v with
  | Some h => pretty h
  | None => py_str v
  end.

(** The loop over [enumerate(args)], from index [i] on. *)
Fixpoint positional_parts (exclude_set arg_names : list string) (i : nat)
    (args : list pyval) : list string :=
  match args with
  | [] => []
  | arg :: rest =>
      if negb (match exclude_set with [] => true | _ => false end)
         && match nth_error arg_names i with
            | Some name => mem name exclude_set
            | None => false
            end
      then positional_parts exclude_set arg_names (S i) rest
      else token arg :: positional_parts exclude_set arg_names (S i) rest
  end.

(** The loop over [sorted(kwargs.items())]. *)
Fixpoint keyword_parts (exclude_set : list string) (items : list (string * pyval))
    : list string :=
  match items with
  | [] => []
  | (k, v) :: rest =>
      if mem k exclude_set then keyword_parts exclude_set rest
      else (k ++ ":" ++ token v) :: keyword_parts exclude_set rest
  end.

(** [def build_cache_key(func, args, kwargs, key_builder, key_prefix,
    exclude_args)] *)
Definition build_cache_key (func : Func U) (args : list pyval)
    (kwargs : list (string * pyval)) (key_builder : option KeyBuilder)
    (key_prefix : option string) (exclude_args : option (list string)) : string :=
  match key_builder with
  | Some key_builder => key_builder func args kwargs
  | None =>
      let module_name := __module__ func in
      let func_name := __qualname__ func in
      let exclude_set := default [] exclude_args in
      let arg_names :=
        match exclude_set with
        | [] => []
        | _ => parameters func
        end in
      let arg_parts :=
        (positional_parts exclude_set arg_names 0 args
         ++ keyword_parts exclude_set (sorted_items kwargs))%list in
      let key_str := module_name ++ "." ++ func_name ++ ":" ++ join ":" arg_parts in
      let key_hash := md5_hexdigest key_str in
      let prefix :=
        match key_prefix with
        | Some p => if String.eqb p "" then Settings.key_prefix settings else p
        | None => Settings.key_prefix settings
        end in
      prefix ++ ":" ++ key_hash
  end.
End KeyBuilder.

Section CallBridge.
Context `{PyRuntime}.
Context {B : Type} {HB : CacheBackend B}.
Variable settings : Settings.t.
Context {U : Type}.

(** The state of a call: the orchestrator and the caller's own state. *)
Definition App : Type := CacheManager.t (B := B) * U.

(** The call of [func] on the arguments, awaited when [func] is a
    coroutine function. *)
Definition call (func : Func U) (args : list pyval) (kwargs : list (string * pyval))
    : prog App pyval :=
  fun s w =>
    let w' := with_calls (S (calls w)) w in
    match body func args kwargs (snd s) with
    | (inr result, u') => Returned result (fst s, u') w'
    | (inl e, u') => Raised e (fst s, u') w'
    end.

(** [f"{func.__module__}.{func.__qualname__}"] *)
Definition qualified_name (func : Func U) : string :=
  __module__ func ++ "." ++ __qualname__ func.

(** [async def _get_cached_value(func, args, kwargs, ttl, key_builder,
    key_prefix, exclude_args)] *)
Definition _get_cached_value (func : Func U) (args : list pyval)
    (kwargs : list (string * pyval)) (ttl : option Z)
    (key_builder : option KeyBuilder) (key_prefix : option string)
    (exclude_args : option (list string)) : prog App (bool * pyval) :=
  let key := build_cache_key settings func args kwargs key_builder key_prefix exclude_args in
  let func_name := qualified_name func in
  let! cached_value := on_self (CacheManager.get settings key func_name) in
  if negb (is_None cached_value) then ret (true, cached_value)
  else
    try_except
      (events_emit FUNCTION_CALL_START
         [("function", PyStr func_name); ("key", PyStr key);
          ("args_count", PyInt (Z.of_nat (length args)));
          ("kwargs_count", PyInt (Z.of_nat (length kwargs)))] ;;;
       let! start_time := time_time in
       let! result :=
         (if is_coroutine func then call func args kwargs else call func args kwargs) in
       let! end_time := time_time in
       let duration := end_time - start_time in
       events_emit FUNCTION_CALL_END
         [("function", PyStr func_name); ("key", PyStr key);
          ("duration", PyInt duration); ("result_type", PyStr (type_name result))] ;;;
       on_self (CacheManager.set settings key result func_name ttl) ;;;
       ret (false, result))
      is_Exception
      (fun e =>
         events_emit FUNCTION_ERROR
           [("function", PyStr func_name); ("key", PyStr key);
            ("error", PyStr (exn_str e));
            ("error_type", PyStr (class_name (exn_type e)));
            ("traceback", PyStr (format_exc e))] ;;;
         logger_error ("Error in function " ++ func_name ++ ": " ++ exn_str e) ;;;
         raise e).

(** [def _wrapped_func(...)]: either wrapper runs [_get_cached_value]
    to completion and hands back the value. *)
Definition _wrapped_func (func : Func U) (args : list pyval)
    (kwargs : list (string * pyval)) (ttl : option Z)
    (key_builder : option KeyBuilder) (key_prefix : option string)
    (exclude_args : option (list string)) : prog App pyval :=
  let! cached := _get_cached_value func args kwargs ttl key_builder key_prefix exclude_args in
  ret (snd cached).
End CallBridge.

(** ** Vocabulary of the statements *)

(** Is [expiry] in the past when the clock reads [now]?  This is the
    test [expiry and time.time() > expiry] of both backends. *)
Definition expired (expiry : option Z) (now : Z) : bool :=
  truthy expiry && match expiry with Some e => e <? now | None => false end.

(** The entry that [MemoryCache.set] writes, for the readings that the
    clock of [w] gives next, and the world it leaves. *)
Definition stamp (ttl : option Z) (value : pyval) (w : World) : MemoryCache.entry :=
  if truthy ttl
  then (value, (fun t => clock w (ticks w) + t) <$> ttl, clock w (S (ticks w)))
  else (value, None, clock w (ticks w)).

Definition after_stamp (ttl : option Z) (w : World) : World :=
  with_ticks (if truthy ttl then S (S (ticks w)) else S (ticks w)) w.

(** The state in which a program stops, however it stops. *)
Definition final {S A} (r : result S A) : S :=
  match r with
  | Returned _ s _ => s
  | Raised _ s _ => s
  | Blocked s _ => s
  end.

Definition final_world {S A} (r : result S A) : World :=
  match r with
  | Returned _ _ w => w
  | Raised _ _ w => w
  | Blocked _ w => w
  end.

(** The four operations of a backend, as data. *)
Inductive op : Type :=
| Get (key : string)
| Set_ (key : string) (value : pyval) (ttl : option Z)
| Delete (key : string)
| Clear.

(** Running one operation on the memory store.  The three mutators
    return [None]. *)
Definition run_op (o : op) : prog MemoryCache.t pyval :=
  match o with
  | Get key => MemoryCache.get key
  | Set_ key value ttl => MemoryCache.set key value ttl ;;; ret PyNone
  | Delete key => MemoryCache.delete key ;;; ret PyNone
  | Clear => MemoryCache.clear ;;; ret PyNone
  end.

(** Running operations one after the other, as long as they return. *)
Fixpoint run_ops (ops : list op) (self : MemoryCache.t) (w : World) : MemoryCache.t :=
  match ops with
  | [] => self
  | o :: rest =>
      match run_op o self w with
      | Returned _ self' w' => run_ops rest self' w'
      | r => final r
      end
  end.

(** The dict that [DiskCache.set] pickles, for the readings that the
    clock of [w] gives next, and the bytes it writes for a pickle [raw]. *)
Definition envelope_of (ttl : option Z) (value : pyval) (w : World) : envelope :=
  if truthy ttl
  then {| env_value := value;
          env_expiry := (fun t => clock w (ticks w) + t) <$> ttl;
          env_created := clock w (S (ticks w)) |}
  else {| env_value := value; env_expiry := None; env_created := clock w (ticks w) |}.

Definition stored_form `{PyRuntime} (compression : bool) (raw : list Byte.byte) : list Byte.byte :=
  if compression then zlib_compress raw else raw.

(** What [DiskCache.get] makes of the bytes of a file. *)
Definition decoded `{PyRuntime} (compression : bool) (stored : list Byte.byte) : option envelope :=
  if compression
  then match zlib_decompress stored with
       | Some plain => pickle_loads plain
       | None => None
       end
  else pickle_loads stored.

(** The world after a successful [mkdir] of [dir]. *)
Definition made (dir : string) (w : World) : World :=
  with_dirs (if bool_decide (dir ∈ dirs w) then dirs w else dir :: dirs w) w.

(** The store after [_get_file_lock] has looked up, or created, the lock
    named [handle]. *)
Definition registered (handle : string) (self : DiskCache.t) : DiskCache.t :=
  match DiskCache.file_locks self !! handle with
  | None => DiskCache.with_file_locks (<[handle := false]> (DiskCache.file_locks self)) self
  | Some _ => self
  end.

(** The path of the file of [key], and of its temporary sibling. *)
Definition path_of `{PyRuntime} (self : DiskCache.t) (key : string) : Path :=
  {| parent := DiskCache.base_directory self ++ "/" ++ substring 0 2 (md5_hexdigest key);
     stem := md5_hexdigest key;
     suffix := ".cache" |}.

Definition temp_path_of `{PyRuntime} (self : DiskCache.t) (key : string) : Path :=
  with_suffix ".tmp" (path_of self key).

(** No operation is in flight on the file of [key]: the table lock and
    the lock of the file are free. *)
Definition idle `{PyRuntime} (self : DiskCache.t) (key : string) : Prop :=
  DiskCache.global_lock self = false
  /\ DiskCache.held (str_path (path_of self key)) self = false.




(** An orchestrator that has been initialised and holds the backend [b]. *)
Definition ready {B : Type} (b : B) : CacheManager.t :=
  {| CacheManager._backend := Some b; CacheManager._initialized := true |}.

(** ** A runtime to run examples with

    The digest is the identity.  The pickle of an envelope holding a
    [bytes] value is one byte for the expiry (zero for none), one byte for
    the creation time, and the value; nothing else can be pickled.
    Compression prepends a zero byte. *)

Definition example_dumps (data : envelope) : option (list Byte.byte) :=
  match env_value data with
  | PyBytes payload =>
      match Byte.of_N (Z.to_N (default 0 (env_expiry data))),
            Byte.of_N (Z.to_N (env_created data)) with
      | Some e, Some c => Some (e :: c :: payload)
      | _, _ => None
      end
  | _ => None
  end.

Definition example_loads (raw : list Byte.byte) : option envelope :=
  match raw with
  | e :: c :: payload =>
      Some {| env_value := PyBytes payload;
              env_expiry := match Byte.to_N e with
                            | 0%N => None
                            | n => Some (Z.of_N n)
                            end;
              env_created := Z.of_N (Byte.to_N c) |}
  | _ => None
  end.

Definition example_runtime : PyRuntime := {|
  md5_hexdigest := fun s => s;
  pickle_dumps := example_dumps;
  pickle_loads := example_loads;
  zlib_compress := fun raw => Byte.x00 :: raw;
  zlib_decompress := fun raw => match raw with
                                | Byte.x00 :: plain => Some plain
                                | _ => None
                                end;
  py_hash := fun v => match v with
                      | PyInt z => Some z
                      | PyBool b => Some (if b then 1 else 0)
                      | PyNone => Some 0
                      | _ => None
                      end;
  py_str := fun v => match v with PyStr s => s | _ => type_name v end;
  format_exc := fun e => "Traceback (most recent call last): " ++ exn_str e
|}.

Definition example_world : World := {|
  clock := fun _ => 20; ticks := 0; files := ∅; dirs := []; faults := [];
  emitted := []; scheduled := []; logged := []; calls := 0
|}.

Definition example_settings : Settings.t := {|
  Settings.backend := MEMORY; Settings.ttl := Some 3600;
  Settings.base_path := ".cache/function_resp"; Settings.compression := false;
  Settings.key_prefix := "retainit"; Settings.max_size := None;
  Settings.redis := false; Settings.s3 := false; Settings.dynamodb := false
|}.

(** A clock that advances by ten with every reading, from twenty on. *)
Definition ticking_world : World := {|
  clock := fun n => 20 + 10 * Z.of_nat n; ticks := 0; files := ∅; dirs := []; faults := [];
  emitted := []; scheduled := []; logged := []; calls := 0
|}.

Definition example_disk : DiskCache.t := {|
  DiskCache.base_directory := ".cache"; DiskCache.compression := false;
  DiskCache.file_locks := ∅; DiskCache.global_lock := false
|}.

Definition disk_settings : Settings.t := {|
  Settings.backend := DISK; Settings.ttl := Some 3600;
  Settings.base_path := ".cache"; Settings.compression := false;
  Settings.key_prefix := "retainit"; Settings.max_size := None;
  Settings.redis := false; Settings.s3 := false; Settings.dynamodb := false
|}.

(** [def square(n, api_key)], which counts its executions in the
    caller's state, and [def broken(n)], which raises. *)
Definition square : Func nat := {|
  __module__ := "app"; __qualname__ := "square"; parameters := ["n"; "api_key"];
  is_coroutine := false;
  body := fun args _ counter =>
            (match args with
             | PyInt n :: _ => inr (PyInt (n * n))
             | _ => inl {| exn_type := TypeError; exn_str := "unsupported operand" |}
             end, S counter)
|}.


(** The key of [square(5, "secret")] with [api_key] excluded, and a
    memory store that holds its result. *)
Definition square_key : string :=
  build_cache_key (H := example_runtime) example_settings square
    [PyInt 5; PyStr "secret"] [] None None (Some ["api_key"]).

Definition square_store : MemoryCache.t :=
  MemoryCache.with_cache [(square_key, (PyInt 25, None, 5))] (MemoryCache.__init__ None).

(** A full memory store of capacity two; ["b"] is the least recently
    used. *)
Definition full_store : MemoryCache.t :=
  MemoryCache.with_cache [("a", (PyInt 1, None, 5)); ("b", (PyInt 2, None, 3))]
    (MemoryCache.__init__ (Some 2)).

(** Worlds in which a system call fails: the first one (the [mkdir] of
    [_key_to_path]), or the fifth one of a [set] (the rename), after
    which the sixth (the [unlink] of the clean-up) goes through. *)
Definition failing_mkdir_world : World := with_faults [true] example_world.

Definition failing_rename_world : World :=
  with_faults [false; false; false; false; true; false] example_world.


(** ** More vocabulary *)

(** The [try] block of [DiskCache.set] with its [except] clause, for the
    envelope [data]: what [set] runs once it has the path, the lock and
    the envelope. *)
Definition write_block `{PyRuntime} (path : Path) (file_lock : string) (data : envelope)
    : prog DiskCache.t unit :=
  frame (None : option Path)
    (try_except
       (async_with (fun sl => DiskCache.held file_lock (fst sl))
                   (fun b sl => (DiskCache.set_held file_lock b (fst sl), snd sl))
          (fs_mkdir (parent path) ;;;
           let temp_path := with_suffix ".tmp" path in
           set_local (Some temp_path) ;;;
           fs_open_write (str_path temp_path) ;;;
           let! self := on_self get_self in
           (match pickle_dumps data with
            | None => raise DiskCache.pickling_error
            | Some raw =>
                fs_write (str_path temp_path)
                  (if DiskCache.compression self then zlib_compress raw else raw)
            end) ;;;
           fs_replace (str_path temp_path) (str_path path)))
       DiskCache.handles_write_error
       (fun e =>
          logger_error ("Error writing cache file " ++ str_path path ++ ": " ++ exn_str e) ;;;
          let! temp_path := get_local in
          match temp_path with
          | None => raise DiskCache.unbound_temp_path
          | Some temp_path =>
              let! present := fs_exists (str_path temp_path) in
              if present
              then try_except (fs_unlink (str_path temp_path)) is_OSError (fun _ => ret tt)
              else ret tt
          end)).


(** The notification that [CacheManager._ensure_initialized] queues. *)
Definition backend_init_event (settings : Settings.t) : Event :=
  {| event_type := BACKEND_INIT;
     event_data :=
       [("backend", PyStr (Settings.backend_value settings));
        ("settings",
         PyDict [(PyStr "ttl", of_optional (Settings.ttl settings));
                 (PyStr "compression", PyBool (Settings.compression settings));
                 (PyStr "max_size", of_optional (Settings.max_size settings))])] |}.

(** ** The decorator: [core.retain] *)

Section Retain.
Context `{PyRuntime}.
Context {B : Type} {HB : CacheBackend B}.
Variable settings : Settings.t.
Context {U : Type}.


End Retain.

(** The order of [sorted] on the items of a dict, whose keys are
    distinct: the order of the keys. *)
Definition by_key (p q : string * pyval) : Prop := String.leb (fst p) (fst q) = true.

(** ** The event bus: [events.EventEmitter] *)

#[global] Instance EventType_eq_dec : EqDecision EventType.
Proof. solve_decision. Defined.

(** [event_type.value] *)
Definition EventType_value (ty : EventType) : string :=
  match ty with
  | CACHE_HIT => "cache_hit"
  | CACHE_MISS => "cache_miss"
  | CACHE_SET => "cache_set"
  | CACHE_DELETE => "cache_delete"
  | CACHE_CLEAR => "cache_clear"
  | CACHE_ERROR => "cache_error"
  | FUNCTION_CALL_START => "function_call_start"
  | FUNCTION_CALL_END => "function_call_end"
  | FUNCTION_ERROR => "function_error"
  | BACKEND_INIT => "backend_init"
  | BACKEND_CLOSE => "backend_close"
  end.

Module EventEmitter.
Section WithSubscribers.
(** The state that the handlers act on.  A handler cannot reach the
    emitter. *)
Context {S : Type}.
(** The text of [f"{event_type}"], which is not the same in every
    version of Python. *)
Variable format_event_type : EventType -> string.

Definition EventData : Type := list (string * pyval).

(** A handler is a function object.  Two function objects are equal
    when they are the same object, which [identity] names.  The call
    [handler(data)] may change the dict it is given and the state of
    the subscribers, and it returns or raises. *)
Record EventHandler : Type := {
  identity : nat;
  is_coroutine_function : bool;
  handle : EventData -> S -> EventData * option exn * S
}.

(** The two dicts have one entry for every member of [EventType], from
    [__init__] on: total functions. *)
Record t : Type := {
  _handlers : EventType -> list EventHandler;
  _enabled : bool;
  _default_handlers : EventType -> list EventHandler
}.

Definition __init__ : t :=
  {| _handlers := fun _ => []; _enabled := true; _default_handlers := fun _ => [] |}.

(** [handler in handlers] *)
Definition handler_in (handler : EventHandler) (handlers : list EventHandler) : bool :=
  existsb (fun h => Nat.eqb (identity handler) (identity h)) handlers.

(** [handlers.remove(handler)]: the first occurrence goes. *)
Fixpoint list_remove (handler : EventHandler) (handlers : list EventHandler)
    : list EventHandler :=
  match handlers with
  | [] => []
  | h :: rest =>
      if Nat.eqb (identity handler) (identity h) then rest
      else h :: list_remove handler rest
  end.

(** [d[event_type] = handlers] *)
Definition assign (d : EventType -> list EventHandler) (event_type : EventType)
    (handlers : list EventHandler) : EventType -> list EventHandler :=
  fun ty => if decide (ty = event_type) then handlers else d ty.

(** [def subscribe(self, event_type, handler)].  The test
    [event_type not in self._handlers] fails for no member of
    [EventType]. *)
Definition subscribe (event_type : EventType) (handler : EventHandler) (self : t) : t :=
  if negb (handler_in handler (_handlers self event_type))
  then {| _handlers := assign (_handlers self) event_type
                         (_handlers self event_type ++ [handler]);
          _enabled := _enabled self;
          _default_handlers := _default_handlers self |}
  else self.

(** [def unsubscribe(self, event_type, handler)] *)
Definition unsubscribe (event_type : EventType) (handler : EventHandler) (self : t) : t :=
  if handler_in handler (_handlers self event_type)
  then {| _handlers := assign (_handlers self) event_type
                         (list_remove handler (_handlers self event_type));
          _enabled := _enabled self;
          _default_handlers := _default_handlers self |}
  else self.

(** [def unsubscribe_all(self, event_type=None)] *)
Definition unsubscribe_all (event_type : option EventType) (self : t) : t :=
  match event_type with
  | None =>
      {| _handlers := fun _ => []; _enabled := _enabled self;
         _default_handlers := _default_handlers self |}
  | Some event_type =>
      {| _handlers := assign (_handlers self) event_type []; _enabled := _enabled self;
         _default_handlers := _default_handlers self |}
  end.

(** [def add_default_handler(self, event_type, handler)] *)
Definition add_default_handler (event_type : EventType) (handler : EventHandler)
    (self : t) : t :=
  if negb (handler_in handler (_default_handlers self event_type))
  then {| _handlers := _handlers self;
          _enabled := _enabled self;
          _default_handlers := assign (_default_handlers self) event_type
                                 (_default_handlers self event_type ++ [handler]) |}
  else self.

(** [def remove_default_handler(self, event_type, handler)] *)
Definition remove_default_handler (event_type : EventType) (handler : EventHandler)
    (self : t) : t :=
  if handler_in handler (_default_handlers self event_type)
  then {| _handlers := _handlers self;
          _enabled := _enabled self;
          _default_handlers := assign (_default_handlers self) event_type
                                 (list_remove handler (_default_handlers self event_type)) |}
  else self.

(** [def enable(self)], [def disable(self)], [def is_enabled(self)] *)
Definition enable (self : t) : t :=
  {| _handlers := _handlers self; _enabled := true;
     _default_handlers := _default_handlers self |}.

Definition disable (self : t) : t :=
  {| _handlers := _handlers self; _enabled := false;
     _default_handlers := _default_handlers self |}.

Definition is_enabled (self : t) : bool := _enabled self.

(** The call of one handler on the dict [enriched_data], which is a
    local of [emit]: the state of the loop is the subscribers and that
    dict. *)
Definition call_handler (handler : EventHandler) : prog (S * EventData) unit :=
  fun s w =>
    match handle handler (snd s) (fst s) with
    | (data, None, subscribers) => Returned tt (subscribers, data) w
    | (data, Some e, subscribers) => Raised e (subscribers, data) w
    end.

(** [for handler in all_handlers: try: ... except Exception as e:
    logger.error(...)] *)
Fixpoint call_handlers (event_type : EventType) (all_handlers : list EventHandler)
    : prog (S * EventData) unit :=
  match all_handlers with
  | [] => ret tt
  | handler :: rest =>
      try_except
        (if is_coroutine_function handler then call_handler handler
         else call_handler handler)
        is_Exception
        (fun e =>
           logger_error ("Error in event handler for " ++ format_event_type event_type
                         ++ ": " ++ exn_str e)) ;;;
      call_handlers event_type rest
  end.

(** [async def emit(self, event_type, data)], on the emitter [self]:
    a program over the state of the subscribers. *)
Definition emit (self : t) (event_type : EventType) (data : EventData) : prog S unit :=
  if negb (_enabled self) then ret tt
  else
    let! now := time_time in
    let enriched_data :=
      dict_set "timestamp" (PyInt now)
        (dict_set "event_type" (PyStr (EventType_value event_type)) data) in
    let all_handlers := (_default_handlers self event_type ++ _handlers self event_type)%list in
    fun subscribers w =>
      match call_handlers event_type all_handlers (subscribers, enriched_data) w with
      | Returned a s' w' => Returned a (fst s') w'
      | Raised e s' w' => Raised e (fst s') w'
      | Blocked s' w' => Blocked (fst s') w'
      end.
End WithSubscribers.
End EventEmitter.

(** ** The registry of named backends: [registry.BackendRegistry] *)

Module BackendRegistry.
Section WithConfig.
(** [backends.config.BackendConfigType] *)
Context {BackendConfigType : Type}.

(** The two classes of exceptions that the registry raises. *)
Inductive error : Type :=
| KeyError (message : string)
| RuntimeError (message : string).

Record t : Type := {
  _backends : list (string * BackendConfigType);
  _default_backend : option string
}.

Definition __init__ : t := {| _backends := []; _default_backend := None |}.

(** [def register(self, name, config, default=False)] *)
Definition register (name : string) (config : BackendConfigType) (default : bool)
    (self : t) : t :=
  let backends := dict_set name config (_backends self) in
  if default || match _default_backend self with None => true | Some _ => false end
  then {| _backends := backends; _default_backend := Some name |}
  else {| _backends := backends; _default_backend := _default_backend self |}.

(** [d[k]], which raises [KeyError(k)] *)
Definition subscript (k : string) (d : list (string * BackendConfigType))
    : error + BackendConfigType :=
  match dict_get k d with
  | Some config => inr config
  | None => inl (KeyError ("'" ++ k ++ "'"))
  end.

(** [def get(self, name=None)] *)
Definition get (name : option string) (self : t) : error + BackendConfigType :=
  match name with
  | None =>
      match _default_backend self with
      | None => inl (RuntimeError "No default backend configured")
      | Some default => subscript default (_backends self)
      end
  | Some name =>
      if negb (dict_in name (_backends self))
      then inl (KeyError ("No backend registered with name '" ++ name ++ "'"))
      else subscript name (_backends self)
  end.

(** [def get_default_name(self)] *)
Definition get_default_name (self : t) : option string := _default_backend self.

(** [def set_default(self, name)] *)
Definition set_default (name : string) (self : t) : error + t :=
  if negb (dict_in name (_backends self))
  then inl (KeyError ("No backend registered with name '" ++ name ++ "'"))
  else inr {| _backends := _backends self; _default_backend := Some name |}.

(** [def list_backends(self)] *)
Definition list_backends (self : t) : list (string * BackendConfigType) := _backends self.

(** [def remove(self, name)] *)
Definition remove (name : string) (self : t) : error + t :=
  if negb (dict_in name (_backends self))
  then inl (KeyError ("No backend registered with name '" ++ name ++ "'"))
  else if bool_decide (Some name = _default_backend self)
  then inl (RuntimeError ("Cannot remove default backend: " ++ name))
  else inr {| _backends := dict_del name (_backends self);
              _default_backend := _default_backend self |}.

(** [def clear(self)] *)
Definition clear (self : t) : t := {| _backends := []; _default_backend := None |}.

(** [def is_empty(self)] *)
Definition is_empty (self : t) : bool :=
  match _backends self with [] => true | _ => false end.
End WithConfig.
End BackendRegistry.

(** The calls that change a registry, as data; a call that raises
    leaves the registry as it is. *)
Inductive registry_op (C : Type) : Type :=
| Register (name : string) (config : C) (default : bool)
| SetDefault (name : string)
| Remove (name : string)
| ClearAll.

Arguments Register {C} name config default.
Arguments SetDefault {C} name.
Arguments Remove {C} name.
Arguments ClearAll {C}.

Definition registry_step {C} (self : BackendRegistry.t (BackendConfigType := C))
    (o : registry_op C) : BackendRegistry.t :=
  match o with
  | Register name config default => BackendRegistry.register name config default self
  | SetDefault name =>
      match BackendRegistry.set_default name self with inr self' => self' | inl _ => self end
  | Remove name =>
      match BackendRegistry.remove name self with inr self' => self' | inl _ => self end
  | ClearAll => BackendRegistry.clear self
  end.

(** The calls that change the subscriptions of an emitter, as data. *)
Inductive subscription_op (S : Type) : Type :=
| Subscribe (event_type : EventType) (handler : EventEmitter.EventHandler (S := S))
| Unsubscribe (event_type : EventType) (handler : EventEmitter.EventHandler (S := S))
| UnsubscribeAll (event_type : option EventType).

Arguments Subscribe {S} event_type handler.
Arguments Unsubscribe {S} event_type handler.
Arguments UnsubscribeAll {S} event_type.

Definition subscription_step {S} (self : EventEmitter.t (S := S)) (o : subscription_op S)
    : EventEmitter.t :=
  match o with
  | Subscribe event_type handler => EventEmitter.subscribe event_type handler self
  | Unsubscribe event_type handler => EventEmitter.unsubscribe event_type handler self
  | UnsubscribeAll event_type => EventEmitter.unsubscribe_all event_type self
  end.

(** What the handlers make of the subscribers and of the dict when each
    of them is called once, in order, whether it raises or not. *)
Fixpoint delivered {S} (handlers : list (EventEmitter.EventHandler (S := S)))
    (data : EventEmitter.EventData) (subscribers : S) : S * EventEmitter.EventData :=
  match handlers with
  | [] => (subscribers, data)
  | handler :: rest =>
      match EventEmitter.handle handler data subscribers with
      | (data', _, subscribers') => delivered rest data' subscribers'
      end
  end.

(** The dict that [emit] hands to the handlers. *)
Definition enriched (event_type : EventType) (data : EventEmitter.EventData) (now : Z)
    : EventEmitter.EventData :=
  dict_set "timestamp" (PyInt now)
    (dict_set "event_type" (PyStr (EventType_value event_type)) data).

(** The default names a registered backend, unless nothing is
    registered; and the names are distinct. *)
Definition registry_inv {C} (self : BackendRegistry.t (BackendConfigType := C)) : Prop :=
  dict_wf (BackendRegistry._backends self)
  /\ match BackendRegistry._default_backend self with
     | Some default => dict_in default (BackendRegistry._backends self) = true
     | None => BackendRegistry._backends self = []
     end.

(** ** More examples *)

(** A world in which the file of the key ["k"] of [example_disk] holds
    one byte, which the example runtime cannot unpickle. *)
Definition corrupt_file_world : World :=
  with_files {[ ".cache/k/k.cache" := [Byte.x01] ]} example_world.

(** Settings that name the Redis backend, which is not configured. *)
Definition redis_settings : Settings.t := {|
  Settings.backend := REDIS; Settings.ttl := None; Settings.base_path := ".cache";
  Settings.compression := false; Settings.key_prefix := "retainit";
  Settings.max_size := None; Settings.redis := false; Settings.s3 := false;
  Settings.dynamodb := false
|}.

(** Two handlers over a list of the event types seen: the first one
    raises [ValueError], the second one records the type of the event. *)
Definition raising_handler : EventEmitter.EventHandler (S := list string) := {|
  EventEmitter.identity := 1;
  EventEmitter.is_coroutine_function := false;
  EventEmitter.handle := fun data seen =>
    (data, Some {| exn_type := ValueError; exn_str := "boom" |}, seen)
|}.

Definition recording_handler : EventEmitter.EventHandler (S := list string) := {|
  EventEmitter.identity := 2;
  EventEmitter.is_coroutine_function := true;
  EventEmitter.handle := fun data seen =>
    (data, None,
     (seen ++ [match field "event_type" data with Some (PyStr s) => s | _ => "?" end])%list)
|}.

Definition example_emitter : EventEmitter.t (S := list string) :=
  EventEmitter.subscribe CACHE_HIT recording_handler
    (EventEmitter.add_default_handler CACHE_HIT raising_handler EventEmitter.__init__).

(** * Properties *)

(** ** Dicts *)

Section DictFacts.
Context {V : Type}.
Implicit Types (d : list (string * V)) (k : string) (v : V).

Lemma dict_in_true k d : dict_in k d = true <-> exists v, dict_get k d = Some v.
Proof.
  unfold dict_in. destruct (dict_get k d) as [v|]; split; eauto; try discriminate.
  intros [v' Hv]. discriminate.
Qed.

Lemma dict_in_false k d : dict_in k d = false <-> dict_get k d = None.
Proof. unfold dict_in. destruct (dict_get k d); split; congruence. Qed.

Lemma dict_get_set_eq k v d : dict_get k (dict_set k v d) = Some v.
Proof.
  induction d as [|[k' v'] d IH]; cbn.
  - by rewrite String.eqb_refl.
  - destruct (String.eqb k k') eqn:E; cbn; rewrite E; auto.
Qed.

Lemma dict_get_set_ne k k' v d : k <> k' -> dict_get k' (dict_set k v d) = dict_get k' d.
Proof.
  intros Hne. induction d as [|[k0 v0] d IH]; cbn.
  - apply String.eqb_neq in Hne. rewrite String.eqb_sym in Hne. by rewrite Hne.
  - destruct (String.eqb k k0) eqn:E; cbn; [|by rewrite IH].
    apply String.eqb_eq in E. subst k0.
    apply String.eqb_neq in Hne. rewrite String.eqb_sym in Hne. by rewrite Hne.
Qed.

Lemma dict_set_keys k v d : dict_in k d = true -> map fst (dict_set k v d) = map fst d.
Proof.
  induction d as [|[k0 v0] d IH]; cbn; [discriminate|].
  unfold dict_in in *. cbn. destruct (String.eqb k k0) eqn:E; cbn; [done|].
  intros Hin. by rewrite IH.
Qed.

Lemma dict_set_length_in k v d : dict_in k d = true -> length (dict_set k v d) = length d.
Proof. intros Hin. by rewrite <- (length_map fst), dict_set_keys, length_map. Qed.

Lemma dict_set_length_new k v d : dict_in k d = false -> length (dict_set k v d) = S (length d).
Proof.
  induction d as [|[k0 v0] d IH]; cbn; [done|].
  unfold dict_in in *. cbn. destruct (String.eqb k k0) eqn:E; cbn; [discriminate|].
  intros Hin. by rewrite IH.
Qed.

Lemma dict_set_length_le k v d : (length (dict_set k v d) <= S (length d))%nat.
Proof.
  destruct (dict_in k d) eqn:E.
  - rewrite dict_set_length_in by done. lia.
  - rewrite dict_set_length_new by done. lia.
Qed.

Lemma dict_del_length k d : dict_in k d = true -> S (length (dict_del k d)) = length d.
Proof.
  induction d as [|[k0 v0] d IH]; cbn; [discriminate|].
  unfold dict_in in *. cbn. destruct (String.eqb k k0) eqn:E; cbn; [done|].
  intros Hin. by rewrite IH.
Qed.

Lemma dict_get_del_ne k k' d : k <> k' -> dict_get k' (dict_del k d) = dict_get k' d.
Proof.
  intros Hne. induction d as [|[k0 v0] d IH]; cbn; [done|].
  destruct (String.eqb k k0) eqn:E; cbn.
  - apply String.eqb_eq in E. subst k0.
    apply String.eqb_neq in Hne. rewrite String.eqb_sym in Hne. by rewrite Hne.
  - by rewrite IH.
Qed.

Lemma dict_get_not_key k d : ~ In k (map fst d) -> dict_get k d = None.
Proof.
  induction d as [|[k0 v0] d IH]; cbn; [done|].
  intros Hn. destruct (String.eqb k k0) eqn:E.
  - apply String.eqb_eq in E. subst. tauto.
  - apply IH. tauto.
Qed.

Lemma dict_get_del_eq k d : dict_wf d -> dict_get k (dict_del k d) = None.
Proof.
  unfold dict_wf. induction d as [|[k0 v0] d IH]; cbn; [done|].
  intros Hwf. apply NoDup_cons in Hwf as [Hnotin Hwf]. rewrite list_elem_of_In in Hnotin.
  destruct (String.eqb k k0) eqn:E; cbn.
  - apply String.eqb_eq in E. subst. by apply dict_get_not_key.
  - rewrite E. by apply IH.
Qed.

Lemma In_dict_in k v d : In (k, v) d -> dict_in k d = true.
Proof.
  unfold dict_in. induction d as [|[k0 v0] d IH]; cbn; [done|].
  intros [[= -> ->]|Hin]; [by rewrite String.eqb_refl|].
  destruct (String.eqb k k0); [done | by apply IH].
Qed.

Lemma dict_get_In k v d : dict_get k d = Some v -> In (k, v) d.
Proof.
  induction d as [|[k0 v0] d IH]; cbn; [discriminate|].
  destruct (String.eqb k k0) eqn:E.
  - apply String.eqb_eq in E. subst. intros [= ->]. by left.
  - intros Hg. right. by apply IH.
Qed.

Lemma In_dict_get k v d : dict_wf d -> In (k, v) d -> dict_get k d = Some v.
Proof.
  unfold dict_wf. induction d as [|[k0 v0] d IH]; cbn; [done|].
  intros Hwf. apply NoDup_cons in Hwf as [Hnotin Hwf]. rewrite list_elem_of_In in Hnotin.
  intros [[= -> ->]|Hin].
  - by rewrite String.eqb_refl.
  - destruct (String.eqb k k0) eqn:E; [|by apply IH].
    apply String.eqb_eq in E. subst. exfalso. apply Hnotin.
    change k0 with (fst (k0, v)). by apply in_map.
Qed.

Lemma dict_del_keys_incl k d : incl (map fst (dict_del k d)) (map fst d).
Proof.
  induction d as [|[k0 v0] d IH]; cbn; [apply incl_nil_l|].
  destruct (String.eqb k k0); cbn.
  - apply incl_tl, incl_refl.
  - apply incl_cons; [by left|]. by apply incl_tl.
Qed.

Lemma dict_del_wf k d : dict_wf d -> dict_wf (dict_del k d).
Proof.
  unfold dict_wf. induction d as [|[k0 v0] d IH]; cbn; [done|].
  intros Hwf. apply NoDup_cons in Hwf as [Hnotin Hwf]. rewrite list_elem_of_In in Hnotin.
  destruct (String.eqb k k0); cbn; [done|].
  apply NoDup_cons. split; [|by apply IH].
  rewrite list_elem_of_In. intros Hin. apply Hnotin. by apply (dict_del_keys_incl k).
Qed.

Lemma dict_set_wf k v d : dict_wf d -> dict_wf (dict_set k v d).
Proof.
  unfold dict_wf. induction d as [|[k0 v0] d IH]; cbn.
  - intros _. apply NoDup_cons. split; [apply not_elem_of_nil | constructor].
  - intros Hwf. apply NoDup_cons in Hwf as [Hnotin Hwf]. rewrite list_elem_of_In in Hnotin.
    destruct (String.eqb k k0) eqn:E; cbn.
    + apply NoDup_cons. rewrite list_elem_of_In. by split.
    + apply NoDup_cons. split; [|by apply IH].
      rewrite list_elem_of_In. intros Hin. apply in_map_iff in Hin as [[k1 v1] [Hk Hin]]. cbn in Hk. subst k1.
      destruct (string_dec k k0) as [->|Hne]; [by rewrite String.eqb_refl in E|].
      apply Hnotin. apply in_map_iff. exists (k0, v1). split; [done|].
      apply dict_get_In. rewrite <- (dict_get_set_ne k k0 v) by done.
      apply In_dict_get; [by apply IH | done].
Qed.

(** The item that [min] returns is one of the items, and no item has
    a smaller measure. *)
Lemma min_by_In (f : string * V -> Z) best rest : In (min_by f best rest) (best :: rest).
Proof.
  revert best. induction rest as [|x rest IH]; intros best; cbn; [by left|].
  destruct (IH (if f x <? f best then x else best)) as [Heq|Hin].
  - rewrite <- Heq. destruct (f x <? f best); [right; by left | by left].
  - right. by right.
Qed.

Lemma min_by_le (f : string * V -> Z) best rest x :
  In x (best :: rest) -> f (min_by f best rest) <= f x.
Proof.
  revert best x. induction rest as [|y rest IH]; intros best x; cbn.
  - intros [->|[]]. lia.
  - assert (Hbest : f (min_by f (if f y <? f best then y else best) rest)
                    <= f (if f y <? f best then y else best))
      by (apply IH; by left).
    intros [->|[->|Hin]].
    + destruct (Z.ltb_spec (f y) (f x)); lia.
    + destruct (Z.ltb_spec (f x) (f best)); lia.
    + apply IH. by right.
Qed.
End DictFacts.

(** ** The Bounded Memory Store *)

Section MemoryCacheFacts.
Import MemoryCache.
Implicit Types (self : MemoryCache.t) (w : World) (key : string).

Lemma evict_lru_spec self w :
  cache self <> [] ->
  exists victim ventry,
    _evict_lru self w = Returned tt (with_cache (dict_del victim (cache self)) self) w
    /\ In (victim, ventry) (cache self)
    /\ forall x, In x (cache self) -> last_access (victim, ventry) <= last_access x.
Proof.
  intros Hne. unfold _evict_lru, bind, get_self.
  destruct (cache self) as [|first rest] eqn:Hc; [done|].
  set (oldest := min_by last_access first rest).
  assert (Hin : In oldest (first :: rest)) by apply min_by_In.
  destruct oldest as [victim ventry] eqn:Ho.
  exists victim, ventry. cbn [fst].
  rewrite (In_dict_in _ _ _ Hin). unfold put_self. split; [done|]. split; [done|].
  intros x Hx. rewrite <- Ho. by apply min_by_le.
Qed.

Lemma set_without_eviction self w key value ttl :
  lock self = false -> at_capacity self key = false ->
  set key value ttl self w
  = Returned tt (with_cache (dict_set key (stamp ttl value w) (cache self)) self)
      (after_stamp ttl w).
Proof.
  destruct self as [ms c l]. cbn. intros -> Hcap.
  unfold at_capacity, len in Hcap. cbn in Hcap.
  unfold set, at_capacity, async_with, bind, get_self, put_self, ret, time_time, len. cbn.
  rewrite Hcap. cbn.
  unfold stamp, after_stamp. destruct ttl as [t|]; cbn; [destruct (t =? 0); cbn|]; reflexivity.
Qed.

Lemma set_with_eviction self w key value ttl :
  lock self = false -> at_capacity self key = true -> cache self <> [] ->
  exists victim ventry,
    set key value ttl self w
    = Returned tt
        (with_cache (dict_set key (stamp ttl value w) (dict_del victim (cache self))) self)
        (after_stamp ttl w)
    /\ In (victim, ventry) (cache self)
    /\ forall x, In x (cache self) -> last_access (victim, ventry) <= last_access x.
Proof.
  intros Hlock Hcap Hne.
  destruct (evict_lru_spec (with_lock true self) w Hne)
    as (victim & ventry & Hev & Hget & Hmin).
  exists victim, ventry. split; [|by split].
  destruct self as [ms c l]. cbn in *. subst l.
  unfold at_capacity, len in Hcap. cbn in Hcap.
  unfold set, at_capacity, async_with, bind, get_self, put_self, ret, time_time, len. cbn.
  rewrite Hcap.
  unfold _evict_lru, with_lock, bind, get_self, put_self, ret in Hev |- *.
  cbn in Hev |- *. rewrite Hev. cbn.
  unfold stamp, after_stamp. destruct ttl as [t|]; cbn; [destruct (t =? 0); cbn|]; reflexivity.
Qed.

Lemma set_on_empty self w key value ttl :
  lock self = false -> cache self = [] ->
  set key value ttl self w
  = Returned tt (with_cache [(key, stamp ttl value w)] self) (after_stamp ttl w).
Proof.
  destruct self as [ms c l]. cbn. intros -> ->.
  unfold set, at_capacity, async_with, bind, get_self, put_self, ret, time_time, len, _evict_lru. cbn.
  unfold stamp, after_stamp.
  destruct (truthy ms && _ && _); cbn;
    (destruct ttl as [t|]; cbn; [destruct (t =? 0); cbn|]; reflexivity).
Qed.

(** Whatever is evicted, a [set] on a free cache returns with the key
    bound to the new entry. *)
Lemma set_returns self w key value ttl :
  lock self = false ->
  exists c,
    set key value ttl self w
    = Returned tt (with_cache (dict_set key (stamp ttl value w) c) self) (after_stamp ttl w).
Proof.
  intros Hlock. destruct (at_capacity self key) eqn:Hcap.
  - destruct (cache self) as [|first rest] eqn:Hc.
    + exists []. by rewrite set_on_empty.
    + destruct (set_with_eviction self w key value ttl) as (victim & ? & -> & _);
        [done | done | by rewrite Hc |].
      rewrite Hc. eauto.
  - exists (cache self). by apply set_without_eviction.
Qed.

Lemma get_absent self w key :
  lock self = false -> dict_get key (cache self) = None ->
  get key self w = Returned PyNone self w.
Proof.
  destruct self as [ms c l]. cbn. intros -> Hget.
  unfold get, async_with, bind, get_self, ret. cbn. by rewrite Hget.
Qed.

Lemma get_live self w key value expiry la :
  lock self = false -> dict_get key (cache self) = Some (value, expiry, la) ->
  expired expiry (clock w (ticks w)) = false ->
  get key self w
  = if truthy expiry
    then Returned value
           (with_cache (dict_set key (value, expiry, clock w (S (ticks w))) (cache self)) self)
           (with_ticks (S (S (ticks w))) w)
    else Returned value
           (with_cache (dict_set key (value, expiry, clock w (ticks w)) (cache self)) self)
           (with_ticks (S (ticks w)) w).
Proof.
  destruct self as [ms c l]. cbn. intros -> Hget Hexp.
  unfold get, async_with, bind, get_self, put_self, ret, time_time. cbn. rewrite Hget.
  unfold expired in Hexp. destruct (truthy expiry) eqn:Ht; cbn in *.
  - rewrite Hexp. reflexivity.
  - reflexivity.
Qed.

Lemma get_expired self w key value expiry la :
  lock self = false -> dict_get key (cache self) = Some (value, expiry, la) ->
  expired expiry (clock w (ticks w)) = true ->
  get key self w = Blocked (with_lock true self) (with_ticks (S (ticks w)) w).
Proof.
  destruct self as [ms c l]. cbn. intros -> Hget Hexp.
  unfold get, async_with, bind, get_self, put_self, ret, time_time. cbn. rewrite Hget.
  unfold expired in Hexp. apply andb_true_iff in Hexp as [Ht Hexp].
  rewrite Ht. cbn. rewrite Hexp. cbn. reflexivity.
Qed.


Lemma delete_free self w key :
  lock self = false ->
  delete key self w
  = Returned tt
      (if dict_in key (cache self) then with_cache (dict_del key (cache self)) self else self)
      w.
Proof.
  destruct self as [ms c l]. cbn. intros ->.
  unfold delete, async_with, bind, get_self, put_self, ret. cbn.
  destruct (dict_in key c); reflexivity.
Qed.

Lemma clear_free self w :
  lock self = false -> clear self w = Returned tt (with_cache [] self) w.
Proof. destruct self as [ms c l]. cbn. by intros ->. Qed.

(** Every operation waits for the lock first. *)
Lemma run_op_held self w o : lock self = true -> run_op o self w = Blocked self w.
Proof.
  intros Hlock.
  destruct o; cbn; unfold get, set, delete, clear, bind, async_with; by rewrite Hlock.
Qed.

(** C6.  LRU eviction.  On a store of capacity [n] whose lock is free,
    [set] returns.  When the key is already there, the keys of the
    store are the same afterwards: nothing is evicted.  When the key is
    new and the store holds [n] entries (or more), exactly one entry
    goes: its last access is the smallest of all stored entries, it is
    gone afterwards, every other entry is as it was, and the store is
    as large as before once the new key is in. *)
Theorem MemoryCache_set_evicts_least_recently_used
    (n : Z) self w key value ttl :
  max_size self = Some n -> 0 < n -> lock self = false -> dict_wf (cache self) ->
  exists self' w',
    set key value ttl self w = Returned tt self' w'
    /\ dict_get key (cache self') = Some (stamp ttl value w)
    /\ (dict_in key (cache self) = true ->
        map fst (cache self') = map fst (cache self))
    /\ (dict_in key (cache self) = false -> n <= len self ->
        exists victim ventry,
          dict_get victim (cache self) = Some ventry
          /\ (forall k e, dict_get k (cache self) = Some e ->
                last_access (victim, ventry) <= last_access (k, e))
          /\ dict_get victim (cache self') = None
          /\ (forall k, k <> victim -> k <> key ->
                dict_get k (cache self') = dict_get k (cache self))
          /\ len self' = len self).
Proof.
  intros Hmax Hn Hlock Hwf.
  destruct (dict_in key (cache self)) eqn:Hin.
  - (* the key is present: the capacity test fails on [key not in self.cache] *)
    assert (Hcap : at_capacity self key = false).
    { unfold at_capacity. rewrite Hin. cbn. by rewrite andb_false_r. }
    rewrite set_without_eviction by done.
    eexists _, _. split; [reflexivity|]. cbn.
    split; [apply dict_get_set_eq|].
    split; [intros _; by apply dict_set_keys | discriminate].
  - destruct (Z.leb_spec n (len self)) as [Hfull|Hroom].
    + assert (Hcap : at_capacity self key = true).
      { unfold at_capacity. rewrite Hmax, Hin. cbn.
        apply andb_true_iff. split; [|done]. apply andb_true_iff. split.
        - apply negb_true_iff, Z.eqb_neq. lia.
        - apply Z.geb_le. lia. }
      assert (Hne : cache self <> []).
      { unfold len in Hfull. destruct (cache self); [cbn in Hfull; lia | done]. }
      destruct (set_with_eviction self w key value ttl Hlock Hcap Hne)
        as (victim & ventry & Hset & Hvin & Hmin).
      rewrite Hset. eexists _, _. split; [reflexivity|]. cbn.
      split; [apply dict_get_set_eq|].
      split; [discriminate|]. intros _ _.
      assert (Hvget : dict_get victim (cache self) = Some ventry)
        by (by apply In_dict_get).
      assert (Hvk : key <> victim).
      { intros ->. apply dict_in_false in Hin. congruence. }
      exists victim, ventry. split; [done|].
      split; [intros k e Hk; apply Hmin; by apply dict_get_In|].
      split; [rewrite dict_get_set_ne by done; by apply dict_get_del_eq|].
      split.
      * intros k Hkv Hkk. rewrite dict_get_set_ne by done. by apply dict_get_del_ne.
      * unfold len. cbn. f_equal.
        rewrite dict_set_length_new.
        -- apply dict_del_length. apply dict_in_true. eauto.
        -- apply dict_in_false. rewrite dict_get_del_ne by done. by apply dict_in_false.
    + assert (Hcap : at_capacity self key = false).
      { unfold at_capacity. rewrite Hmax. cbn.
        replace (len self >=? n) with false; [by rewrite andb_false_r|].
        symmetry. rewrite Z.geb_leb. apply Z.leb_gt. lia. }
      rewrite set_without_eviction by done.
      eexists _, _. split; [reflexivity|]. cbn.
      split; [apply dict_get_set_eq|].
      split; [discriminate | intros _ ?; lia].
Qed.

(** One operation on a bounded store leaves it bounded, however the
    operation ends. *)
Lemma run_op_keeps_bound (n : Z) self w (o : op) :
  max_size self = Some n -> 0 < n -> len self <= n ->
  len (final (run_op o self w)) <= n
  /\ max_size (final (run_op o self w)) = Some n.
Proof.
  intros Hmax Hn Hlen.
  destruct (lock self) eqn:Hlock; [by rewrite run_op_held|].
  destruct o as [key|key value ttl|key|]; cbn; unfold bind.
  - (* get *)
    destruct (dict_get key (cache self)) as [[[value expiry] la]|] eqn:Hget.
    + destruct (expired expiry (clock w (ticks w))) eqn:Hexp.
      * by erewrite get_expired.
      * erewrite get_live by done.
        assert (Hin : dict_in key (cache self) = true) by (apply dict_in_true; eauto).
        destruct (truthy expiry); cbn; unfold len; cbn;
          rewrite dict_set_length_in by done; by split.
    + by rewrite get_absent.
  - (* set *)
    destruct (at_capacity self key) eqn:Hcap.
    + destruct (cache self) as [|first rest] eqn:Hc.
      * rewrite set_on_empty by done. cbn. unfold len. cbn. split; [lia | done].
      * destruct (set_with_eviction self w key value ttl) as (victim & ventry & -> & Hvin & _);
          [done | done | by rewrite Hc |].
        cbn. split; [|done]. unfold len in *. cbn [cache with_cache].
        pose proof (dict_set_length_le key (stamp ttl value w) (dict_del victim (cache self))).
        pose proof (dict_del_length victim (cache self) (In_dict_in _ _ _ Hvin)).
        rewrite Hc in *. lia.
    + rewrite set_without_eviction by done. cbn. split; [|done].
      unfold len in *. cbn [cache with_cache].
      destruct (dict_in key (cache self)) eqn:Hin.
      * by rewrite dict_set_length_in.
      * rewrite dict_set_length_new by done.
        unfold at_capacity in Hcap. rewrite Hmax, Hin in Hcap. cbn in Hcap.
        rewrite andb_true_r in Hcap.
        replace (n =? 0) with false in Hcap by (symmetry; apply Z.eqb_neq; lia).
        cbn in Hcap. unfold len in Hcap.
        rewrite Z.geb_leb in Hcap. apply Z.leb_gt in Hcap. lia.
  - (* delete *)
    rewrite delete_free by done. cbn.
    destruct (dict_in key (cache self)) eqn:Hin; [|done].
    split; [|done]. unfold len in *. cbn.
    pose proof (dict_del_length key (cache self) Hin). lia.
  - (* clear *)
    rewrite clear_free by done. cbn. split; [|done]. unfold len. cbn. lia.
Qed.

(** And so does any sequence of operations. *)
Lemma run_ops_keep_bound (n : Z) (ops : list op) self w :
  max_size self = Some n -> 0 < n -> len self <= n ->
  len (run_ops ops self w) <= n.
Proof.
  revert self w. induction ops as [|o ops IH]; intros self w Hmax Hn Hlen; cbn; [done|].
  destruct (run_op_keeps_bound n self w o Hmax Hn Hlen) as [Hlen' Hmax'].
  destruct (run_op o self w) as [v self' w'|e self' w'|self' w']; cbn in *; [|done|done].
  by apply IH.
Qed.

(** The keys of the store stay distinct. *)
Lemma run_op_keeps_wf self w (o : op) :
  dict_wf (cache self) -> dict_wf (cache (final (run_op o self w))).
Proof.
  intros Hwf.
  destruct (lock self) eqn:Hlock; [by rewrite run_op_held|].
  destruct o as [key|key value ttl|key|]; cbn; unfold bind.
  - destruct (dict_get key (cache self)) as [[[value expiry] la]|] eqn:Hget.
    + destruct (expired expiry (clock w (ticks w))) eqn:Hexp.
      * by erewrite get_expired.
      * erewrite get_live by done. destruct (truthy expiry); cbn; by apply dict_set_wf.
    + by rewrite get_absent.
  - destruct (at_capacity self key) eqn:Hcap.
    + destruct (cache self) as [|first rest] eqn:Hc.
      * rewrite set_on_empty by done. cbn. apply (dict_set_wf key _ []). constructor.
      * destruct (set_with_eviction self w key value ttl) as (victim & ventry & -> & _);
          [done | done | by rewrite Hc |].
        cbn. rewrite Hc. by apply dict_set_wf, dict_del_wf.
    + rewrite set_without_eviction by done. cbn. by apply dict_set_wf.
  - rewrite delete_free by done. cbn.
    destruct (dict_in key (cache self)); [cbn; by apply dict_del_wf | done].
  - rewrite clear_free by done. cbn. constructor.
Qed.

(** C8.  Bounded memory.  On a store of positive capacity [n] that
    holds at most [n] entries, whatever operation is run and however it
    ends, the store holds at most [n] entries afterwards, and its
    capacity is still [n]. *)
Theorem MemoryCache_size_bounded (n : Z) self w (o : op) :
  max_size self = Some n -> 0 < n -> len self <= n ->
  len (final (run_op o self w)) <= n
  /\ max_size (final (run_op o self w)) = Some n.
Proof. apply run_op_keeps_bound. Qed.
End MemoryCacheFacts.

(** ** The Durable File Store *)

Section DiskCacheFacts.
Context `{PyRuntime}.
Import DiskCache.
Implicit Types (self : DiskCache.t) (w : World) (key : string).

Lemma key_to_path_eq key self w :
  _key_to_path key self w
  = syscall (fun s w' => Returned (path_of self key) s
                           (made (parent (path_of self key)) w')) self w.
Proof.
  unfold _key_to_path, bind, get_self, fs_mkdir, syscall, ret, made.
  destruct (faults w) as [|[] plan]; reflexivity.
Qed.

Lemma get_file_lock_eq path self w :
  global_lock self = false ->
  _get_file_lock path self w = Returned (str_path path) (registered (str_path path) self) w.
Proof.
  destruct self as [base cmp locks gl]. cbn. intros ->.
  unfold _get_file_lock, registered, async_with, bind, get_self, put_self, ret. cbn.
  destruct (locks !! str_path path); reflexivity.
Qed.

Ltac run_disk :=
  unfold set, get, delete, load, _key_to_path, _get_file_lock, frame, try_except,
    async_with, bind, get_self, put_self,
    ret, raise, time_time, fs_mkdir, fs_open_write, fs_write, fs_replace, fs_exists,
    fs_unlink, fs_open_read, fs_read, syscall, on_self, set_local, get_local,
    logger_error, held, set_held, with_file_locks, with_global_lock, made;
  cbn.

(** Push the facts at hand through the cascade of matches. *)
Ltac simp_disk :=
  repeat first
    [ progress cbn
    | rewrite lookup_insert_eq
    | rewrite lookup_delete_eq
    | match goal with
      | Hx : _ = {| parent := _; stem := _; suffix := _ |} |- _ => rewrite <- Hx
      | Hx : ?m !! ?k = _ |- context [?m !! ?k] => rewrite Hx
      | Hx : pickle_dumps ?d = _ |- context [pickle_dumps ?d] => rewrite Hx
      | Hx : pickle_loads ?d = _ |- context [pickle_loads ?d] => rewrite Hx
      | Hx : zlib_decompress ?d = _ |- context [zlib_decompress ?d] => rewrite Hx
      | Hx : truthy ?d = _ |- context [truthy ?d] => rewrite Hx
      | Hx : env_expiry ?d = _ |- context [env_expiry ?d] => rewrite Hx
      | Hx : (?a <? ?b) = _ |- context [?a <? ?b] => rewrite Hx
      | Hx : (?a =? ?b) = _ |- context [?a =? ?b] => rewrite Hx
      | Hx : negb (?a =? ?b) = _ |- context [?a =? ?b] =>
          rewrite (proj1 (negb_true_iff _) Hx)
      end ].

(** The two ways in which the bytes of a file decode to [data]. *)
Lemma decoded_cases cmp stored data :
  decoded cmp stored = Some data ->
  (cmp = true /\ exists plain, zlib_decompress stored = Some plain
                             /\ pickle_loads plain = Some data)
  \/ (cmp = false /\ pickle_loads stored = Some data).
Proof.
  unfold decoded. destruct cmp; [|by right].
  destruct (zlib_decompress stored) as [plain|]; [|done]. left. eauto.
Qed.



(** The lazy expiry of [get] never completes: the nested [delete]
    waits for the lock of the file, which [get] itself holds.  The
    file stays. *)
Lemma DiskCache_get_expired self w key stored data :
  faults w = [] -> idle self key ->
  files w !! str_path (path_of self key) = Some stored ->
  decoded (compression self) stored = Some data ->
  expired (env_expiry data) (clock w (ticks w)) = true ->
  exists self' w',
    get key self w = Blocked self' w'
    /\ files w' = files w
    /\ held (str_path (path_of self key)) self' = true.
Proof.
  intros Hfaults [Hgl Hheld] Hfile Hdec Hexp.
  remember (path_of self key) as path eqn:Hpath.
  destruct self as [base cmp locks gl]. destruct w as [clk tk fl ds fa em sc lg cl].
  cbn in Hfaults, Hgl, Hfile, Hdec, Hexp. subst fa gl.
  unfold held, expired, path_of in *. cbn in Hheld, Hpath |- *.
  apply andb_true_iff in Hexp as [Ht Hpast].
  destruct (env_expiry data) as [e|] eqn:He; [|done].
  destruct (decoded_cases _ _ _ Hdec) as [(-> & plain & Hz & Hp)|[-> Hp]];
    (destruct (locks !! str_path path) as [b|] eqn:Hlk; cbn in Hheld; [subst b|]);
    cbn in Ht; run_disk; rewrite <- !Hpath; simp_disk;
    (eexists _, _; split; [reflexivity|]; by simp_disk).
Qed.

Lemma append_inj_l (s a b : string) : s +:+ a = s +:+ b -> a = b.
Proof. induction s as [|c s IH]; cbn; [done|]. intros [= Heq]. by apply IH. Qed.


End DiskCacheFacts.

(** ** The Cache Orchestrator *)

Section CacheManagerFacts.
Context {B : Type} {HB : CacheBackend B}.
Variable settings : Settings.t.
Implicit Types (b : B) (w : World) (key : string).

Ltac run_manager :=
  unfold CacheManager.get, CacheManager.set, CacheManager.delete, CacheManager.clear,
    CacheManager._ensure_initialized, CacheManager.on_backend, ready, try_except, bind,
    ret, raise, events_emit, logger_error;
  cbn.

(** A value that is not [None]: a hit is notified and the value
    returned. *)
Lemma CacheManager_get_hit key function_name b w value b' w' :
  backend_get key b w = Returned value b' w' -> is_None value = false ->
  CacheManager.get settings key function_name (ready b) w
  = Returned value (ready b')
      (with_emitted
         (emitted w' ++
          [{| event_type := CACHE_HIT;
              event_data := [("key", PyStr key); ("function", PyStr function_name);
                             ("backend", PyStr (Settings.backend_value settings))] |}])
         w').
Proof. intros Hget Hv. run_manager. rewrite Hget. cbn. by rewrite Hv. Qed.

(** [None] from the backend: a miss is notified. *)
Lemma CacheManager_get_miss key function_name b w b' w' :
  backend_get key b w = Returned PyNone b' w' ->
  CacheManager.get settings key function_name (ready b) w
  = Returned PyNone (ready b')
      (with_emitted
         (emitted w' ++
          [{| event_type := CACHE_MISS;
              event_data := [("key", PyStr key); ("function", PyStr function_name);
                             ("backend", PyStr (Settings.backend_value settings))] |}])
         w').
Proof. intros Hget. run_manager. by rewrite Hget. Qed.


Lemma CacheManager_set_ok key value function_name ttl b w b' w' :
  backend_set key value (py_or ttl (Settings.ttl settings)) b w = Returned tt b' w' ->
  CacheManager.set settings key value function_name ttl (ready b) w
  = Returned tt (ready b')
      (with_emitted
         (emitted w' ++
          [{| event_type := CACHE_SET;
              event_data := [("key", PyStr key); ("function", PyStr function_name);
                             ("backend", PyStr (Settings.backend_value settings));
                             ("ttl", of_optional (py_or ttl (Settings.ttl settings)))] |}])
         w').
Proof. intros Hset. run_manager. by rewrite Hset. Qed.


Lemma CacheManager_delete_error key b w e b' w' :
  backend_delete key b w = Raised e b' w' -> is_Exception e = true ->
  CacheManager.delete settings key (ready b) w
  = Returned tt (ready b')
      (with_logged
         (logged w' ++ ["Cache delete error for " +:+ key +:+ ": " +:+ exn_str e])
         (with_emitted
            (emitted w' ++
             [{| event_type := CACHE_ERROR;
                 event_data := [("key", PyStr key);
                                ("backend", PyStr (Settings.backend_value settings));
                                ("error", PyStr (exn_str e));
                                ("error_type", PyStr (class_name (exn_type e)));
                                ("operation", PyStr "delete")] |}])
            w')).
Proof. intros Hdel He. run_manager. rewrite Hdel. cbn. by rewrite He. Qed.

Lemma CacheManager_clear_error b w e b' w' :
  backend_clear b w = Raised e b' w' -> is_Exception e = true ->
  CacheManager.clear settings (ready b) w
  = Returned tt (ready b')
      (with_logged
         (logged w' ++ ["Cache clear error: " +:+ exn_str e])
         (with_emitted
            (emitted w' ++
             [{| event_type := CACHE_ERROR;
                 event_data := [("backend", PyStr (Settings.backend_value settings));
                                ("error", PyStr (exn_str e));
                                ("error_type", PyStr (class_name (exn_type e)));
                                ("operation", PyStr "clear")] |}])
            w')).
Proof. intros Hclr He. run_manager. rewrite Hclr. cbn. by rewrite He. Qed.
End CacheManagerFacts.

(** ** The Call Bridge *)

Section CallBridgeFacts.
Context `{PyRuntime}.
Context {B : Type} {HB : CacheBackend B}.
Variable settings : Settings.t.
Context {U : Type}.
Implicit Types (f : Func U) (b : B) (u : U) (w : World).

Ltac run_bridge :=
  unfold _get_cached_value, call, on_self, try_except, bind, ret, raise, events_emit,
    logger_error, time_time;
  cbn.

(** C3.  Cache-hit short-circuit.  When the backend of an initialised
    orchestrator answers the key of the call with a value that is not
    [None], the call returns that value, flagged as cached; the only
    trace it leaves after the backend's answer is the hit notification:
    the body has not run (the count of executions and the caller's own
    state are as they were) and nothing is stored. *)
Theorem cached_value_is_returned_without_calling
    f args kwargs ttl key_builder key_prefix exclude_args b u w value b' w' :
  backend_get (build_cache_key settings f args kwargs key_builder key_prefix exclude_args)
    b w
  = Returned value b' w' ->
  is_None value = false ->
  _get_cached_value settings f args kwargs ttl key_builder key_prefix exclude_args
    (ready b, u) w
  = Returned (true, value) (ready b', u)
      (with_emitted
         (emitted w' ++
          [{| event_type := CACHE_HIT;
              event_data :=
                [("key", PyStr (build_cache_key settings f args kwargs key_builder
                                  key_prefix exclude_args));
                 ("function", PyStr (qualified_name f));
                 ("backend", PyStr (Settings.backend_value settings))] |}])
         w')
  /\ calls
       (final_world
          (_get_cached_value settings f args kwargs ttl key_builder key_prefix exclude_args
             (ready b, u) w))
     = calls w'.
Proof.
  set (key := build_cache_key settings f args kwargs key_builder key_prefix exclude_args).
  set (func_name := qualified_name f).
  intros Hget Hv.
  assert (Hrun : _get_cached_value settings f args kwargs ttl key_builder key_prefix
                   exclude_args (ready b, u) w
                 = Returned (true, value) (ready b', u)
                     (with_emitted
                        (emitted w' ++
                         [{| event_type := CACHE_HIT;
                             event_data :=
                               [("key", PyStr key); ("function", PyStr func_name);
                                ("backend", PyStr (Settings.backend_value settings))] |}])
                        w')).
  { unfold _get_cached_value, on_self, bind. cbn [fst snd].
    fold key func_name.
    rewrite (CacheManager_get_hit settings key func_name b w value b' w' Hget Hv).
    by rewrite Hv. }
  rewrite Hrun. by split.
Qed.

(** After a lookup that reports nothing, a body that raises: the
    exception is notified and raised again. *)
Lemma raising_body
    f args kwargs ttl key_builder key_prefix exclude_args
    (m : CacheManager.t) u w m1 w1 e u1 :
  CacheManager.get settings
    (build_cache_key settings f args kwargs key_builder key_prefix exclude_args)
    (qualified_name f) m w
  = Returned PyNone m1 w1 ->
  body f args kwargs u = (inl e, u1) ->
  is_Exception e = true ->
  exists w2,
    _get_cached_value settings f args kwargs ttl key_builder key_prefix exclude_args (m, u) w
    = Raised e (m1, u1) w2
    /\ emitted w2
       = (emitted w1 ++
          [{| event_type := FUNCTION_CALL_START;
              event_data := [("function", PyStr (qualified_name f));
                             ("key", PyStr (build_cache_key settings f args kwargs
                                              key_builder key_prefix exclude_args));
                             ("args_count", PyInt (Z.of_nat (length args)));
                             ("kwargs_count", PyInt (Z.of_nat (length kwargs)))] |};
           {| event_type := FUNCTION_ERROR;
              event_data := [("function", PyStr (qualified_name f));
                             ("key", PyStr (build_cache_key settings f args kwargs
                                              key_builder key_prefix exclude_args));
                             ("error", PyStr (exn_str e));
                             ("error_type", PyStr (class_name (exn_type e)));
                             ("traceback", PyStr (format_exc e))] |}])%list
    /\ files w2 = files w1
    /\ calls w2 = S (calls w1).
Proof.
  set (key := build_cache_key settings f args kwargs key_builder key_prefix exclude_args).
  set (func_name := qualified_name f).
  intros Hget Hbody He.
  unfold _get_cached_value, on_self, bind at 1. cbn [fst snd].
  fold key func_name. rewrite Hget. cbn [is_None negb].
  run_bridge. destruct (is_coroutine f); cbn; rewrite Hbody; cbn; rewrite He; cbn;
    (eexists; split; [reflexivity|]; cbn; by rewrite <- app_assoc).
Qed.



(** An exception outside the [Exception] hierarchy goes through as
    well, with no error notification. *)
Lemma base_exception_of_the_body_propagates
    f args kwargs ttl key_builder key_prefix exclude_args
    (m : CacheManager.t) u w m1 w1 e u1 :
  CacheManager.get settings
    (build_cache_key settings f args kwargs key_builder key_prefix exclude_args)
    (qualified_name f) m w
  = Returned PyNone m1 w1 ->
  body f args kwargs u = (inl e, u1) ->
  is_Exception e = false ->
  exists w2,
    _get_cached_value settings f args kwargs ttl key_builder key_prefix exclude_args (m, u) w
    = Raised e (m1, u1) w2
    /\ emitted w2
       = (emitted w1 ++
          [{| event_type := FUNCTION_CALL_START;
              event_data := [("function", PyStr (qualified_name f));
                             ("key", PyStr (build_cache_key settings f args kwargs
                                              key_builder key_prefix exclude_args));
                             ("args_count", PyInt (Z.of_nat (length args)));
                             ("kwargs_count", PyInt (Z.of_nat (length kwargs)))] |}])%list.
Proof.
  set (key := build_cache_key settings f args kwargs key_builder key_prefix exclude_args).
  set (func_name := qualified_name f).
  intros Hget Hbody He.
  unfold _get_cached_value, on_self, bind at 1. cbn [fst snd].
  fold key func_name. rewrite Hget. cbn [is_None negb].
  run_bridge. destruct (is_coroutine f); cbn; rewrite Hbody; cbn; rewrite He; cbn;
    (eexists; split; reflexivity).
Qed.

(** A miss is followed by one execution of the body, whatever comes
    of it. *)
Lemma miss_calls_the_body
    f args kwargs ttl key_builder key_prefix exclude_args
    (m : CacheManager.t) u w m1 w1 :
  CacheManager.get settings
    (build_cache_key settings f args kwargs key_builder key_prefix exclude_args)
    (qualified_name f) m w
  = Returned PyNone m1 w1 ->
  (forall k v fn t m' w', calls (final_world (CacheManager.set settings k v fn t m' w'))
                          = calls w') ->
  calls
    (final_world
       (_get_cached_value settings f args kwargs ttl key_builder key_prefix exclude_args
          (m, u) w))
  = S (calls w1).
Proof.
  set (key := build_cache_key settings f args kwargs key_builder key_prefix exclude_args).
  set (func_name := qualified_name f).
  intros Hget Hset.
  unfold _get_cached_value, on_self, bind at 1. cbn [fst snd].
  fold key func_name. rewrite Hget. cbn [is_None negb].
  run_bridge.
  destruct (is_coroutine f); cbn; destruct (body f args kwargs u) as [[e|result] u1]; cbn;
    try (destruct (is_Exception e); reflexivity).
  all: match goal with
       | |- context [CacheManager.set settings ?k ?v ?fn ?t ?m' ?w'] =>
           specialize (Hset k v fn t m' w');
           destruct (CacheManager.set settings k v fn t m' w') as [[] m2 w2|e2 m2 w2|m2 w2]
       end; cbn in Hset |- *;
    [exact Hset | destruct (is_Exception e2); cbn; exact Hset | exact Hset].
Qed.
End CallBridgeFacts.

(** ** The Key Builder *)

Section KeyBuilderFacts.
Context `{PyRuntime}.
Variable settings : Settings.t.
Context {U : Type}.
Implicit Types (f : Func U) (exclude names : list string).






Lemma positional_parts_excluded_last exclude names i args secret name :
  nth_error names (i + length args) = Some name ->
  mem name exclude = true ->
  positional_parts exclude names i (args ++ [secret]) = positional_parts exclude names i args.
Proof.
  intros Hname Hmem. revert i Hname.
  induction args as [|x rest IH]; intros i Hname.
  - cbn [app positional_parts length] in *. rewrite Nat.add_0_r in Hname.
    rewrite Hname, Hmem. destruct exclude; [discriminate | reflexivity].
  - cbn [app positional_parts length] in *. rewrite (IH (S i)); [done|].
    by rewrite Nat.add_succ_r in Hname.
Qed.

(** By position or by name: the key is the same either way. *)
Lemma excluded_argument_by_position_or_by_name
    f args secret1 secret2 name key_prefix exclude :
  nth_error (parameters f) (length args) = Some name ->
  mem name exclude = true ->
  build_cache_key settings f (args ++ [secret1]) [] None key_prefix (Some exclude)
  = build_cache_key settings f args [(name, secret2)] None key_prefix (Some exclude).
Proof.
  intros Hname Hmem. unfold build_cache_key. cbv zeta.
  change (default [] (Some exclude)) with exclude.
  cbn [sorted_items fold_right insert_item keyword_parts]. rewrite Hmem.
  destruct exclude as [|name0 exclude0]; [discriminate|].
  by rewrite (positional_parts_excluded_last _ _ _ _ _ name).
Qed.
End KeyBuilderFacts.

(** ** Round trips *)

Section RoundTrip.
Context `{PyRuntime}.



End RoundTrip.

(** ** Failing writes of the file store, seen from the orchestrator *)

Section DiskWriteFailure.
Context `{PyRuntime}.
Variable settings : Settings.t.

End DiskWriteFailure.

(** ** A stored [None] *)

Section StoredNone.
Context `{PyRuntime}.
Variable settings : Settings.t.

Lemma MemoryCache_set_keeps_calls (self : MemoryCache.t) w key value ttl :
  calls (final_world (MemoryCache.set key value ttl self w)) = calls w.
Proof.
  destruct (MemoryCache.lock self) eqn:Hlock.
  - unfold MemoryCache.set, async_with. by rewrite Hlock.
  - destruct (set_returns self w key value ttl Hlock) as [c ->]. reflexivity.
Qed.

Lemma CacheManager_set_keeps_calls key value function_name ttl
    (m : CacheManager.t (B := MemoryCache.t)) w :
  calls (final_world (CacheManager.set settings key value function_name ttl m w)) = calls w.
Proof.
  pose proof (MemoryCache_set_keeps_calls) as Hkeep.
  destruct m as [[b|] [|]];
    unfold CacheManager.set, CacheManager._ensure_initialized, CacheManager.on_backend,
      try_except, bind, ret, raise, events_emit, logger_error, create_task_emit, put_self;
    cbn -[MemoryCache.set].
  all: try reflexivity.
  all: match goal with
       | |- context [MemoryCache.set ?a ?b ?c ?d ?e] =>
           specialize (Hkeep d e a b c);
           destruct (MemoryCache.set a b c d e) as [[] b' w'|e0 b' w'|b' w']
       end; cbn in *; [done| |done]; by destruct (is_Exception e0).
Qed.

(** C10.  A stored [None] reads as a miss.  On an orchestrator backed
    by the memory store, whose lock is free: [set(k, None)] stores an
    entry for [k]; as long as that entry has not expired, the
    orchestrator's [get(k)] returns [None] and notifies a miss, not a
    hit; and a call whose key is [k] executes the body of its function
    again. *)
Theorem stored_None_reads_as_a_miss (self : MemoryCache.t) w key function_name ttl :
  MemoryCache.lock self = false ->
  expired (snd (fst (stamp (py_or ttl (Settings.ttl settings)) PyNone w)))
    (clock w (ticks (after_stamp (py_or ttl (Settings.ttl settings)) w)))
  = false ->
  exists self1 w1 self2 w2,
    CacheManager.set settings key PyNone function_name ttl (ready self) w
    = Returned tt (ready self1) w1
    /\ dict_get key (MemoryCache.cache self1)
       = Some (stamp (py_or ttl (Settings.ttl settings)) PyNone w)
    /\ CacheManager.get settings key function_name (ready self1) w1
       = Returned PyNone (ready self2) w2
    /\ emitted w2
       = (emitted w ++
          [{| event_type := CACHE_SET;
              event_data := [("key", PyStr key); ("function", PyStr function_name);
                             ("backend", PyStr (Settings.backend_value settings));
                             ("ttl", of_optional (py_or ttl (Settings.ttl settings)))] |};
           {| event_type := CACHE_MISS;
              event_data := [("key", PyStr key); ("function", PyStr function_name);
                             ("backend", PyStr (Settings.backend_value settings))] |}])%list
    /\ forall (U : Type) (f : Func U) args kwargs ttl2 key_builder key_prefix exclude_args u,
         build_cache_key settings f args kwargs key_builder key_prefix exclude_args = key ->
         calls
           (final_world
              (_get_cached_value settings f args kwargs ttl2 key_builder key_prefix
                 exclude_args (ready self1, u) w1))
         = S (calls w1).
Proof.
  set (ttl' := py_or ttl (Settings.ttl settings)).
  intros Hlock Hlive.
  destruct (set_returns self w key PyNone ttl' Hlock) as [c Hset].
  set (self1 := MemoryCache.with_cache (dict_set key (stamp ttl' PyNone w) c) self) in *.
  set (w1 := with_emitted
               (emitted (after_stamp ttl' w) ++
                [{| event_type := CACHE_SET;
                    event_data := [("key", PyStr key); ("function", PyStr function_name);
                                   ("backend", PyStr (Settings.backend_value settings));
                                   ("ttl", of_optional ttl')] |}])
               (after_stamp ttl' w)).
  assert (Hentry : dict_get key (MemoryCache.cache self1) = Some (stamp ttl' PyNone w))
    by apply dict_get_set_eq.
  assert (Hstamp : stamp ttl' PyNone w
                   = (PyNone, snd (fst (stamp ttl' PyNone w)), snd (stamp ttl' PyNone w)))
    by (unfold stamp; by destruct (truthy ttl')).
  rewrite Hstamp in Hentry.
  assert (Hget : exists self2 w2,
             MemoryCache.get key self1 w1 = Returned PyNone self2 w2
             /\ emitted w2 = emitted w1 /\ calls w2 = calls w1).
  { rewrite (get_live self1 w1 key _ _ _ Hlock Hentry Hlive).
    destruct (truthy _); eauto. }
  destruct Hget as (self2 & w2 & Hget & Hem2 & Hcalls2).
  exists self1, w1, self2.
  eexists. split.
  { exact (CacheManager_set_ok (HB := MemoryCache_backend) settings key PyNone function_name
             ttl self (w) self1 (after_stamp ttl' w) Hset). }
  split; [by rewrite Hstamp|].
  split.
  { exact (CacheManager_get_miss (HB := MemoryCache_backend) settings key function_name
             self1 w1 self2 w2 Hget). }
  split.
  { cbn. rewrite Hem2. subst w1. cbn. by rewrite <- app_assoc. }
  intros U f args kwargs ttl2 key_builder key_prefix exclude_args u Hkey.
  pose proof (CacheManager_get_miss (HB := MemoryCache_backend) settings key
                (qualified_name f) self1 w1 self2 w2 Hget) as Hmiss.
  rewrite <- Hkey in Hmiss.
  rewrite (miss_calls_the_body settings f args kwargs ttl2 key_builder key_prefix
             exclude_args (ready self1) u w1 _ _ Hmiss).
  - cbn. by rewrite Hcalls2.
  - intros. apply CacheManager_set_keeps_calls.
Qed.

(** On the memory store, a call that fails on a key that is not stored
    leaves the store exactly as it was. *)
Lemma failing_call_leaves_the_memory_store_untouched {U : Type}
    (f : Func U) args kwargs ttl key_builder key_prefix exclude_args
    (self : MemoryCache.t) u w e u1 :
  MemoryCache.lock self = false ->
  dict_get (build_cache_key settings f args kwargs key_builder key_prefix exclude_args)
    (MemoryCache.cache self)
  = None ->
  body f args kwargs u = (inl e, u1) ->
  is_Exception e = true ->
  exists w2,
    _get_cached_value (HB := MemoryCache_backend) settings f args kwargs ttl key_builder
      key_prefix exclude_args (ready self, u) w
    = Raised e (ready self, u1) w2.
Proof.
  intros Hlock Habsent Hbody He.
  pose proof (get_absent self w _ Hlock Habsent) as Hget.
  pose proof (CacheManager_get_miss (HB := MemoryCache_backend) settings _
                (qualified_name f) self w self w Hget) as Hmiss.
  destruct (raising_body settings f args kwargs ttl key_builder key_prefix exclude_args
              (ready self) u w _ _ e u1 Hmiss Hbody He) as (w2 & Hrun & _).
  eauto.
Qed.
End StoredNone.

(** ** The code at its failing inputs *)

(** C1.  Lazy expiry.  An entry is stored with a time to live of one;
    twenty later it is read.  Both stores find it expired and call their
    own [delete] while they hold the lock that [delete] waits for: the
    [get] never returns, and the entry (the file) is still there. *)
Theorem get_of_an_expired_entry_never_returns :
  (exists memory1 w1 memory2 w2,
     MemoryCache.set "k" (PyInt 1) (Some 1) (MemoryCache.__init__ None) ticking_world
     = Returned tt memory1 w1
     /\ dict_get "k" (MemoryCache.cache memory1) = Some (PyInt 1, Some 21, 30)
     /\ clock w1 (ticks w1) = 40
     /\ MemoryCache.get "k" memory1 w1 = Blocked memory2 w2
     /\ dict_get "k" (MemoryCache.cache memory2) = Some (PyInt 1, Some 21, 30)
     /\ MemoryCache.lock memory2 = true)
  /\ (exists disk1 w1 disk2 w2,
        DiskCache.set (H := example_runtime) "k" (PyBytes [Byte.x2a]) (Some 1)
          example_disk ticking_world
        = Returned tt disk1 w1
        /\ decoded (H := example_runtime) false
             (default [] (files w1 !! ".cache/k/k.cache"))
           = Some {| env_value := PyBytes [Byte.x2a]; env_expiry := Some 21;
                     env_created := 30 |}
        /\ clock w1 (ticks w1) = 40
        /\ DiskCache.get (H := example_runtime) "k" disk1 w1 = Blocked disk2 w2
        /\ is_Some (files w2 !! ".cache/k/k.cache")
        /\ DiskCache.held ".cache/k/k.cache" disk2 = true).
Proof.
  split.
  - eexists _, _, _, _. split; [vm_compute; reflexivity|].
    split; [reflexivity|]. split; [reflexivity|].
    split; [vm_compute; reflexivity|]. split; reflexivity.
  - eexists _, _, _, _. split; [vm_compute; reflexivity|].
    split; [vm_compute; reflexivity|]. split; [reflexivity|].
    split; [vm_compute; reflexivity|]. split; [|vm_compute; reflexivity].
    vm_compute. eauto.
Qed.

(** C5.  Graceful degradation.  The directory of the key cannot be
    created: [DiskCache.get] and [DiskCache.set] raise [OSError] out of
    [_key_to_path].  The orchestrator catches both, returns, and notifies
    an error that names the class of the exception.  The notification of
    [set] carries the name of the operation; that of [get] does not. *)
Theorem get_error_notification_lacks_the_operation :
  (exists m' w' data,
     CacheManager.get (HB := DiskCache_backend (H := example_runtime)) disk_settings
       "k" "app.square" (ready example_disk) failing_mkdir_world
     = Returned PyNone m' w'
     /\ emitted w' = [{| event_type := CACHE_ERROR; event_data := data |}]
     /\ field "error_type" data = Some (PyStr "OSError")
     /\ field "operation" data = None)
  /\ (exists m' w' data,
        CacheManager.set (HB := DiskCache_backend (H := example_runtime)) disk_settings
          "k" (PyBytes [Byte.x2a]) "app.square" (Some 1) (ready example_disk)
          failing_mkdir_world
        = Returned tt m' w'
        /\ emitted w' = [{| event_type := CACHE_ERROR; event_data := data |}]
        /\ field "error_type" data = Some (PyStr "OSError")
        /\ field "operation" data = Some (PyStr "set")).
Proof.
  split.
  - eexists _, _, _. split; [vm_compute; reflexivity|].
    split; [reflexivity|]. split; reflexivity.
  - eexists _, _, _. split; [vm_compute; reflexivity|].
    split; [reflexivity|]. split; reflexivity.
Qed.

(** ** Where the specification says more than the code does *)



(** ** The theorems at concrete inputs *)

(** A store of capacity two that is full; ["b"] is the least recently
    used. *)
Lemma MemoryCache_set_evicts_least_recently_used_witness :
  exists self' w',
    MemoryCache.set "c" (PyInt 3) None full_store example_world = Returned tt self' w'
    /\ dict_get "b" (MemoryCache.cache self') = None
    /\ dict_get "a" (MemoryCache.cache self') = Some (PyInt 1, None, 5)
    /\ MemoryCache.len self' = 2.
Proof.
  destruct (MemoryCache_set_evicts_least_recently_used 2 full_store example_world
              "c" (PyInt 3) None)
    as (self' & w' & Hset & _ & _ & Hevict).
  - reflexivity.
  - lia.
  - reflexivity.
  - unfold dict_wf. cbn. apply (bool_decide_unpack _). vm_compute. exact I.
  - destruct Hevict as (victim & ventry & Hv & Hmin & Hgone & Hkept & Hlen).
    + reflexivity.
    + unfold MemoryCache.len. cbn. lia.
    + exists self', w'. split; [exact Hset|].
      assert (victim = "b") as ->.
      { destruct (string_dec victim "b") as [->|Hne]; [reflexivity|].
        destruct (string_dec victim "a") as [->|Hne'].
        - cbn in Hv. injection Hv as <-.
          specialize (Hmin "b" (PyInt 2, None, 3) eq_refl). cbn in Hmin. lia.
        - exfalso. cbn in Hv.
          destruct (String.eqb_spec victim "a"); [contradiction|].
          destruct (String.eqb_spec victim "b"); [contradiction | discriminate]. }
      split; [exact Hgone|].
      split; [rewrite Hkept; [reflexivity | discriminate | discriminate]|].
      exact Hlen.
Defined.

Lemma MemoryCache_size_bounded_witness :
  MemoryCache.len
    (final (run_op (Set_ "c" (PyInt 3) None) full_store example_world))
  <= 2.
Proof.
  apply (MemoryCache_size_bounded 2 full_store example_world (Set_ "c" (PyInt 3) None)).
  - reflexivity.
  - lia.
  - unfold MemoryCache.len. cbn. lia.
Defined.


(** [square(5, "secret")] with its result in the store: the counter of
    the caller stays at seven. *)
Lemma cached_value_is_returned_without_calling_witness :
  exists store' w',
    _get_cached_value (H := example_runtime) example_settings square
      [PyInt 5; PyStr "secret"] [] None None None (Some ["api_key"])
      (ready square_store, 7%nat) example_world
    = Returned (true, PyInt 25) (ready store', 7%nat) w'
    /\ calls w' = 0%nat.
Proof.
  edestruct (cached_value_is_returned_without_calling (H := example_runtime)
               (HB := MemoryCache_backend) example_settings square
               [PyInt 5; PyStr "secret"] [] None None None (Some ["api_key"])
               square_store 7%nat example_world (PyInt 25)) as [Hrun Hcalls].
  - vm_compute. reflexivity.
  - reflexivity.
  - eexists _, _. split; [exact Hrun | reflexivity].
Defined.




Lemma stored_None_reads_as_a_miss_witness :
  exists store1 w1 store2 w2,
    CacheManager.set (HB := MemoryCache_backend) example_settings "k" PyNone "app.square"
      None (ready (MemoryCache.__init__ None)) example_world
    = Returned tt (ready store1) w1
    /\ dict_get "k" (MemoryCache.cache store1) = Some (PyNone, Some 3620, 20)
    /\ CacheManager.get (HB := MemoryCache_backend) example_settings "k" "app.square"
         (ready store1) w1
       = Returned PyNone (ready store2) w2
    /\ map event_type (emitted w2) = [CACHE_SET; CACHE_MISS].
Proof.
  destruct (stored_None_reads_as_a_miss (H := example_runtime) example_settings
              (MemoryCache.__init__ None) example_world "k" "app.square" None)
    as (store1 & w1 & store2 & w2 & Hset & Hentry & Hget & Hem & _).
  - reflexivity.
  - reflexivity.
  - exists store1, w1, store2, w2. split; [exact Hset|]. split; [exact Hentry|].
    split; [exact Hget|]. by rewrite Hem.
Defined.

(** ** End to end *)

(** [square(5, "secret")] through the bridge, on an orchestrator that
    has not been used yet and is configured for the memory store: the
    first call computes 25 and stores it, the second call is served from
    the store.  The body has run once. *)
Example square_twice :
  exists app1 w1 app2 w2,
    _wrapped_func (H := example_runtime) (HB := Backend_backend (H := example_runtime))
      example_settings square [PyInt 5; PyStr "secret"] [] None None None (Some ["api_key"])
      (CacheManager.__init__, 0%nat) example_world
    = Returned (PyInt 25) app1 w1
    /\ _wrapped_func (H := example_runtime) (HB := Backend_backend (H := example_runtime))
         example_settings square [PyInt 5; PyStr "other"] [] None None None (Some ["api_key"])
         app1 w1
       = Returned (PyInt 25) app2 w2
    /\ snd app2 = 1%nat
    /\ calls w2 = 1%nat
    /\ map event_type (emitted w2)
       = [CACHE_MISS; FUNCTION_CALL_START; FUNCTION_CALL_END; CACHE_SET; CACHE_HIT]
    /\ map event_type (scheduled w2) = [BACKEND_INIT].
Proof.
  eexists _, _, _, _. split; [vm_compute; reflexivity|].
  split; [vm_compute; reflexivity|]. repeat split; reflexivity.
Qed.

(** The memory store never raises; a remote backend cannot be
    constructed from these sources, and the first use of the orchestrator
    fails with it. *)
Example redis_is_not_available :
  exists m w,
    CacheManager.get (HB := Backend_backend (H := example_runtime))
      {| Settings.backend := REDIS; Settings.ttl := None; Settings.base_path := ".cache";
         Settings.compression := false; Settings.key_prefix := "retainit";
         Settings.max_size := None; Settings.redis := false; Settings.s3 := false;
         Settings.dynamodb := false |}
      "k" "app.square" CacheManager.__init__ example_world
    = Raised (runtime_error "Redis settings not configured") m w.
Proof. eexists _, _. vm_compute. reflexivity. Qed.

(** * More of the code *)

(** ** The memory store: deletion, clearing, expiry, recency *)

Section MemoryCacheMore.
Import MemoryCache.
Implicit Types (self : MemoryCache.t) (w : World) (key : string).

(** X1.  After [delete(key)] the key is not stored, a [get(key)] misses, and
    every other entry is as it was.  Deleting a key that is not stored
    changes nothing. *)
Theorem MemoryCache_delete_then_get self w key :
  lock self = false -> dict_wf (cache self) ->
  exists self1,
    delete key self w = Returned tt self1 w
    /\ dict_get key (cache self1) = None
    /\ get key self1 w = Returned PyNone self1 w
    /\ (forall k, k <> key -> dict_get k (cache self1) = dict_get k (cache self))
    /\ (dict_get key (cache self) = None -> self1 = self).
Proof.
  intros Hlock Hwf. rewrite delete_free by done.
  destruct (dict_in key (cache self)) eqn:Hin.
  - eexists. split; [reflexivity|]. cbn.
    assert (Hgone : dict_get key (dict_del key (cache self)) = None)
      by (by apply dict_get_del_eq).
    split; [exact Hgone|]. split; [by apply get_absent|].
    split; [intros k Hk; by apply dict_get_del_ne|].
    intros Habs. apply dict_in_true in Hin as [v Hv]. congruence.
  - apply dict_in_false in Hin. exists self. split; [reflexivity|].
    split; [exact Hin|]. split; [by apply get_absent|]. by split.
Qed.

(** X2.  After [clear()] the store is empty and every [get] misses. *)
Theorem MemoryCache_clear_then_get self w key :
  lock self = false ->
  exists self1,
    clear self w = Returned tt self1 w
    /\ len self1 = 0
    /\ max_size self1 = max_size self
    /\ get key self1 w = Returned PyNone self1 w.
Proof.
  intros Hlock. rewrite clear_free by done. eexists. split; [reflexivity|].
  split; [reflexivity|]. split; [reflexivity|]. by apply get_absent.
Qed.

(** X3.  No operation of the memory store raises.  On a store whose lock is
    free, an operation that returns leaves the lock free, and the only
    operation that does not return is a [get] of an expired entry. *)
Theorem MemoryCache_operations_return self w (o : op) :
  lock self = false ->
  match run_op o self w with
  | Returned _ self' _ => lock self' = false
  | Raised _ _ _ => False
  | Blocked _ _ =>
      exists key value expiry la,
        o = Get key
        /\ dict_get key (cache self) = Some (value, expiry, la)
        /\ expired expiry (clock w (ticks w)) = true
  end.
Proof.
  intros Hlock. destruct o as [key|key value ttl|key|]; cbn; unfold bind.
  - destruct (dict_get key (cache self)) as [[[value expiry] la]|] eqn:Hget.
    + destruct (expired expiry (clock w (ticks w))) eqn:Hexp.
      * erewrite get_expired by done. eauto 10.
      * erewrite get_live by done. by destruct (truthy expiry).
    + by rewrite get_absent.
  - destruct (set_returns self w key value ttl Hlock) as [c ->]. done.
  - rewrite delete_free by done. by destruct (dict_in key (cache self)).
  - by rewrite clear_free.
Qed.

End MemoryCacheMore.

Section MemoryCacheExpiry.
Import MemoryCache.
Implicit Types (self : MemoryCache.t) (w : World) (key : string).

(** X4.  An entry stored with a time to live [t] is served as long as the
    clock has not passed [now + t]: at the instant of expiry itself the
    entry is still a hit ([time.time() > expiry] is strict). *)
Theorem MemoryCache_entry_is_served_until_it_expires self w key value (t : Z) :
  lock self = false -> t <> 0 ->
  clock w (S (S (ticks w))) <= clock w (ticks w) + t ->
  exists self1 w1 self2 w2,
    set key value (Some t) self w = Returned tt self1 w1
    /\ dict_get key (cache self1)
       = Some (value, Some (clock w (ticks w) + t), clock w (S (ticks w)))
    /\ get key self1 w1 = Returned value self2 w2.
Proof.
  intros Hlock Ht Hlive.
  destruct (set_returns self w key value (Some t) Hlock) as [c Hset].
  rewrite Hset. unfold stamp, after_stamp. cbn.
  replace (t =? 0) with false by (symmetry; by apply Z.eqb_neq). cbn.
  eexists _, _. 
  assert (Hexp : expired (Some (clock w (ticks w) + t)) (clock w (S (S (ticks w)))) = false).
  { unfold expired. cbn. destruct (_ =? 0); cbn; [done|]. apply Z.ltb_ge. lia. }
  pose proof (get_live
                (with_cache
                   (dict_set key (value, Some (clock w (ticks w) + t), clock w (S (ticks w))) c)
                   self)
                (with_ticks (S (S (ticks w))) w) key value
                (Some (clock w (ticks w) + t)) (clock w (S (ticks w)))
                Hlock (dict_get_set_eq _ _ _) Hexp) as Hget.
  destruct (truthy (Some (clock w (ticks w) + t))); rewrite Hget;
    eexists _, _; (split; [reflexivity|]); (split; [apply dict_get_set_eq | reflexivity]).
Qed.

(** X5.  A time to live of zero is no time to live ([if ttl] is false for
    zero, as it is for [None]): the entry is stored without expiry and
    served whatever the clock reads. *)
Theorem MemoryCache_zero_ttl_never_expires self w key value :
  lock self = false ->
  exists self1 w1,
    set key value (Some 0) self w = Returned tt self1 w1
    /\ dict_get key (cache self1) = Some (value, None, clock w (ticks w))
    /\ forall w', exists self2 w2, get key self1 w' = Returned value self2 w2.
Proof.
  intros Hlock.
  destruct (set_returns self w key value (Some 0) Hlock) as [c Hset].
  rewrite Hset. unfold stamp, after_stamp. cbn.
  eexists _, _. split; [reflexivity|]. split; [apply dict_get_set_eq|].
  intros w'.
  pose proof (get_live (with_cache (dict_set key (value, None, clock w (ticks w)) c) self)
                w' key value None (clock w (ticks w)) Hlock (dict_get_set_eq _ _ _) eq_refl)
    as Hget.
  cbn in Hget. eexists _, _. exact Hget.
Qed.

(** X6.  A store without capacity ([max_size] is [None], or zero) never
    evicts: [set] binds the key and leaves every other entry as it
    was. *)
Theorem MemoryCache_unbounded_store_never_evicts self w key value ttl :
  lock self = false -> truthy (max_size self) = false ->
  exists self1 w1,
    set key value ttl self w = Returned tt self1 w1
    /\ dict_get key (cache self1) = Some (stamp ttl value w)
    /\ (forall k, k <> key -> dict_get k (cache self1) = dict_get k (cache self))
    /\ (dict_get key (cache self) = None -> len self1 = len self + 1).
Proof.
  intros Hlock Hmax.
  assert (Hcap : at_capacity self key = false) by (unfold at_capacity; by rewrite Hmax).
  rewrite set_without_eviction by done.
  eexists _, _. split; [reflexivity|]. cbn.
  split; [apply dict_get_set_eq|].
  split; [intros k Hk; by apply dict_get_set_ne|].
  intros Habs. unfold len. cbn.
  rewrite dict_set_length_new by (by apply dict_in_false). lia.
Qed.

(** X7.  Reading an entry makes it the most recently used.  On a full store
    where some other entry was last used before the read, the [set] of a
    new key that follows evicts an entry, and not the one that was
    read. *)
Theorem MemoryCache_a_read_entry_survives_the_next_eviction
    (n : Z) self w key value expiry la other other_entry new_key new_value ttl :
  max_size self = Some n -> 0 < n -> n <= len self ->
  lock self = false -> dict_wf (cache self) ->
  dict_get key (cache self) = Some (value, expiry, la) ->
  expired expiry (clock w (ticks w)) = false ->
  other <> key ->
  dict_get other (cache self) = Some other_entry ->
  snd other_entry < clock w (if truthy expiry then S (ticks w) else ticks w) ->
  new_key <> key ->
  dict_get new_key (cache self) = None ->
  exists self1 w1 self2 w2 victim,
    get key self w = Returned value self1 w1
    /\ set new_key new_value ttl self1 w1 = Returned tt self2 w2
    /\ victim <> key
    /\ dict_get victim (cache self2) = None
    /\ is_Some (dict_get victim (cache self))
    /\ is_Some (dict_get key (cache self2))
    /\ len self2 = len self.
Proof.
  intros Hmax Hn Hfull Hlock Hwf Hget Hlive Hother Hoget Hold Hnew Hnget.
  set (now := clock w (if truthy expiry then S (ticks w) else ticks w)) in *.
  set (self1 := with_cache (dict_set key (value, expiry, now) (cache self)) self).
  set (w1 := with_ticks (if truthy expiry then S (S (ticks w)) else S (ticks w)) w).
  assert (Hg : get key self w = Returned value self1 w1).
  { rewrite (get_live self w key value expiry la Hlock Hget Hlive).
    unfold self1, w1, now. by destruct (truthy expiry). }
  assert (Hin : dict_in key (cache self) = true) by (apply dict_in_true; eauto).
  assert (Hlen1 : len self1 = len self).
  { unfold len, self1. cbn. by rewrite dict_set_length_in. }
  assert (Hwf1 : dict_wf (cache self1)) by (by apply dict_set_wf).
  assert (Hnew1 : dict_get new_key (cache self1) = None).
  { unfold self1. cbn. rewrite dict_get_set_ne by done. exact Hnget. }
  assert (Hcap : at_capacity self1 new_key = true).
  { unfold at_capacity. cbn [max_size self1 with_cache]. rewrite Hmax. cbn.
    apply andb_true_iff. split.
    - apply andb_true_iff. split.
      + apply negb_true_iff, Z.eqb_neq. lia.
      + apply Z.geb_le. rewrite Hlen1. lia.
    - apply negb_true_iff. by apply dict_in_false. }
  assert (Hne1 : cache self1 <> []).
  { intros Hnil. rewrite Hnil in Hnew1. unfold self1 in Hnil. cbn in Hnil.
    pose proof (dict_get_set_eq key (value, expiry, now) (cache self)) as Hk.
    rewrite Hnil in Hk. discriminate. }
  destruct (set_with_eviction self1 w1 new_key new_value ttl Hlock Hcap Hne1)
    as (victim & ventry & Hset & Hvin & Hmin).
  assert (Hvget : dict_get victim (cache self1) = Some ventry) by (by apply In_dict_get).
  assert (Hvk : victim <> key).
  { intros ->. unfold self1 in Hvget. cbn in Hvget. rewrite dict_get_set_eq in Hvget.
    injection Hvget as <-.
    assert (Hoin : In (other, other_entry) (cache self1)).
    { apply dict_get_In. unfold self1. cbn. by rewrite dict_get_set_ne. }
    specialize (Hmin _ Hoin). unfold last_access in Hmin. cbn in Hmin. lia. }
  assert (Hvnew : new_key <> victim).
  { intros ->. congruence. }
  exists self1, w1. eexists _, _, victim.
  split; [exact Hg|]. split; [exact Hset|]. split; [exact Hvk|]. cbn.
  split; [rewrite dict_get_set_ne by done; by apply dict_get_del_eq|].
  split.
  { unfold self1 in Hvget. cbn in Hvget. rewrite dict_get_set_ne in Hvget by done. eauto. }
  split.
  { rewrite dict_get_set_ne by done. rewrite dict_get_del_ne by done.
    unfold self1. cbn. rewrite dict_get_set_eq. eauto. }
  rewrite <- Hlen1. unfold len. cbn. f_equal.
  rewrite dict_set_length_new.
  - apply dict_del_length. apply dict_in_true. eauto.
  - apply dict_in_false. rewrite dict_get_del_ne by done. exact Hnew1.
Qed.
End MemoryCacheExpiry.

(** ** The file store: what a [set] can leave behind *)

Section DiskCacheWrites.
Context `{PyRuntime}.
Import DiskCache.
Implicit Types (self : DiskCache.t) (w : World) (key : string).

(** [set] is: find the path, find the lock, read the clock, run the
    write block. *)
Lemma set_unfold key value ttl self w :
  set key value ttl self w
  = (let! path := _key_to_path key in
     let! file_lock := _get_file_lock path in
     fun s w' => write_block path file_lock (envelope_of ttl value w') s (after_stamp ttl w'))
      self w.
Proof.
  unfold set, bind.
  destruct (_key_to_path key self w) as [path s1 w1|e s1 w1|s1 w1]; [|done|done].
  destruct (_get_file_lock path s1 w1) as [fl s2 w2|e s2 w2|s2 w2]; [|done|done].
  unfold write_block, envelope_of, after_stamp, time_time, ret.
  destruct ttl as [t|]; cbn; [destruct (t =? 0); cbn|]; reflexivity.
Qed.

Ltac run_block :=
  unfold write_block, frame, try_except,
    async_with, bind, get_self, put_self,
    ret, raise, fs_mkdir, fs_open_write, fs_write, fs_replace, fs_exists,
    fs_unlink, syscall, on_self, set_local, get_local,
    logger_error, held, set_held, with_file_locks;
  cbn.

(** Look at the next entry of the fault plan, when the program asks
    for it. *)
Ltac next_fault :=
  match goal with
  | |- context [match ?plan with [] => _ | _ :: _ => _ end] =>
      is_var plan; destruct plan as [|[] ?]
  end.

Lemma temp_name_differs path :
  suffix path = ".cache" -> str_path (with_suffix ".tmp" path) <> str_path path.
Proof.
  unfold str_path, with_suffix; cbn. intros -> E.
  apply append_inj_l in E. apply append_inj_l in E. apply append_inj_l in E. discriminate.
Qed.

Lemma write_block_outcome path file_lock data self w :
  held file_lock self = false ->
  suffix path = ".cache" ->
  exists self' w',
    match faults w with
    | true :: _ =>
        write_block path file_lock data self w = Raised unbound_temp_path self' w'
        /\ files w' = files w
        /\ logged w' = List.app (logged w)
                          ["Error writing cache file " ++ str_path path ++ ": "
                           ++ exn_str io_error]
    | _ => write_block path file_lock data self w = Returned tt self' w'
    end
    /\ held file_lock self' = false
    /\ compression self' = compression self
    /\ (forall p, p <> str_path path -> p <> str_path (with_suffix ".tmp" path) ->
                  files w' !! p = files w !! p)
    /\ (files w' !! str_path path = files w !! str_path path
        \/ exists raw, pickle_dumps data = Some raw
                       /\ files w' !! str_path path
                          = Some (stored_form (compression self) raw)
                       /\ files w' !! str_path (with_suffix ".tmp" path) = None).
Proof.
  intros Hheld Hsuffix.
  pose proof (temp_name_differs path Hsuffix) as Hne.
  destruct w as [clock ticks files dirs plan emitted scheduled logged calls].
  run_block. unfold held in Hheld. rewrite Hheld. cbn.
  repeat first
    [ progress cbn
    | rewrite lookup_insert_eq
    | next_fault
    | match goal with
      | |- context [pickle_dumps ?d] => destruct (pickle_dumps d) as [raw|] eqn:Hdumps
      | Hx : ?m !! ?k = _ |- context [?m !! ?k] => rewrite Hx
      | |- context [bool_decide (is_Some (files !! ?p))] =>
          destruct (files !! p) eqn:Hstale
      end ].
  all: eexists _, _; (split; [first [reflexivity | by repeat split | idtac]|]); cbn.
  all: rewrite ?insert_insert_eq, ?lookup_insert_eq; cbn.
  all: (split; [exact eq_refl|]); (split; [exact eq_refl|]).
  all: try (split; [by intros p Hp Hq; rewrite ?lookup_insert_ne, ?lookup_delete_ne, ?lookup_insert_ne by done|]).
  all: try (left; by rewrite ?lookup_insert_ne, ?lookup_delete_ne, ?lookup_insert_ne by done).
  all: right; exists raw; split; [done|]; split; [done|].
  all: by rewrite lookup_insert_ne, lookup_delete_eq.
Qed.

Lemma registered_keeps handle self :
  held handle (registered handle self) = held handle self
  /\ compression (registered handle self) = compression self.
Proof.
  unfold registered, held. destruct (file_locks self !! handle) eqn:E.
  - by rewrite E.
  - cbn. by rewrite lookup_insert_eq.
Qed.

(** X8.  Whatever system calls fail during a [set], the file of the
    key is never left half written: after the call it holds what it held
    before, or the complete stored form of the new envelope (and then
    the temporary file is gone); and no file other than the file of the
    key and its temporary sibling is touched. *)
Theorem DiskCache_set_is_atomic self w key value ttl :
  idle self key ->
  (forall p, p <> str_path (path_of self key) -> p <> str_path (temp_path_of self key) ->
             files (final_world (set key value ttl self w)) !! p = files w !! p)
  /\ (files (final_world (set key value ttl self w)) !! str_path (path_of self key)
      = files w !! str_path (path_of self key)
      \/ exists raw,
           pickle_dumps (envelope_of ttl value w) = Some raw
           /\ files (final_world (set key value ttl self w)) !! str_path (path_of self key)
              = Some (stored_form (compression self) raw)
           /\ files (final_world (set key value ttl self w)) !! str_path (temp_path_of self key)
              = None).
Proof.
  intros [Hglobal Hheld].
  rewrite set_unfold. unfold bind. rewrite key_to_path_eq. unfold syscall.
  destruct (registered_keeps (str_path (path_of self key)) self) as [Hreg Hcmp].
  rewrite <- Hreg in Hheld.
  destruct (faults w) as [|[] plan] eqn:Hplan; [|by split; [|left]|].
  all: rewrite get_file_lock_eq by done.
  all: match goal with
       | |- context [write_block ?p ?l ?d ?s ?w0] =>
           destruct (write_block_outcome p l d s w0 Hheld eq_refl)
             as (self' & w' & Hrun & _ & _ & Hothers & Htarget)
       end.
  all: match type of Hrun with
       | match ?fa with _ => _ end => destruct fa as [|[] ?]
       end.
  all: try destruct Hrun as (Hrun & _ & _).
  all: rewrite Hrun; cbn; rewrite <- Hcmp; split; [exact Hothers | exact Htarget].
Qed.

End DiskCacheWrites.

(** ** The file store: reading, deleting, clearing *)

Section DiskCacheReads.
Context `{PyRuntime}.
Import DiskCache.
Implicit Types (self : DiskCache.t) (w : World) (key : string).

Ltac run_disk :=
  unfold get, delete, clear, load, _key_to_path, _get_file_lock, try_except, try_finally,
    async_with, bind, get_self, put_self,
    ret, raise, time_time, fs_mkdir, fs_exists, fs_rmtree,
    fs_unlink, fs_open_read, fs_read, syscall,
    logger_error, held, set_held, with_file_locks, with_global_lock;
  cbn.

Ltac next_fault :=
  match goal with
  | |- context [match ?plan with [] => _ | _ :: _ => _ end] =>
      is_var plan; destruct plan as [|[] ?]
  end.

(** Follow the program wherever it looks at the plan, at a file, at
    the bytes read or at the expiry. *)
Ltac follow :=
  repeat first
    [ progress cbn
    | rewrite lookup_insert_eq
    | rewrite lookup_delete_eq
    | match goal with
      | Hx : _ = {| parent := _; stem := _; suffix := _ |} |- _ => rewrite <- Hx
      | Hx : ?m !! ?k = _ |- context [?m !! ?k] => rewrite Hx
      | Hx : pickle_loads ?d = _ |- context [pickle_loads ?d] => rewrite Hx
      | Hx : zlib_decompress ?d = _ |- context [zlib_decompress ?d] => rewrite Hx
      end
    | next_fault
    | match goal with
      | |- context [match ?m !! ?k with _ => _ end] => destruct (m !! k) eqn:?
      | |- context [bool_decide (is_Some (?m !! ?k))] => destruct (m !! k) eqn:?
      | |- context [match zlib_decompress ?d with _ => _ end] =>
          destruct (zlib_decompress d) eqn:?
      | |- context [match pickle_loads ?d with _ => _ end] =>
          destruct (pickle_loads d) eqn:?
      | |- context [match env_expiry ?d with _ => _ end] =>
          destruct (env_expiry d) eqn:?
      | |- context [if ?a =? ?b then _ else _] => destruct (a =? b) eqn:?
      | |- context [if negb (?a =? ?b) then _ else _] => destruct (a =? b) eqn:?
      | |- context [if ?a <? ?b then _ else _] => destruct (a <? b) eqn:?
      end ].

Lemma get_outcome self w key :
  idle self key ->
  files (final_world (get key self w)) = files w
  /\ match get key self w with
     | Raised e _ _ => e = io_error /\ exists plan, faults w = true :: plan
     | _ => True
     end.
Proof.
  intros [Hgl Hheld].
  remember (path_of self key) as path eqn:Hpath.
  destruct self as [base cmp locks gl]. destruct w as [clk tk fl ds fa em sc lg cl].
  cbn in Hgl. subst gl.
  unfold held, path_of in *. cbn in Hheld, Hpath |- *.
  destruct (locks !! str_path path) as [b|] eqn:Hlk; cbn in Hheld; [subst b|];
    destruct cmp; run_disk; rewrite <- ?Hpath; follow.
  all: split; [reflexivity | eauto].
Qed.

(** X10.  [get] never changes a file, however it ends and whatever
    system calls fail. *)
Theorem DiskCache_get_is_read_only self w key :
  idle self key ->
  files (final_world (get key self w)) = files w.
Proof. intros Hidle. apply (get_outcome self w key Hidle). Qed.


(** X12.  An [OSError] while the file is opened or read is logged and
    read as a miss; the file stays. *)
Theorem DiskCache_get_read_error self w key stored plan :
  idle self key ->
  files w !! str_path (path_of self key) = Some stored ->
  faults w = false :: true :: plan \/ faults w = false :: false :: true :: plan ->
  exists e self' w',
    is_OSError e = true
    /\ get key self w = Returned PyNone self' w'
    /\ files w' = files w
    /\ logged w' = List.app (logged w)
                     ["Error reading cache file " ++ str_path (path_of self key) ++ ": "
                      ++ exn_str e]
    /\ faults w' = plan
    /\ idle self' key.
Proof.
  intros [Hgl Hheld] Hfile Hplan.
  unfold idle. remember (path_of self key) as path eqn:Hpath.
  destruct self as [base cmp locks gl]. destruct w as [clk tk fl ds fa em sc lg cl].
  cbn in Hplan, Hgl, Hfile. subst gl.
  unfold held, path_of in *. cbn in Hheld, Hpath |- *.
  destruct Hplan; subst fa;
    (destruct (locks !! str_path path) as [b|] eqn:Hlk; cbn in Hheld; [subst b|]);
    run_disk; rewrite <- ?Hpath; follow.
  all: exists io_error; eexists _, _; (split; [reflexivity|]); (split; [reflexivity|]);
    cbn; rewrite <- ?Hpath; by follow.
Qed.

Lemma disk_get_missing self w key :
  faults w = [] -> idle self key ->
  files w !! str_path (path_of self key) = None ->
  exists self',
    get key self w = Returned PyNone self' (made (parent (path_of self key)) w)
    /\ idle self' key
    /\ base_directory self' = base_directory self.
Proof.
  intros Hfaults [Hgl Hheld] Hfile.
  unfold idle, made. remember (path_of self key) as path eqn:Hpath.
  destruct self as [base cmp locks gl]. destruct w as [clk tk fl ds fa em sc lg cl].
  cbn in Hfaults, Hgl, Hfile. subst fa gl.
  unfold held, path_of in *. cbn in Hheld, Hpath |- *.
  destruct (locks !! str_path path) as [b|] eqn:Hlk; cbn in Hheld; [subst b|];
    run_disk; rewrite <- ?Hpath; follow.
  all: eexists; split; [by rewrite Hpath|]; cbn; rewrite <- ?Hpath; by follow.
Qed.

(** X13.  After a [delete] the file of the key is gone, every other
    file is as it was, and [get] misses. *)
Theorem DiskCache_delete_then_get self w key :
  faults w = [] -> idle self key ->
  exists self1 w1 self2 w2,
    delete key self w = Returned tt self1 w1
    /\ files w1 = base.delete (str_path (path_of self key)) (files w)
    /\ logged w1 = logged w
    /\ get key self1 w1 = Returned PyNone self2 w2
    /\ files w2 = files w1.
Proof.
  intros Hfaults [Hgl Hheld].
  remember (path_of self key) as path eqn:Hpath.
  destruct self as [base cmp locks gl]. destruct w as [clk tk fl ds fa em sc lg cl].
  cbn in Hfaults, Hgl. subst fa gl.
  unfold held, path_of in *. cbn in Hheld, Hpath |- *.
  destruct (locks !! str_path path) as [b|] eqn:Hlk; cbn in Hheld; [subst b|];
    run_disk; rewrite <- ?Hpath; follow.
  all: eexists _, _, _, _; split; [reflexivity|]; cbn; rewrite <- ?Hpath; follow.
  all: rewrite ?delete_id by done.
  all: by repeat split.
Qed.

(** X14.  An [OSError] from the [unlink] of [delete] is logged and
    swallowed: [delete] returns, and the file is still there. *)
Theorem DiskCache_delete_swallows_the_error self w key stored plan :
  idle self key ->
  files w !! str_path (path_of self key) = Some stored ->
  faults w = false :: true :: plan ->
  exists e self' w',
    is_OSError e = true
    /\ delete key self w = Returned tt self' w'
    /\ files w' = files w
    /\ logged w' = List.app (logged w)
                     ["Error deleting cache file " ++ str_path (path_of self key) ++ ": "
                      ++ exn_str e]
    /\ idle self' key.
Proof.
  intros [Hgl Hheld] Hfile Hplan.
  unfold idle. remember (path_of self key) as path eqn:Hpath.
  destruct self as [base cmp locks gl]. destruct w as [clk tk fl ds fa em sc lg cl].
  cbn in Hplan, Hgl, Hfile. subst gl fa.
  unfold held, path_of in *. cbn in Hheld, Hpath |- *.
  destruct (locks !! str_path path) as [b|] eqn:Hlk; cbn in Hheld; [subst b|];
    run_disk; rewrite <- ?Hpath; follow.
  all: exists io_error; eexists _, _; (split; [reflexivity|]); (split; [reflexivity|]);
    cbn; rewrite <- ?Hpath; by follow.
Qed.

Lemma prefix_append (a b : string) : String.prefix a (a ++ b) = true.
Proof.
  induction a as [|c a IH]; [by destruct b|].
  change (String c a ++ b) with (String c (a ++ b)). cbn.
  destruct (ascii_dec c c); [exact IH | contradiction].
Qed.

Lemma append_assoc (a b c : string) : (a ++ b) ++ c = a ++ (b ++ c).
Proof.
  induction a as [|x a IH]; [reflexivity|].
  change (String x ((a ++ b) ++ c) = String x (a ++ (b ++ c))). by rewrite IH.
Qed.

Lemma path_below_base self key base :
  base_directory self = base ->
  String.prefix (base ++ "/") (str_path (path_of self key)) = true.
Proof.
  intros <-. unfold str_path, path_of; cbn.
  rewrite <- (append_assoc (base_directory self) "/").
  rewrite (append_assoc (base_directory self ++ "/")).
  apply prefix_append.
Qed.

Lemma no_lock_held (locks : gmap string bool) :
  (forall handle b, locks !! handle = Some b -> b = false) ->
  bool_decide (map_Exists (fun _ b => b = true) locks) = false.
Proof.
  intros Hfree. apply bool_decide_eq_false. intros (handle & b & Hb & ->).
  by specialize (Hfree _ _ Hb).
Qed.

(** X15.  [clear] with no operation in flight removes every file
    below the base directory and forgets every lock: the file of any
    key is gone and [get] misses; files elsewhere are not touched. *)
Theorem DiskCache_clear_then_get self w key :
  faults w = [] ->
  global_lock self = false ->
  (forall handle b, file_locks self !! handle = Some b -> b = false) ->
  exists self1 w1 self2 w2,
    clear self w = Returned tt self1 w1
    /\ file_locks self1 = ∅
    /\ (forall k, files w1 !! str_path (path_of self k) = None)
    /\ (forall p, String.prefix (base_directory self ++ "/") p = false ->
                  files w1 !! p = files w !! p)
    /\ get key self1 w1 = Returned PyNone self2 w2.
Proof.
  intros Hfaults Hgl Hfree.
  destruct self as [base cmp locks gl]. destruct w as [clk tk fl ds fa em sc lg cl].
  cbn in Hfaults, Hgl, Hfree. subst fa gl.
  unfold clear, try_except, async_with, bind, get_self, put_self, try_finally, ret, raise,
    fs_rmtree, fs_mkdir, syscall, with_file_locks, with_global_lock. cbn.
  rewrite (no_lock_held _ Hfree). cbn.
  match goal with
  | |- context [Returned tt ?s ?w0] =>
      destruct (disk_get_missing s w0 key) as (self2 & Hget & _)
  end.
  { reflexivity. }
  { split; [reflexivity|]. unfold held. cbn. by rewrite lookup_empty. }
  { cbn. apply map_lookup_filter_None. right. intros stored _. cbn.
    erewrite path_below_base by reflexivity. discriminate. }
  eexists _, _, _, _. split; [reflexivity|]. split; [reflexivity|]. cbn.
  split; [|split; [|exact Hget]].
  - intros k. apply map_lookup_filter_None. right. intros stored _. cbn.
    erewrite path_below_base by reflexivity. discriminate.
  - intros p Hp. destruct (fl !! p) as [stored|] eqn:Hfile.
    + by apply map_lookup_filter_Some.
    + apply map_lookup_filter_None. by left.
Qed.

End DiskCacheReads.

(** ** The orchestrator: initialisation and failures *)

Section CacheManagerMore.
Context {B : Type} {HB : CacheBackend B}.
Variable settings : Settings.t.
Implicit Types (b : B) (w : World) (key : string).

(** X17.  An initialised orchestrator contains every [Exception] of
    its backend: none of its four operations raises one.  (What is not
    an [Exception], a cancellation for one, goes through.) *)
Theorem CacheManager_contains_the_exceptions_of_the_backend
    b w key value function_name ttl :
  match CacheManager.get settings key function_name (ready b) w with
  | Raised e _ _ => is_Exception e = false
  | _ => True
  end
  /\ match CacheManager.set settings key value function_name ttl (ready b) w with
     | Raised e _ _ => is_Exception e = false
     | _ => True
     end
  /\ match CacheManager.delete settings key (ready b) w with
     | Raised e _ _ => is_Exception e = false
     | _ => True
     end
  /\ match CacheManager.clear settings (ready b) w with
     | Raised e _ _ => is_Exception e = false
     | _ => True
     end.
Proof.
  unfold CacheManager.get, CacheManager.set, CacheManager.delete, CacheManager.clear,
    CacheManager._ensure_initialized, CacheManager.on_backend, ready, try_except, bind,
    ret, raise, events_emit, logger_error.
  cbn. repeat split.
  - destruct (backend_get key b w) as [v b' w'|e b' w'|b' w']; cbn; [|  |done].
    + by destruct (negb (is_None v)).
    + by destruct (is_Exception e) eqn:He.
  - destruct (backend_set key value _ b w) as [v b' w'|e b' w'|b' w']; cbn; [done| |done].
    by destruct (is_Exception e) eqn:He.
  - destruct (backend_delete key b w) as [v b' w'|e b' w'|b' w']; cbn; [done| |done].
    by destruct (is_Exception e) eqn:He.
  - destruct (backend_clear b w) as [v b' w'|e b' w'|b' w']; cbn; [done| |done].
    by destruct (is_Exception e) eqn:He.
Qed.
End CacheManagerMore.

Section CacheManagerInitialisation.
Context `{PyRuntime}.
Variable settings : Settings.t.
Implicit Types (m : CacheManager.t (B := Backend)) (w : World) (key : string).

(** X18.  Initialisation is lazy and happens once.  When
    [_ensure_initialized] returns, the orchestrator is initialised, a
    second run changes nothing, and one [backend_init] notification has
    been queued if, and only if, the orchestrator was not initialised
    before.  When it raises, the orchestrator is as it was, not
    initialised, so that the next operation tries again. *)
Theorem CacheManager_initialises_once m w :
  match CacheManager._ensure_initialized (HB := Backend_backend) settings m w with
  | Returned _ m' w' =>
      CacheManager._initialized m' = true
      /\ CacheManager._ensure_initialized (HB := Backend_backend) settings m' w'
         = Returned tt m' w'
      /\ scheduled w'
         = List.app (scheduled w)
             (if CacheManager._initialized m then [] else [backend_init_event settings])
      /\ emitted w' = emitted w
  | Raised e m' w' =>
      m' = m /\ CacheManager._initialized m = false
      /\ scheduled w' = scheduled w /\ emitted w' = emitted w
  | Blocked _ _ => False
  end.
Proof.
  destruct m as [bk [|]]; [by rewrite app_nil_r|].
  unfold CacheManager._ensure_initialized. cbn.
  unfold select_backend, DiskCache.__init__, fs_mkdir, syscall, bind, ret, raise,
    create_task_emit, put_self.
  destruct (Settings.backend settings); cbn; try done.
  - destruct (faults w) as [|[] plan]; cbn; done.
  - by destruct (Settings.redis settings).
  - by destruct (Settings.s3 settings).
  - by destruct (Settings.dynamodb settings).
Qed.

(** X19.  With a backend that is not part of these sources (Redis, S3,
    DynamoDB, tiered) every operation of a fresh orchestrator raises a
    [RuntimeError], outside its [try]: the error is not contained, no
    notification is emitted, and the orchestrator stays as it was. *)
Theorem CacheManager_unavailable_backend m w key value function_name ttl :
  CacheManager._initialized m = false ->
  Settings.backend settings <> MEMORY ->
  Settings.backend settings <> DISK ->
  exists msg,
    CacheManager.get (HB := Backend_backend) settings key function_name m w
    = Raised (runtime_error msg) m w
    /\ CacheManager.set (HB := Backend_backend) settings key value function_name ttl m w
       = Raised (runtime_error msg) m w
    /\ CacheManager.delete (HB := Backend_backend) settings key m w
       = Raised (runtime_error msg) m w
    /\ CacheManager.clear (HB := Backend_backend) settings m w
       = Raised (runtime_error msg) m w.
Proof.
  intros Hinit Hmem Hdisk. destruct m as [bk init]. cbn in Hinit. subst init.
  unfold CacheManager.get, CacheManager.set, CacheManager.delete, CacheManager.clear,
    CacheManager._ensure_initialized, bind. cbn.
  unfold select_backend, raise.
  destruct (Settings.backend settings); try contradiction;
    try (destruct (Settings.redis settings));
    try (destruct (Settings.s3 settings));
    try (destruct (Settings.dynamodb settings)); cbn; eexists; repeat split.
Qed.

(** X20.  A time to live of zero does not reach the backend: the
    orchestrator replaces it, like a missing one, by the configured
    default, and the memory store stamps the entry with an expiry. *)
Theorem CacheManager_zero_ttl_takes_the_default
    (store : MemoryCache.t) w key value function_name (d : Z) :
  MemoryCache.lock store = false ->
  Settings.ttl settings = Some d ->
  d <> 0 ->
  exists store1 w1,
    CacheManager.set (HB := MemoryCache_backend) settings key value function_name (Some 0)
      (ready store) w
    = Returned tt (ready store1) w1
    /\ dict_get key (MemoryCache.cache store1)
       = Some (value, Some (clock w (ticks w) + d), clock w (S (ticks w)))
    /\ CacheManager.set (HB := MemoryCache_backend) settings key value function_name None
         (ready store) w
       = Returned tt (ready store1) w1.
Proof.
  intros Hlock Httl Hd.
  destruct (set_returns store w key value (Some d) Hlock) as [c Hset].
  assert (Hstamp : stamp (Some d) value w
                   = (value, Some (clock w (ticks w) + d), clock w (S (ticks w)))).
  { unfold stamp. cbn. by rewrite (proj2 (Z.eqb_neq d 0) Hd). }
  assert (Hdefault : forall ttl, truthy ttl = false ->
            backend_set (CacheBackend := MemoryCache_backend) key value
              (py_or ttl (Settings.ttl settings)) store w
            = Returned tt
                (MemoryCache.with_cache (dict_set key (stamp (Some d) value w) c) store)
                (after_stamp (Some d) w)).
  { intros ttl Hfalsy. unfold py_or. rewrite Hfalsy, Httl. exact Hset. }
  eexists _, _. split; [|split].
  - by rewrite (CacheManager_set_ok settings key value function_name (Some 0) store w _ _
                  (Hdefault (Some 0) eq_refl)).
  - cbn. by rewrite dict_get_set_eq, Hstamp.
  - rewrite (CacheManager_set_ok settings key value function_name None store w _ _
               (Hdefault None eq_refl)).
    unfold py_or. cbn. reflexivity.
Qed.
End CacheManagerInitialisation.

(** ** The call bridge, end to end *)

Section Memoisation.
Context `{PyRuntime}.
Variable settings : Settings.t.
Context {U : Type}.
Implicit Types (f : Func U) (store : MemoryCache.t) (u : U) (w : World).

Ltac run_bridge :=
  unfold _wrapped_func, _get_cached_value, call, on_self, try_except, bind, ret, raise,
    events_emit, logger_error, time_time;
  cbn -[CacheManager.set].





End Memoisation.

Section UnusableDisk.
Context `{PyRuntime}.
Variable settings : Settings.t.
Context {U : Type}.
Implicit Types (f : Func U) (disk : DiskCache.t) (u : U) (w : World).

End UnusableDisk.

(** ** The key builder: the order of the keyword arguments *)

Section KeywordOrder.
Context `{PyRuntime}.
Variable settings : Settings.t.
Context {U : Type}.

Lemma ascii_compare_trans (a b c : ascii) o :
  Ascii.compare a b = o -> Ascii.compare b c = o -> Ascii.compare a c = o.
Proof.
  unfold Ascii.compare. destruct o; intros Hab Hbc.
  - apply N.compare_eq in Hab, Hbc. rewrite Hab, Hbc. apply N.compare_refl.
  - apply N.compare_lt_iff in Hab. apply N.compare_lt_iff in Hbc.
    apply N.compare_lt_iff. by apply N.lt_trans with (N_of_ascii b).
  - apply N.compare_gt_iff in Hab. apply N.compare_gt_iff in Hbc.
    apply N.compare_gt_iff. by apply N.lt_trans with (N_of_ascii b).
Qed.

Lemma ascii_compare_eq (a b : ascii) : Ascii.compare a b = Eq -> a = b.
Proof.
  unfold Ascii.compare. intros E. apply N.compare_eq in E.
  by rewrite <- (ascii_N_embedding a), <- (ascii_N_embedding b), E.
Qed.

Lemma string_leb_trans (a b c : string) :
  String.leb a b = true -> String.leb b c = true -> String.leb a c = true.
Proof.
  unfold String.leb. revert b c.
  induction a as [|x a IH]; intros [|y b] [|z c]; cbn; try done.
  destruct (Ascii.compare x y) eqn:Hxy; destruct (Ascii.compare y z) eqn:Hyz; try done.
  - rewrite (ascii_compare_trans x y z Eq Hxy Hyz). apply IH.
  - apply ascii_compare_eq in Hxy. subst. by rewrite Hyz.
  - apply ascii_compare_eq in Hyz. subst. by rewrite Hxy.
  - by rewrite (ascii_compare_trans x y z Lt Hxy Hyz).
Qed.

Lemma insert_item_perm x l : insert_item x l ≡ₚ x :: l.
Proof.
  induction l as [|y l IH]; cbn; [done|].
  destruct (String.leb (fst x) (fst y)); [done|].
  rewrite IH. apply perm_swap.
Qed.

Lemma sorted_items_perm l : sorted_items l ≡ₚ l.
Proof.
  induction l as [|x l IH]; cbn; [done|].
  by rewrite insert_item_perm, IH.
Qed.

Lemma insert_item_sorted x l :
  StronglySorted by_key l -> StronglySorted by_key (insert_item x l).
Proof.
  induction 1 as [|y l Hsorted IH Hall]; cbn.
  - by repeat constructor.
  - destruct (String.leb (fst x) (fst y)) eqn:Hxy.
    + constructor; [by constructor|]. constructor; [exact Hxy|].
      eapply Forall_impl; [exact Hall|]. intros z Hyz.
      by apply string_leb_trans with (fst y).
    + constructor; [exact IH|].
      rewrite insert_item_perm. constructor; [|exact Hall].
      by destruct (String.leb_total (fst x) (fst y)) as [Hle|Hle]; [congruence|].
Qed.

Lemma sorted_items_sorted l : StronglySorted by_key (sorted_items l).
Proof.
  induction l as [|x l IH]; cbn; [constructor | by apply insert_item_sorted].
Qed.

Lemma same_key_same_item (l : list (string * pyval)) p q :
  NoDup l.*1 -> p ∈ l -> q ∈ l -> fst p = fst q -> p = q.
Proof.
  induction l as [|x l IH]; cbn; [by intros _ ?%elem_of_nil|].
  intros [Hx Hl]%NoDup_cons [->|Hp]%elem_of_cons [->|Hq]%elem_of_cons Hfst; try done.
  - exfalso. apply Hx. rewrite Hfst. by apply list_elem_of_fmap_2.
  - exfalso. apply Hx. rewrite <- Hfst. by apply list_elem_of_fmap_2.
  - by apply IH.
Qed.

Lemma sorted_items_of_a_permutation (kwargs1 kwargs2 : list (string * pyval)) :
  NoDup kwargs1.*1 -> kwargs1 ≡ₚ kwargs2 -> sorted_items kwargs1 = sorted_items kwargs2.
Proof.
  intros Hkeys Hperm.
  apply (StronglySorted_unique_strong by_key);
    [|apply sorted_items_sorted|apply sorted_items_sorted|
     by rewrite !sorted_items_perm].
  intros p q Hp Hq Hpq Hqp.
  apply (same_key_same_item kwargs1); [done| | |by apply String.leb_antisym].
  - by rewrite <- (sorted_items_perm kwargs1).
  - by rewrite Hperm, <- (sorted_items_perm kwargs2).
Qed.

(** X24.  The default key does not depend on the order in which the
    keyword arguments were written. *)
Theorem key_ignores_the_order_of_the_keyword_arguments
    (f : Func U) args kwargs1 kwargs2 key_prefix exclude_args :
  NoDup kwargs1.*1 ->
  kwargs1 ≡ₚ kwargs2 ->
  build_cache_key settings f args kwargs1 None key_prefix exclude_args
  = build_cache_key settings f args kwargs2 None key_prefix exclude_args.
Proof.
  intros Hkeys Hperm. unfold build_cache_key.
  by rewrite (sorted_items_of_a_permutation kwargs1 kwargs2 Hkeys Hperm).
Qed.
End KeywordOrder.

(** ** The event bus *)

Section EventEmitterFacts.
Context {S : Type}.
Variable format_event_type : EventType -> string.
Import EventEmitter.
Implicit Types (self : EventEmitter.t (S := S)) (handler h : EventHandler (S := S))
  (handlers : list (EventHandler (S := S))) (ty : EventType).

Lemma handler_in_spec h handlers :
  handler_in h handlers = true <-> identity h ∈ identity <$> handlers.
Proof.
  unfold handler_in. induction handlers as [|h' handlers IH]; cbn.
  - split; [done | by intros ?%elem_of_nil].
  - rewrite orb_true_iff, IH, elem_of_cons, Nat.eqb_eq. tauto.
Qed.

Lemma handler_in_false h handlers :
  handler_in h handlers = false <-> identity h ∉ identity <$> handlers.
Proof.
  rewrite <- handler_in_spec. by destruct (handler_in h handlers).
Qed.

Lemma list_remove_sublist h handlers : sublist (list_remove h handlers) handlers.
Proof.
  induction handlers as [|h' handlers IH]; cbn; [done|].
  destruct (Nat.eqb (identity h) (identity h')).
  - by apply sublist_cons.
  - by apply sublist_skip.
Qed.

Lemma list_remove_NoDup h handlers :
  NoDup (identity <$> handlers) -> NoDup (identity <$> list_remove h handlers).
Proof.
  intros Hnd. eapply sublist_NoDup; [exact Hnd|].
  apply fmap_sublist, list_remove_sublist.
Qed.

Lemma list_remove_gone h handlers :
  NoDup (identity <$> handlers) -> handler_in h (list_remove h handlers) = false.
Proof.
  induction handlers as [|h' handlers IH]; cbn; [done|].
  intros [Hnotin Hnd]%NoDup_cons.
  destruct (Nat.eqb (identity h) (identity h')) eqn:E; cbn.
  - apply Nat.eqb_eq in E. apply handler_in_false. by rewrite E.
  - rewrite E. by apply IH.
Qed.

Lemma list_remove_others h h' handlers :
  identity h' <> identity h ->
  handler_in h' (list_remove h handlers) = handler_in h' handlers.
Proof.
  intros Hne. unfold handler_in. induction handlers as [|h0 handlers IH]; cbn; [done|].
  destruct (Nat.eqb (identity h) (identity h0)) eqn:E; cbn.
  - apply Nat.eqb_eq in E. rewrite <- E.
    by rewrite (proj2 (Nat.eqb_neq _ _) Hne).
  - by rewrite IH.
Qed.

Lemma assign_same (d : EventType -> list EventHandler) ty handlers :
  assign d ty handlers ty = handlers.
Proof. unfold assign. by destruct (decide (ty = ty)). Qed.

Lemma assign_other (d : EventType -> list EventHandler) ty ty' handlers :
  ty' <> ty -> assign d ty handlers ty' = d ty'.
Proof. unfold assign. by destruct (decide (ty' = ty)). Qed.

(** After any calls of [subscribe], [unsubscribe] and
    [unsubscribe_all], no list holds a handler twice. *)
Lemma subscriptions_NoDup (ops : list (subscription_op S)) ty :
  NoDup (identity <$> _handlers (foldl subscription_step __init__ ops) ty).
Proof.
  revert ty. induction ops as [|o ops IH] using rev_ind; intros ty; [by constructor|].
  rewrite foldl_app. cbn.
  set (self := foldl subscription_step __init__ ops) in *.
  destruct o as [ty0 h|ty0 h|[ty0|]]; cbn.
  - unfold subscribe. destruct (handler_in h (_handlers self ty0)) eqn:Hin; cbn; [done|].
    destruct (decide (ty = ty0)) as [->|Hne].
    + rewrite assign_same, fmap_app. cbn. apply NoDup_app. split; [done|].
      split; [|by apply NoDup_singleton].
      intros x Hx ->%list_elem_of_singleton. by apply handler_in_false in Hin.
    + by rewrite assign_other.
  - unfold unsubscribe. destruct (handler_in h (_handlers self ty0)) eqn:Hin; cbn; [|done].
    destruct (decide (ty = ty0)) as [->|Hne].
    + rewrite assign_same. by apply list_remove_NoDup.
    + by rewrite assign_other.
  - destruct (decide (ty = ty0)) as [->|Hne].
    + rewrite assign_same. constructor.
    + by rewrite assign_other.
  - constructor.
Qed.

(** X25.  A handler is subscribed to an event type at most once,
    whatever calls of [subscribe], [unsubscribe] and [unsubscribe_all]
    were made, and subscribing it again changes nothing. *)
Theorem EventEmitter_subscribes_a_handler_once (ops : list (subscription_op S)) ty h ty' :
  NoDup (identity <$> _handlers (foldl subscription_step __init__ ops) ty)
  /\ _handlers (subscribe ty h (subscribe ty h (foldl subscription_step __init__ ops))) ty'
     = _handlers (subscribe ty h (foldl subscription_step __init__ ops)) ty'.
Proof.
  split; [apply subscriptions_NoDup|].
  set (self := foldl subscription_step __init__ ops).
  unfold subscribe at 2 3.
  destruct (handler_in h (_handlers self ty)) eqn:Hin; cbn.
  - unfold subscribe. by rewrite Hin.
  - unfold subscribe. cbn. rewrite assign_same.
    change (existsb _ (_handlers self ty ++ [h]))
      with (handler_in h (_handlers self ty ++ [h])).
    assert (handler_in h (_handlers self ty ++ [h]) = true) as ->; [|done].
    apply handler_in_spec. rewrite fmap_app. apply elem_of_app. right. cbn.
    by apply list_elem_of_singleton.
Qed.

(** X26.  After [unsubscribe], the handler is not subscribed to the
    event type any more; the other handlers of that type, and the
    other types, are as they were. *)
Theorem EventEmitter_unsubscribe_removes_the_handler
    (ops : list (subscription_op S)) ty h :
  handler_in h (_handlers (unsubscribe ty h (foldl subscription_step __init__ ops)) ty)
  = false
  /\ (forall h', identity h' <> identity h ->
        handler_in h' (_handlers (unsubscribe ty h (foldl subscription_step __init__ ops)) ty)
        = handler_in h' (_handlers (foldl subscription_step __init__ ops) ty))
  /\ (forall ty', ty' <> ty ->
        _handlers (unsubscribe ty h (foldl subscription_step __init__ ops)) ty'
        = _handlers (foldl subscription_step __init__ ops) ty').
Proof.
  pose proof (subscriptions_NoDup ops ty) as Hnd.
  set (self := foldl subscription_step __init__ ops) in *.
  unfold unsubscribe. destruct (handler_in h (_handlers self ty)) eqn:Hin; cbn.
  - rewrite assign_same. split; [by apply list_remove_gone|].
    split; [intros h' Hne; by apply list_remove_others|].
    intros ty' Hne. by rewrite assign_other.
  - by rewrite Hin.
Qed.

(** The loop over the handlers, when what they raise is caught. *)
Lemma call_handlers_returns ty handlers data (subscribers : S) w :
  (forall h d s e, In h handlers -> snd (fst (handle h d s)) = Some e ->
                   is_Exception e = true) ->
  exists w',
    call_handlers format_event_type ty handlers (subscribers, data) w
    = Returned tt (delivered handlers data subscribers) w'
    /\ clock w' = clock w /\ ticks w' = ticks w /\ emitted w' = emitted w
    /\ (length (logged w') <= length (logged w) + length handlers)%nat
    /\ ((forall h d s, In h handlers -> snd (fst (handle h d s)) = None) ->
        logged w' = logged w).
Proof.
  revert data subscribers w.
  induction handlers as [|h handlers IH]; intros data subscribers w Hexc; cbn.
  - exists w. repeat split; try done; lia.
  - unfold bind, try_except, call_handler, logger_error. cbn.
    assert (Hrest : forall h0 d s e, In h0 handlers ->
              snd (fst (handle h0 d s)) = Some e -> is_Exception e = true)
      by (intros; eapply Hexc; [by right | done]).
    pose proof (Hexc h data subscribers) as Hh.
    destruct (is_coroutine_function h); cbn;
      destruct (handle h data subscribers) as [[data' [e|]] subscribers'] eqn:Hcall; cbn.
    all: try (rewrite (Hh e (or_introl eq_refl) eq_refl)).
    all: match goal with
         | |- context [call_handlers _ _ _ (?s, ?d) ?w0] =>
             destruct (IH d s w0 Hrest) as (w' & -> & Hc & Ht & He & Hl & Hquiet)
         end.
    all: exists w'; cbn in *; rewrite ?length_app in Hl; cbn in Hl.
    all: repeat split; try done; try lia.
    all: intros Hnone.
    all: try (specialize (Hnone h data subscribers (or_introl eq_refl));
              rewrite Hcall in Hnone; discriminate).
    all: apply Hquiet; intros; apply Hnone; by right.
Qed.

(** X27.  One handler that raises does not keep the others from
    running.  When the emitter is enabled and the handlers of the type
    raise nothing but instances of [Exception], [emit] returns, and
    every handler, the default ones first, has been called once, in
    order, on the enriched dict.  The clock has been read once; at most
    one line per handler has been logged, and none when no handler
    raises. *)
Theorem EventEmitter_emit_calls_every_handler self ty data (subscribers : S) w :
  _enabled self = true ->
  (forall h d s e, In h (_default_handlers self ty ++ _handlers self ty)%list ->
                   snd (fst (handle h d s)) = Some e -> is_Exception e = true) ->
  exists w',
    emit format_event_type self ty data subscribers w
    = Returned tt
        (fst (delivered (_default_handlers self ty ++ _handlers self ty)%list
                (enriched ty data (clock w (ticks w))) subscribers))
        w'
    /\ ticks w' = Datatypes.S (ticks w)
    /\ (length (logged w')
        <= length (logged w) + length (_default_handlers self ty ++ _handlers self ty)%list)%nat
    /\ ((forall h d s, In h (_default_handlers self ty ++ _handlers self ty)%list ->
                       snd (fst (handle h d s)) = None) ->
        logged w' = logged w).
Proof.
  intros Henabled Hexc. unfold emit. rewrite Henabled.
  unfold bind, time_time. cbn [negb].
  destruct (call_handlers_returns ty _ (enriched ty data (clock w (ticks w))) subscribers
              (with_ticks (Datatypes.S (ticks w)) w) Hexc)
    as (w' & Hrun & Hc & Ht & He & Hl & Hquiet).
  exists w'. split; [|by repeat split].
  apply (f_equal (fun r : result (S * EventData) unit =>
                    match r with
                    | Returned a s' w1 => Returned a (fst s') w1
                    | Raised e s' w1 => Raised e (fst s') w1
                    | Blocked s' w1 => Blocked (fst s') w1
                    end)) in Hrun.
  exact Hrun.
Qed.
End EventEmitterFacts.

(** ** The registry of backends *)

Section BackendRegistryFacts.
Context {C : Type}.
Import BackendRegistry.
Implicit Types (self : BackendRegistry.t (BackendConfigType := C)) (name : string).

Lemma dict_in_set (k k' : string) (v : C) d :
  dict_in k' (dict_set k v d) = String.eqb k k' || dict_in k' d.
Proof.
  unfold dict_in. destruct (String.eqb_spec k k') as [->|Hne].
  - by rewrite dict_get_set_eq.
  - by rewrite dict_get_set_ne.
Qed.

Lemma dict_in_del (k k' : string) (d : list (string * C)) :
  k <> k' -> dict_in k' (dict_del k d) = dict_in k' d.
Proof. intros Hne. unfold dict_in. by rewrite dict_get_del_ne. Qed.

Lemma registry_step_inv self (o : registry_op C) :
  registry_inv self -> registry_inv (registry_step self o).
Proof.
  intros [Hwf Hdefault]. destruct o as [name config default|name|name|]; cbn.
  - unfold register.
    destruct (default || _) eqn:Hd; cbn; (split; [by apply dict_set_wf|]); cbn.
    + by rewrite dict_in_set, String.eqb_refl.
    + destruct (_default_backend self) as [d|]; [|by rewrite orb_true_r in Hd].
      rewrite dict_in_set, Hdefault. apply orb_true_r.
  - unfold set_default. destruct (dict_in name (_backends self)) eqn:Hin; cbn; by split.
  - unfold remove. destruct (dict_in name (_backends self)) eqn:Hin; cbn; [|by split].
    destruct (bool_decide (Some name = _default_backend self)) eqn:Hdef; cbn; [by split|].
    apply bool_decide_eq_false in Hdef.
    split; [by apply dict_del_wf|]. cbn.
    destruct (_default_backend self) as [d|]; [|by rewrite Hdefault in Hin].
    rewrite dict_in_del; [done | congruence].
  - by split; [constructor|].
Qed.

Lemma registry_reachable_inv (ops : list (registry_op C)) :
  registry_inv (foldl registry_step __init__ ops).
Proof.
  induction ops as [|o ops IH] using rev_ind.
  - by split; [constructor|].
  - rewrite foldl_app. by apply registry_step_inv.
Qed.

(** X28.  Whatever calls were made on the registry, failed ones
    included, the default backend can be fetched unless nothing is
    registered: [get()] returns the configuration registered under the
    default name, or raises the [RuntimeError] of an empty registry; it
    never raises [KeyError]. *)
Theorem BackendRegistry_default_is_registered (ops : list (registry_op C)) :
  match get None (foldl registry_step __init__ ops) with
  | inr config =>
      exists default,
        get_default_name (foldl registry_step __init__ ops) = Some default
        /\ get (Some default) (foldl registry_step __init__ ops) = inr config
  | inl e =>
      e = RuntimeError "No default backend configured"
      /\ is_empty (foldl registry_step __init__ ops) = true
  end.
Proof.
  destruct (registry_reachable_inv ops) as [Hwf Hdefault].
  set (self := foldl registry_step __init__ ops) in *.
  unfold get, get_default_name, is_empty, subscript.
  destruct (_default_backend self) as [d|]; [|by rewrite Hdefault].
  apply dict_in_true in Hdefault as [config Hconfig].
  rewrite Hconfig. exists d. unfold dict_in. by rewrite Hconfig.
Qed.

(** X29.  What is registered can be fetched, and only [remove] or
    [clear] take it away: after [register(name, config)], [get(name)]
    returns [config] and the other names are as before; a [remove] that
    succeeds makes [get(name)] raise [KeyError]; the default backend
    cannot be removed. *)
Theorem BackendRegistry_register_then_remove self name config default :
  dict_wf (_backends self) ->
  get (Some name) (register name config default self) = inr config
  /\ (forall other, other <> name ->
        get (Some other) (register name config default self) = get (Some other) self)
  /\ (get_default_name (register name config default self)
      = if default then Some name
        else match get_default_name self with Some d => Some d | None => Some name end)
  /\ match remove name (register name config default self) with
     | inr self' =>
         get (Some name) self'
         = inl (KeyError ("No backend registered with name '" ++ name ++ "'"))
         /\ get_default_name self' = get_default_name self
         /\ get_default_name self <> Some name
     | inl e =>
         e = RuntimeError ("Cannot remove default backend: " ++ name)
         /\ get_default_name (register name config default self) = Some name
     end.
Proof.
  intros Hwf.
  assert (Hback : _backends (register name config default self)
                  = dict_set name config (_backends self)).
  { unfold register. by destruct (default || _). }
  assert (Hdef : get_default_name (register name config default self)
                 = if default then Some name
                   else match get_default_name self with
                        | Some d => Some d
                        | None => Some name
                        end).
  { unfold register, get_default_name.
    destruct default; cbn; [done|]. by destruct (_default_backend self). }
  split; [|split; [|split; [exact Hdef|]]].
  - unfold get, subscript. by rewrite Hback, dict_in_set, String.eqb_refl, dict_get_set_eq.
  - intros other Hne. unfold get, subscript. rewrite Hback, dict_in_set.
    rewrite (proj2 (String.eqb_neq name other)) by done.
    by rewrite dict_get_set_ne.
  - unfold remove. rewrite Hback, dict_in_set, String.eqb_refl. cbn.
    unfold get_default_name in Hdef.
    destruct (bool_decide (Some name = _)) eqn:Hd.
    + apply bool_decide_eq_true in Hd. by split.
    + apply bool_decide_eq_false in Hd. cbn.
      unfold get, subscript, get_default_name. cbn.
      assert (dict_get name (dict_del name (dict_set name config (_backends self))) = None)
        as Hgone by (apply dict_get_del_eq; by apply dict_set_wf).
      unfold dict_in. rewrite Hgone. cbn. split; [done|].
      rewrite Hdef in Hd |- *. destruct default; [done|].
      unfold get_default_name. destruct (_default_backend self) as [d|]; [|done].
      split; [done | congruence].
Qed.
End BackendRegistryFacts.

(** ** The further theorems at concrete inputs *)

Lemma MemoryCache_delete_then_get_witness :
  exists self1,
    MemoryCache.delete "a" full_store example_world = Returned tt self1 example_world
    /\ dict_get "a" (MemoryCache.cache self1) = None
    /\ MemoryCache.get "a" self1 example_world = Returned PyNone self1 example_world
    /\ (forall k, k <> "a" ->
          dict_get k (MemoryCache.cache self1) = dict_get k (MemoryCache.cache full_store))
    /\ (dict_get "a" (MemoryCache.cache full_store) = None -> self1 = full_store).
Proof.
  apply (MemoryCache_delete_then_get full_store example_world "a").
  - reflexivity.
  - unfold dict_wf. cbn. apply (bool_decide_unpack _). vm_compute. exact I.
Defined.

Lemma MemoryCache_clear_then_get_witness :
  exists self1,
    MemoryCache.clear full_store example_world = Returned tt self1 example_world
    /\ MemoryCache.len self1 = 0
    /\ MemoryCache.max_size self1 = MemoryCache.max_size full_store
    /\ MemoryCache.get "a" self1 example_world = Returned PyNone self1 example_world.
Proof. apply (MemoryCache_clear_then_get full_store example_world "a"). reflexivity. Defined.

Lemma MemoryCache_operations_return_witness :
  match run_op (Set_ "c" (PyInt 3) None) full_store example_world with
  | Returned _ self' _ => MemoryCache.lock self' = false
  | Raised _ _ _ => False
  | Blocked _ _ =>
      exists key value expiry la,
        Set_ "c" (PyInt 3) None = Get key
        /\ dict_get key (MemoryCache.cache full_store) = Some (value, expiry, la)
        /\ expired expiry (clock example_world (ticks example_world)) = true
  end.
Proof.
  apply (MemoryCache_operations_return full_store example_world (Set_ "c" (PyInt 3) None)).
  reflexivity.
Defined.

(** Stored at twenty for twenty: still served at forty. *)
Lemma MemoryCache_entry_is_served_until_it_expires_witness :
  exists self1 w1 self2 w2,
    MemoryCache.set "k" (PyInt 7) (Some 20) (MemoryCache.__init__ None) ticking_world
    = Returned tt self1 w1
    /\ dict_get "k" (MemoryCache.cache self1) = Some (PyInt 7, Some 40, 30)
    /\ MemoryCache.get "k" self1 w1 = Returned (PyInt 7) self2 w2.
Proof.
  apply (MemoryCache_entry_is_served_until_it_expires (MemoryCache.__init__ None)
           ticking_world "k" (PyInt 7) 20).
  - reflexivity.
  - lia.
  - cbn. lia.
Defined.

Lemma MemoryCache_zero_ttl_never_expires_witness :
  exists self1 w1,
    MemoryCache.set "k" (PyInt 7) (Some 0) (MemoryCache.__init__ None) ticking_world
    = Returned tt self1 w1
    /\ dict_get "k" (MemoryCache.cache self1) = Some (PyInt 7, None, 20)
    /\ forall w', exists self2 w2, MemoryCache.get "k" self1 w' = Returned (PyInt 7) self2 w2.
Proof.
  apply (MemoryCache_zero_ttl_never_expires (MemoryCache.__init__ None) ticking_world "k"
           (PyInt 7)).
  reflexivity.
Defined.

Lemma MemoryCache_unbounded_store_never_evicts_witness :
  exists self1 w1,
    MemoryCache.set "k" (PyInt 7) None (MemoryCache.__init__ None) example_world
    = Returned tt self1 w1
    /\ dict_get "k" (MemoryCache.cache self1) = Some (stamp None (PyInt 7) example_world)
    /\ (forall k, k <> "k" ->
          dict_get k (MemoryCache.cache self1)
          = dict_get k (MemoryCache.cache (MemoryCache.__init__ None)))
    /\ (dict_get "k" (MemoryCache.cache (MemoryCache.__init__ None)) = None ->
        MemoryCache.len self1 = MemoryCache.len (MemoryCache.__init__ None) + 1).
Proof.
  apply (MemoryCache_unbounded_store_never_evicts (MemoryCache.__init__ None) example_world
           "k" (PyInt 7) None); reflexivity.
Defined.

(** ["b"] is the least recently used of the full store; once read, it
    is ["a"] that goes. *)
Lemma MemoryCache_a_read_entry_survives_the_next_eviction_witness :
  exists self1 w1 self2 w2 victim,
    MemoryCache.get "b" full_store example_world = Returned (PyInt 2) self1 w1
    /\ MemoryCache.set "c" (PyInt 3) None self1 w1 = Returned tt self2 w2
    /\ victim <> "b"
    /\ dict_get victim (MemoryCache.cache self2) = None
    /\ is_Some (dict_get victim (MemoryCache.cache full_store))
    /\ is_Some (dict_get "b" (MemoryCache.cache self2))
    /\ MemoryCache.len self2 = MemoryCache.len full_store.
Proof.
  apply (MemoryCache_a_read_entry_survives_the_next_eviction 2 full_store example_world
           "b" (PyInt 2) None 3 "a" (PyInt 1, None, 5) "c" (PyInt 3) None).
  - reflexivity.
  - lia.
  - unfold MemoryCache.len. cbn. lia.
  - reflexivity.
  - unfold dict_wf. cbn. apply (bool_decide_unpack _). vm_compute. exact I.
  - reflexivity.
  - reflexivity.
  - discriminate.
  - reflexivity.
  - cbn. lia.
  - discriminate.
  - reflexivity.
Defined.

(** The rename fails: the file of ["k"] is as it was. *)
Lemma DiskCache_set_is_atomic_witness :
  (forall p,
     p <> str_path (path_of (H := example_runtime) example_disk "k") ->
     p <> str_path (temp_path_of (H := example_runtime) example_disk "k") ->
     files (final_world (DiskCache.set (H := example_runtime) "k" (PyBytes [Byte.x2a])
                           (Some 1) example_disk failing_rename_world)) !! p
     = files failing_rename_world !! p)
  /\ (files (final_world (DiskCache.set (H := example_runtime) "k" (PyBytes [Byte.x2a])
                            (Some 1) example_disk failing_rename_world))
        !! str_path (path_of (H := example_runtime) example_disk "k")
      = files failing_rename_world !! str_path (path_of (H := example_runtime) example_disk "k")
      \/ exists raw,
           pickle_dumps (PyRuntime := example_runtime)
             (envelope_of (Some 1) (PyBytes [Byte.x2a]) failing_rename_world) = Some raw
           /\ files (final_world (DiskCache.set (H := example_runtime) "k" (PyBytes [Byte.x2a])
                                    (Some 1) example_disk failing_rename_world))
                !! str_path (path_of (H := example_runtime) example_disk "k")
              = Some (stored_form (H := example_runtime)
                        (DiskCache.compression example_disk) raw)
           /\ files (final_world (DiskCache.set (H := example_runtime) "k" (PyBytes [Byte.x2a])
                                    (Some 1) example_disk failing_rename_world))
                !! str_path (temp_path_of (H := example_runtime) example_disk "k")
              = None).
Proof.
  apply (DiskCache_set_is_atomic (H := example_runtime) example_disk failing_rename_world
           "k" (PyBytes [Byte.x2a]) (Some 1)).
  split; reflexivity.
Defined.


Lemma DiskCache_get_is_read_only_witness :
  files (final_world (DiskCache.get (H := example_runtime) "k" example_disk
                        corrupt_file_world))
  = files corrupt_file_world.
Proof.
  apply (DiskCache_get_is_read_only (H := example_runtime) example_disk corrupt_file_world "k").
  split; reflexivity.
Defined.


(** The [open] fails. *)
Lemma DiskCache_get_read_error_witness :
  exists e self' w',
    is_OSError e = true /\
    DiskCache.get (H := example_runtime) "k" example_disk
      (with_faults [false; true] corrupt_file_world)
    = Returned PyNone self' w'
    /\ files w' = files (with_faults [false; true] corrupt_file_world)
    /\ logged w'
       = List.app (logged (with_faults [false; true] corrupt_file_world))
           ["Error reading cache file "
            ++ str_path (path_of (H := example_runtime) example_disk "k") ++ ": "
            ++ exn_str e]
    /\ faults w' = []
    /\ idle (H := example_runtime) self' "k".
Proof.
  apply (DiskCache_get_read_error (H := example_runtime) example_disk
           (with_faults [false; true] corrupt_file_world) "k" [Byte.x01] []).
  - split; reflexivity.
  - reflexivity.
  - left. reflexivity.
Defined.

Lemma DiskCache_delete_then_get_witness :
  exists self1 w1 self2 w2,
    DiskCache.delete (H := example_runtime) "k" example_disk corrupt_file_world
    = Returned tt self1 w1
    /\ files w1
       = base.delete (str_path (path_of (H := example_runtime) example_disk "k"))
           (files corrupt_file_world)
    /\ logged w1 = logged corrupt_file_world
    /\ DiskCache.get (H := example_runtime) "k" self1 w1 = Returned PyNone self2 w2
    /\ files w2 = files w1.
Proof.
  apply (DiskCache_delete_then_get (H := example_runtime) example_disk corrupt_file_world "k").
  - reflexivity.
  - split; reflexivity.
Defined.

Lemma DiskCache_delete_swallows_the_error_witness :
  exists e self' w',
    is_OSError e = true /\
    DiskCache.delete (H := example_runtime) "k" example_disk
      (with_faults [false; true] corrupt_file_world)
    = Returned tt self' w'
    /\ files w' = files (with_faults [false; true] corrupt_file_world)
    /\ logged w'
       = List.app (logged (with_faults [false; true] corrupt_file_world))
           ["Error deleting cache file "
            ++ str_path (path_of (H := example_runtime) example_disk "k") ++ ": "
            ++ exn_str e]
    /\ idle (H := example_runtime) self' "k".
Proof.
  apply (DiskCache_delete_swallows_the_error (H := example_runtime) example_disk
           (with_faults [false; true] corrupt_file_world) "k" [Byte.x01] []).
  - split; reflexivity.
  - reflexivity.
  - reflexivity.
Defined.

Lemma DiskCache_clear_then_get_witness :
  exists self1 w1 self2 w2,
    DiskCache.clear example_disk corrupt_file_world = Returned tt self1 w1
    /\ DiskCache.file_locks self1 = ∅
    /\ (forall k, files w1 !! str_path (path_of (H := example_runtime) example_disk k) = None)
    /\ (forall p, String.prefix (DiskCache.base_directory example_disk ++ "/") p = false ->
                  files w1 !! p = files corrupt_file_world !! p)
    /\ DiskCache.get (H := example_runtime) "k" self1 w1 = Returned PyNone self2 w2.
Proof.
  apply (DiskCache_clear_then_get (H := example_runtime) example_disk corrupt_file_world "k").
  - reflexivity.
  - reflexivity.
  - intros handle b Hb. cbn in Hb. by rewrite lookup_empty in Hb.
Defined.


Lemma CacheManager_unavailable_backend_witness :
  exists msg,
    CacheManager.get (HB := Backend_backend (H := example_runtime)) redis_settings
      "k" "app.square" CacheManager.__init__ example_world
    = Raised (runtime_error msg) CacheManager.__init__ example_world
    /\ CacheManager.set (HB := Backend_backend (H := example_runtime)) redis_settings
         "k" (PyInt 1) "app.square" None CacheManager.__init__ example_world
       = Raised (runtime_error msg) CacheManager.__init__ example_world
    /\ CacheManager.delete (HB := Backend_backend (H := example_runtime)) redis_settings
         "k" CacheManager.__init__ example_world
       = Raised (runtime_error msg) CacheManager.__init__ example_world
    /\ CacheManager.clear (HB := Backend_backend (H := example_runtime)) redis_settings
         CacheManager.__init__ example_world
       = Raised (runtime_error msg) CacheManager.__init__ example_world.
Proof.
  apply (CacheManager_unavailable_backend (H := example_runtime) redis_settings
           CacheManager.__init__ example_world "k" (PyInt 1) "app.square" None).
  - reflexivity.
  - discriminate.
  - discriminate.
Defined.

(** With a default of an hour, [set(..., ttl=0)] at twenty expires at
    3620. *)
Lemma CacheManager_zero_ttl_takes_the_default_witness :
  exists store1 w1,
    CacheManager.set (HB := MemoryCache_backend) example_settings "k" (PyInt 7) "app.square"
      (Some 0) (ready (MemoryCache.__init__ None)) example_world
    = Returned tt (ready store1) w1
    /\ dict_get "k" (MemoryCache.cache store1) = Some (PyInt 7, Some 3620, 20)
    /\ CacheManager.set (HB := MemoryCache_backend) example_settings "k" (PyInt 7)
         "app.square" None (ready (MemoryCache.__init__ None)) example_world
       = Returned tt (ready store1) w1.
Proof.
  apply (CacheManager_zero_ttl_takes_the_default example_settings (MemoryCache.__init__ None)
           example_world "k" (PyInt 7) "app.square" 3600).
  - reflexivity.
  - reflexivity.
  - lia.
Defined.




(** [square(5, b=2, a=1)] and [square(5, a=1, b=2)]. *)
Lemma key_ignores_the_order_of_the_keyword_arguments_witness :
  build_cache_key (H := example_runtime) example_settings square [PyInt 5]
    [("b", PyInt 2); ("a", PyInt 1)] None None None
  = build_cache_key (H := example_runtime) example_settings square [PyInt 5]
      [("a", PyInt 1); ("b", PyInt 2)] None None None.
Proof.
  apply (key_ignores_the_order_of_the_keyword_arguments (H := example_runtime)
           example_settings square [PyInt 5] [("b", PyInt 2); ("a", PyInt 1)]
           [("a", PyInt 1); ("b", PyInt 2)] None None).
  - cbn. apply (bool_decide_unpack _). vm_compute. exact I.
  - apply perm_swap.
Defined.

(** The default handler raises; the subscribed one still sees the
    event. *)
Lemma EventEmitter_emit_calls_every_handler_witness :
  exists w',
    EventEmitter.emit EventType_value example_emitter CACHE_HIT [("key", PyStr "k")]
      [] example_world
    = Returned tt ["cache_hit"] w'
    /\ ticks w' = 1%nat
    /\ (length (logged w') <= 2)%nat.
Proof.
  edestruct (EventEmitter_emit_calls_every_handler EventType_value example_emitter CACHE_HIT
               [("key", PyStr "k")] [] example_world) as (w' & Hrun & Hticks & Hlog & _).
  - reflexivity.
  - intros h d s e [<-|[<-|[]]] He; cbn in He; [by injection He as <- | discriminate].
  - exists w'. split; [exact Hrun|]. split; [exact Hticks | exact Hlog].
Defined.

Lemma BackendRegistry_register_then_remove_witness :
  BackendRegistry.get (Some "b")
    (BackendRegistry.register "b" 2%nat false
       (BackendRegistry.register "a" 1%nat false BackendRegistry.__init__))
  = inr 2%nat
  /\ BackendRegistry.get_default_name
       (BackendRegistry.register "b" 2%nat false
          (BackendRegistry.register "a" 1%nat false BackendRegistry.__init__))
     = Some "a".
Proof.
  destruct (BackendRegistry_register_then_remove
              (BackendRegistry.register "a" 1%nat false BackendRegistry.__init__)
              "b" 2%nat false) as (Hget & _ & Hdefault & _).
  - unfold dict_wf. cbn. apply (bool_decide_unpack _). vm_compute. exact I.
  - split; [exact Hget | exact Hdefault].
Defined.
